(** * planet_api_workshop: the asset-retrieval notebooks

    A shallow embedding of the Python cells of
    [notebooks/5_ActivationAndDownload.ipynb] and of the session set-up cell
    shared by both notebooks ([setup_session]), together with the properties
    of search, activation, polling and download that the specification
    states about them.

    Python values coming from JSON are modelled by the type [json]; the
    exceptions the cells can raise by [exn]; a call of a cell's function is a
    computation in the monad [M], which threads the state of the outside
    world (the remote service, the local disk), records the observable
    actions in a trace and ends in a return value, an exception or, for the
    two unbounded [while] loops, in [OutOfFuel]. *)

From Stdlib Require Import String Ascii List ZArith QArith Bool Arith Lia.
From Stdlib.Strings Require Import Byte.
Import ListNotations.

Set Warnings "-register-all".

Local Open Scope string_scope.
Local Open Scope Z_scope.
Local Open Scope list_scope.

(** ** Python values *)

(** The result of [response.json()]: the value a JSON text denotes.  A number
    is kept as its decimal literal [m * 10^e]; a dict is kept as its list of
    items in insertion order. *)
Inductive json : Type :=
| JNull
| JBool (b : bool)
| JNum (m e : Z)
| JStr (s : string)
| JArr (items : list json)
| JObj (items : list (string * json)).

(** The exception classes the cells can raise.  [OtherError] stands for any
    exception that comes out of the environment (a refused connection, a
    failing disk, an ill-formed URL). *)
Inductive exn : Type :=
| HTTPError (status : Z)
| RetryError (status : Z)
| KeyError (key : string)
| IndexError
| TypeError
| AttributeError
| JSONDecodeError
| OtherError (cls : string).

Definition exn_class (e : exn) : string :=
  match e with
  | HTTPError _ => "HTTPError"
  | RetryError _ => "RetryError"
  | KeyError _ => "KeyError"
  | IndexError => "IndexError"
  | TypeError => "TypeError"
  | AttributeError => "AttributeError"
  | JSONDecodeError => "JSONDecodeError"
  | OtherError cls => cls
  end.

Inductive result (A : Type) : Type :=
| Ok (a : A)
| Err (e : exn).
Arguments Ok {A} a.
Arguments Err {A} e.

Definition dquote : ascii := "034"%char.
Definition newline : ascii := "010"%char.

Fixpoint assoc {A : Type} (k : string) (l : list (string * A)) : option A :=
  match l with
  | [] => None
  | (k', v) :: l' => if String.eqb k k' then Some v else assoc k l'
  end.

(** [d[k]] for a string key [k]: only a dict can be subscripted by a string. *)
Definition getitem (d : json) (k : string) : result json :=
  match d with
  | JObj items =>
      match assoc k items with
      | Some v => Ok v
      | None => Err (KeyError k)
      end
  | _ => Err TypeError
  end.

(** [d.get(k)]: [None] when the key is missing; only dicts have the method. *)
Definition dict_get (d : json) (k : string) : result json :=
  match d with
  | JObj items =>
      match assoc k items with
      | Some v => Ok v
      | None => Ok JNull
      end
  | _ => Err AttributeError
  end.

(** Truth value of a Python object, as tested by [while next_url:]. *)
Definition truthy (v : json) : bool :=
  match v with
  | JNull => false
  | JBool b => b
  | JNum m _ => negb (m =? 0)
  | JStr s => negb (String.eqb s "")
  | JArr items => match items with [] => false | _ => true end
  | JObj items => match items with [] => false | _ => true end
  end.

(** [v == s] for a string literal [s]. *)
Definition eq_str (v : json) (s : string) : bool :=
  match v with
  | JStr s' => String.eqb s' s
  | _ => false
  end.

Fixpoint chars (s : string) : list json :=
  match s with
  | EmptyString => []
  | String c s' => JStr (String c EmptyString) :: chars s'
  end.

(** The items a [for] loop draws from a value: the elements of a list, the
    keys of a dict, the characters of a string; nothing else is iterable. *)
Definition py_iter (v : json) : result (list json) :=
  match v with
  | JArr items => Ok items
  | JObj items => Ok (map (fun kv => JStr (fst kv)) items)
  | JStr s => Ok (chars s)
  | _ => Err TypeError
  end.

(** [all(l)] on a list of booleans. *)
Definition all (l : list bool) : bool := forallb (fun b => b) l.

(** ** Strings: header names and the file-name pattern *)

Definition lower_ascii (c : ascii) : ascii :=
  let n := nat_of_ascii c in
  if (Nat.leb 65 n && Nat.leb n 90)%bool then ascii_of_nat (n + 32) else c.

Fixpoint lower (s : string) : string :=
  match s with
  | EmptyString => EmptyString
  | String c s' => String (lower_ascii c) (lower s')
  end.

(** [response.headers] is a case-insensitive dict. *)
Fixpoint header_lookup (k : string) (hs : list (string * string)) : option string :=
  match hs with
  | [] => None
  | (k', v) :: hs' =>
      if String.eqb (lower k) (lower k') then Some v else header_lookup k hs'
  end.

Definition header_getitem (hs : list (string * string)) (k : string) : result string :=
  match header_lookup k hs with
  | Some v => Ok v
  | None => Err (KeyError (lower k))
  end.

(** The literal part of the pattern [filename="(.+)"]. *)
Definition filename_prefix : string := ("filename=" ++ String dquote EmptyString)%string.

Fixpoint strip_prefix (p s : string) : option string :=
  match p with
  | EmptyString => Some s
  | String a p' =>
      match s with
      | EmptyString => None
      | String b s' => if Ascii.eqb a b then strip_prefix p' s' else None
      end
  end.

(** What [.] can match from the start of [s]: everything up to a newline. *)
Fixpoint line_prefix (s : string) : string :=
  match s with
  | EmptyString => EmptyString
  | String c s' => if Ascii.eqb c newline then EmptyString else String c (line_prefix s')
  end.

(** The part of [s] before its last double quote, if it has one. *)
Fixpoint before_last_quote (s : string) : option string :=
  match s with
  | EmptyString => None
  | String c s' =>
      match before_last_quote s' with
      | Some cap => Some (String c cap)
      | None => if Ascii.eqb c dquote then Some EmptyString else None
      end
  end.

(** The group captured by the greedy [(.+)] and the quote after it, at the
    start of [s]: at least one character, as many as the line allows, then a
    closing quote. *)
Definition greedy_group (s : string) : option string :=
  match line_prefix s with
  | EmptyString => None
  | String c run =>
      match before_last_quote run with
      | Some cap => Some (String c cap)
      | None => None
      end
  end.

Definition match_here (s : string) : option string :=
  match strip_prefix filename_prefix s with
  | Some rest => greedy_group rest
  | None => None
  end.

(** [re.findall(r'filename="(.+)"', s)]: the captured groups of the
    non-overlapping matches, leftmost first.  [skip] counts the characters
    still covered by the previous match. *)
Fixpoint findall_from (s : string) (skip : nat) : list string :=
  match s with
  | EmptyString => []
  | String _ s' =>
      match skip with
      | S k => findall_from s' k
      | O =>
          match match_here s with
          | Some cap =>
              cap :: findall_from s' (String.length filename_prefix + String.length cap)
          | None => findall_from s' O
          end
      end
  end.

Definition re_findall_filename (s : string) : list string := findall_from s O.

(** [c] does not occur in [s]. *)
Fixpoint free_of (c : ascii) (s : string) : bool :=
  match s with
  | EmptyString => true
  | String a s' => (negb (Ascii.eqb a c) && free_of c s')%bool
  end.

(** [l[0]] *)
Definition index0 {A : Type} (l : list A) : result A :=
  match l with
  | x :: _ => Ok x
  | [] => Err IndexError
  end.

(** ** Responses, the environment and the trace *)

(** What the cells read of a [requests.Response]: [json_body] is the value
    [response.json()] decodes ([None] when the body is not JSON), [raw] the
    bytes of the body stream. *)
Record Response : Type := mkResponse {
  status_code : Z;
  headers : list (string * string);
  json_body : option json;
  raw : list byte
}.

(** The observable actions of a cell, in the order they happen. *)
Inductive event : Type :=
| EvGet (url : json) (stream : bool) (r : result Response)
| EvPost (url : json) (body : json) (r : result Response)
| EvSleep (seconds : Q)
| EvPrint (line : string)
| EvWrite (path : string) (data : list byte) (r : result unit)
| EvYield (v : json).

Definition trace : Type := list event.

(** The world a cell runs in.  [session_get] and [session_post] are the
    methods of the global [session] (whatever the value passed as URL),
    [copy_to_file] is the block
    [with open(filename, 'wb') as outfile: shutil.copyfileobj(response.raw, outfile)],
    [time_sleep] is [time.sleep]. *)
Class Env (W : Type) : Type := {
  session_get : json -> bool -> W -> result Response * W;
  session_post : json -> json -> W -> result Response * W;
  copy_to_file : string -> list byte -> W -> result unit * W;
  time_sleep : Q -> W -> W
}.

Inductive outcome (A : Type) : Type :=
| Return (a : A)
| Raise (e : exn)
| OutOfFuel.
Arguments Return {A} a.
Arguments Raise {A} e.
Arguments OutOfFuel {A}.

(** A computation: from a world to an outcome, the world it leaves and the
    actions performed. *)
Definition M (W A : Type) : Type := W -> outcome A * W * trace.

Definition ret {W A : Type} (a : A) : M W A := fun w => (Return a, w, []).

Definition raise {W A : Type} (e : exn) : M W A := fun w => (Raise e, w, []).

Definition out_of_fuel {W A : Type} : M W A := fun w => (OutOfFuel, w, []).

Definition bind {W A B : Type} (m : M W A) (f : A -> M W B) : M W B :=
  fun w =>
    match m w with
    | (Return a, w1, t1) =>
        match f a w1 with
        | (r, w2, t2) => (r, w2, t1 ++ t2)
        end
    | (Raise e, w1, t1) => (Raise e, w1, t1)
    | (OutOfFuel, w1, t1) => (OutOfFuel, w1, t1)
    end.

(** The run [x], with the actions [t] done before it. *)
Definition prepend {W A : Type} (t : trace) (x : outcome A * W * trace)
  : outcome A * W * trace :=
  match x with
  | (r, w, t') => (r, w, t ++ t')
  end.

Definition lift {W A : Type} (r : result A) : M W A :=
  match r with
  | Ok a => ret a
  | Err e => raise e
  end.

Definition emit {W : Type} (ev : event) : M W unit := fun w => (Return tt, w, [ev]).

Declare Scope py_scope.
Delimit Scope py_scope with py.
Notation "x <- c1 ;; c2" := (bind c1 (fun x => c2))
  (at level 61, c1 at next level, right associativity) : py_scope.
Notation "c1 ;; c2" := (bind c1 (fun _ => c2))
  (at level 61, right associativity) : py_scope.
Local Open Scope py_scope.

(** [for x in l: body(x)] *)
Fixpoint for_each {W A : Type} (l : list A) (body : A -> M W unit) : M W unit :=
  match l with
  | [] => ret tt
  | x :: l' => body x ;; for_each l' body
  end.

(** [[f(x) for x in l]] *)
Fixpoint comprehension {W A B : Type} (f : A -> M W B) (l : list A) : M W (list B) :=
  match l with
  | [] => ret []
  | x :: l' => y <- f x ;; ys <- comprehension f l' ;; ret (y :: ys)
  end.

(** The values a generator has yielded. *)
Fixpoint yields (t : trace) : list json :=
  match t with
  | [] => []
  | EvYield v :: t' => v :: yields t'
  | _ :: t' => yields t'
  end.

(** [list(g)] for a generator [g]: runs it to its end and collects what it
    yielded. *)
Definition py_list {W : Type} (g : M W unit) : M W (list json) :=
  fun w =>
    match g w with
    | (Return _, w', t) => (Return (yields t), w', t)
    | (Raise e, w', t) => (Raise e, w', t)
    | (OutOfFuel, w', t) => (OutOfFuel, w', t)
    end.

(** ** The cells of the notebook *)

Definition PLANET_API_URL : string := "https://api.planet.com/data/v1".

Section Notebook.

Context {W : Type} {E : Env W}.

Definition get (url : json) (stream : bool) : M W Response :=
  fun w =>
    match session_get url stream w with
    | (Ok r, w') => (Return r, w', [EvGet url stream (Ok r)])
    | (Err e, w') => (Raise e, w', [EvGet url stream (Err e)])
    end.

Definition post (url : json) (body : json) : M W Response :=
  fun w =>
    match session_post url body w with
    | (Ok r, w') => (Return r, w', [EvPost url body (Ok r)])
    | (Err e, w') => (Raise e, w', [EvPost url body (Err e)])
    end.

Definition write_file (path : string) (data : list byte) : M W unit :=
  fun w =>
    match copy_to_file path data w with
    | (Ok u, w') => (Return tt, w', [EvWrite path data (Ok u)])
    | (Err e, w') => (Raise e, w', [EvWrite path data (Err e)])
    end.

Definition sleep (seconds : Q) : M W unit :=
  fun w => (Return tt, time_sleep seconds w, [EvSleep seconds]).

Definition print (line : string) : M W unit := emit (EvPrint line).

Definition yield (v : json) : M W unit := emit (EvYield v).

(** [response.raise_for_status()]: an error for the 4xx and 5xx codes. *)
Definition raise_for_status (r : Response) : M W unit :=
  if ((400 <=? status_code r) && (status_code r <? 600))%bool
  then raise (HTTPError (status_code r))
  else ret tt.

(** [response.json()] *)
Definition resp_json (r : Response) : M W json :=
  match json_body r with
  | Some j => ret j
  | None => raise JSONDecodeError
  end.

(** The polling cell for a single scene:
    [while True: ... if assets[asset_name]['status'] == 'active': break
     else: time.sleep(0.5)]. *)
Fixpoint poll_scene (fuel : nat) (assets_url : json) (asset_name : string) : M W json :=
  match fuel with
  | O => out_of_fuel
  | S n =>
      res <- get assets_url false ;;
      raise_for_status res ;;
      assets <- resp_json res ;;
      a <- lift (getitem assets asset_name) ;;
      st <- lift (getitem a "status") ;;
      if eq_str st "active"
      then print "Asset is active and ready to download" ;; ret assets
      else sleep (1 # 2) ;; poll_scene n assets_url asset_name
  end.

Definition perm_filter (asset : string) : json :=
  JObj [("type", JStr "PermissionFilter");
        ("config", JArr [JStr ("assets." ++ asset ++ ":download")%string])].

Definition geom_filter (geom : json) : json :=
  JObj [("type", JStr "GeometryFilter");
        ("field_name", JStr "geometry");
        ("config", geom)].

Definition date_filter (start_date end_date : json) : json :=
  JObj [("type", JStr "DateRangeFilter");
        ("field_name", JStr "acquired");
        ("config", JObj [("gt", start_date); ("lte", end_date)])].

Definition and_filter (geom start_date end_date : json) (asset : string) : json :=
  JObj [("type", JStr "AndFilter");
        ("config", JArr [perm_filter asset; geom_filter geom;
                         date_filter start_date end_date])].

Definition search_request (geom start_date end_date item_type : json) (asset : string) : json :=
  JObj [("item_types", JArr [item_type]);
        ("filter", and_filter geom start_date end_date asset)].

(** The [while next_url:] loop of [search]. *)
Fixpoint search_pages (fuel : nat) (next_url : json) : M W unit :=
  if truthy next_url then
    match fuel with
    | O => out_of_fuel
    | S n =>
        response <- get next_url false ;;
        raise_for_status response ;;
        body <- resp_json response ;;
        links <- lift (getitem body "_links") ;;
        next_url' <- lift (dict_get links "_next") ;;
        features <- lift (getitem body "features") ;;
        items <- lift (py_iter features) ;;
        for_each items yield ;;
        search_pages n next_url'
    end
  else ret tt.

(** The generator [search], run to its end. *)
Definition search (fuel : nat) (geom start_date end_date item_type : json) (asset : string)
  : M W unit :=
  resp <- post (JStr (PLANET_API_URL ++ "/quick-search")%string)
               (search_request geom start_date end_date item_type asset) ;;
  raise_for_status resp ;;
  body <- resp_json resp ;;
  features <- lift (getitem body "features") ;;
  items <- lift (py_iter features) ;;
  for_each items yield ;;
  links <- lift (getitem body "_links") ;;
  next_url <- lift (dict_get links "_next") ;;
  search_pages fuel next_url.

Definition _fetch_assets (feature : json) : M W json :=
  links <- lift (getitem feature "_links") ;;
  assets_url <- lift (getitem links "assets") ;;
  resp <- get assets_url false ;;
  raise_for_status resp ;;
  resp_json resp.

(** [assets[asset_name]['status']] *)
Definition asset_status (assets : json) (asset_name : string) : result json :=
  match getitem assets asset_name with
  | Ok a => getitem a "status"
  | Err e => Err e
  end.

(** [assets[asset_name]['_links']['activate']] *)
Definition activate_link (assets : json) (asset_name : string) : result json :=
  match getitem assets asset_name with
  | Ok a =>
      match getitem a "_links" with
      | Ok l => getitem l "activate"
      | Err e => Err e
      end
  | Err e => Err e
  end.

(** The body of the loop of [activate]. *)
Definition activate_one (asset_name : string) (feature : json) : M W unit :=
  assets <- _fetch_assets feature ;;
  st <- lift (asset_status assets asset_name) ;;
  if eq_str st "inactive" then
    url <- lift (activate_link assets asset_name) ;;
    response <- get url false ;;
    raise_for_status response
  else ret tt.

Definition activate (results : list json) (asset_name : string) : M W unit :=
  for_each results (activate_one asset_name).

(** The list comprehension of [wait_for_active]: one status per result. *)
Definition poll_statuses (results : list json) (asset_name : string) : M W (list json) :=
  comprehension
    (fun item => assets <- _fetch_assets item ;; lift (asset_status assets asset_name))
    results.

(** The [while not all(active):] loop; [fuel] bounds the number of rounds. *)
Fixpoint wait_loop (fuel : nat) (results : list json) (asset_name : string)
  (active : list bool) : M W unit :=
  if all active then ret tt
  else
    match fuel with
    | O => out_of_fuel
    | S n =>
        statuses <- poll_statuses results asset_name ;;
        wait_loop n results asset_name (map (fun item => eq_str item "active") statuses)
    end.

Definition wait_for_active (fuel : nat) (results : list json) (asset_name : string)
  : M W unit :=
  wait_loop fuel results asset_name [false].

(** [assets[asset_name]['location']] *)
Definition asset_location (assets : json) (asset_name : string) : result json :=
  match getitem assets asset_name with
  | Ok a => getitem a "location"
  | Err e => Err e
  end.

(** The body of the loop of [download]; its value is the name it yields. *)
Definition download_one (asset_name : string) (feature : json) : M W string :=
  assets <- _fetch_assets feature ;;
  download_url <- lift (asset_location assets asset_name) ;;
  response <- get download_url true ;;
  raise_for_status response ;;
  disposition <- lift (header_getitem (headers response) "Content-Disposition") ;;
  filename <- lift (index0 (re_findall_filename disposition)) ;;
  print ("Downloading " ++ filename)%string ;;
  write_file filename (raw response) ;;
  ret filename.

(** The generator [download], run to its end. *)
Definition download (results : list json) (asset_name : string) : M W unit :=
  for_each results
    (fun feature => filename <- download_one asset_name feature ;; yield (JStr filename)).

End Notebook.

(** ** The session

    [setup_session] configures a [requests.Session]: basic authentication and
    a [urllib3.util.retry.Retry] policy on the adapter mounted for
    [https://].  What [requests] and [urllib3] then do with a call of
    [session.request] (and so of [session.get] and [session.post]) is
    modelled here from the libraries: the request is prepared, sent through
    the adapter mounted for its URL, sent again as that adapter's policy
    says, and, when the answer is a redirect, sent on to the new URL as a
    further hop with an adapter and a policy of its own.  The parts of the
    libraries that read the clock, the netrc file or the structure of a URL
    are parameters of the model. *)
Module Session.

(** An entry of [Retry.history]: the status of the response that was
    retried (nothing for a failed exchange) and the place it redirected
    to, if it did. *)
Record RequestHistory : Type := mkRequestHistory {
  status : option Z;
  redirect_location : option string
}.

(** The fields of [Retry] that the retry loop reads.  [total] is the number
    of retries still allowed; [read_retried] is [false] for [read=False];
    [backoff_factor] is the exact value of the float; [history] has one
    entry per retry so far, the most recent first. *)
Record Retry : Type := mkRetry {
  total : Z;
  read_retried : bool;
  backoff_factor : Q;
  status_forcelist : list Z;
  history : list RequestHistory
}.

Record Session : Type := mkSession {
  auth : option (option string * string);
  adapters : list (string * Retry)
}.

(** The value of the literal [0.2]: the double nearest to one fifth. *)
Definition double_0_2 : Q := 3602879701896397 # 18014398509481984.

(** [HTTPAdapter()]: [max_retries] is [Retry(0, read=False)]. *)
Definition default_retries : Retry :=
  {| total := 0; read_retried := false; backoff_factor := 0;
     status_forcelist := []; history := [] |}.

(** [requests.Session()] *)
Definition new_session : Session :=
  {| auth := None;
     adapters := [("https://", default_retries); ("http://", default_retries)] |}.

Fixpoint replace {A : Type} (k : string) (v : A) (l : list (string * A)) : option (list (string * A)) :=
  match l with
  | [] => None
  | (k', v') :: l' =>
      if String.eqb k k' then Some ((k, v) :: l')
      else match replace k v l' with
           | Some r => Some ((k', v') :: r)
           | None => None
           end
  end.

(** [session.mount(prefix, adapter)]: the adapter is stored under the prefix
    and the shorter prefixes are moved behind it. *)
Definition mount (prefix : string) (r : Retry) (s : Session) : Session :=
  let stored :=
    match replace prefix r (adapters s) with
    | Some l => l
    | None => adapters s ++ [(prefix, r)]
    end in
  let shorter (kv : string * Retry) :=
    Nat.ltb (String.length (fst kv)) (String.length prefix) in
  {| auth := auth s;
     adapters := filter (fun kv => negb (shorter kv)) stored ++ filter shorter stored |}.

(** [setup_session(api_key=None)]; [environ] is the process environment read
    by [os.getenv].  No statement of the body raises. *)
Definition setup_session (api_key : option string) (environ : string -> option string)
  : outcome Session :=
  let api_key :=
    match api_key with
    | None => environ "PL_API_KEY"
    | Some k => Some k
    end in
  let session := new_session in
  let session := {| auth := Some (api_key, ""); adapters := adapters session |} in
  let retries :=
    {| total := 5; read_retried := true; backoff_factor := double_0_2;
       status_forcelist := [429]; history := [] |} in
  let session := mount "https://" retries session in
  Return session.

(** The policy [setup_session] mounts: [Retry(total=5, backoff_factor=0.2,
    status_forcelist=[429])]. *)
Definition https_retries : Retry :=
  {| total := 5; read_retried := true; backoff_factor := double_0_2;
     status_forcelist := [429]; history := [] |}.

Definition upper_ascii (c : ascii) : ascii :=
  let n := nat_of_ascii c in
  if (Nat.leb 97 n && Nat.leb n 122)%bool then ascii_of_nat (n - 32) else c.

Fixpoint upper (s : string) : string :=
  match s with
  | EmptyString => EmptyString
  | String c s' => String (upper_ascii c) (upper s')
  end.

(** The parts of a prepared request that the policies and the redirects
    read or change: the method, the URL, and the user name and password
    that the [Authorization: Basic] header encodes. *)
Record Request : Type := mkRequest {
  method : string;
  url : string;
  authorization : option (string * string)
}.

(** [HTTPBasicAuth] on [session.auth]: a user name that is not a string is
    put through [str], so a missing key goes out as the text [None]. *)
Definition basic_credentials (a : option string * string) : string * string :=
  (match fst a with
   | Some user => user
   | None => "None"
   end, snd a).

(** How an exchange can fail, as [Retry.increment] tells the errors apart:
    before the request reached the service ([ConnectTimeoutError],
    [NewConnectionError]); after it was sent ([ReadTimeoutError],
    [ProtocolError]); another error that [urlopen] catches ([SSLError]); an
    exception that it does not catch. *)
Inductive failure : Type :=
| ConnectFailure
| ReadFailure
| OtherFailure
| Uncaught.

Inductive reply : Type :=
| Responded (resp : Response)
| Failed (f : failure).

(** The remote service, the network and the clock.  [exchange] sends one
    request and gets a response or fails.  [parse_retry_after] is what
    [Retry.parse_retry_after] makes of a [Retry-After] value: the seconds to
    wait, from a number or from a date and the clock, or nothing when the
    library raises on the value ([InvalidHeader], when it is neither).
    [read_content] tells how reading the body of a response fails, if it
    does. *)
Class Transport (N : Type) : Type := {
  exchange : Request -> N -> reply * N;
  parse_retry_after : string -> N -> option Q;
  read_content : Response -> N -> option failure
}.

(** What [requests] takes from the text of a URL and from the user's files:
    [prepare_url] is [PreparedRequest.prepare_url] (nothing when it raises);
    [to_native_string] decodes the bytes of a [Location] header as UTF-8
    (nothing when they are not); [redirect_url] is the URL of the next hop
    that [resolve_redirects] makes of the URL of this one and the location
    (nothing when the location cannot be parsed); [should_strip_auth],
    [get_netrc_auth] and [get_auth_from_url] are the functions of these
    names. *)
Class Locator : Type := {
  prepare_url : string -> option string;
  to_native_string : string -> option string;
  redirect_url : string -> string -> option string;
  should_strip_auth : string -> string -> bool;
  get_netrc_auth : string -> option (string * string);
  get_auth_from_url : string -> option (string * string)
}.

(** What happens on the wire during one hop: an exchange that was answered,
    an exchange that failed, a pause of the backoff, a pause that a
    [Retry-After] header asked for. *)
Inductive wire_event : Type :=
| Attempt (req : Request) (resp : Response)
| Fault (req : Request) (f : failure)
| Backoff (seconds : Q)
| RetryAfter (seconds : Q).

(** How a call, or a hop of it, ends: the response is handed back;
    [RetryError], the retries being used up on responses of that status;
    the exception [requests] has for an exchange that failed for good;
    [InvalidHeader] for a [Retry-After] value; the exception for a body that
    could not be read; [InvalidSchema], no adapter being mounted for the
    URL; the exception of [prepare_url]; the exception for a location that
    cannot be decoded or parsed; [TooManyRedirects]; or the bound on the
    loop of the model ran out. *)
Inductive ending : Type :=
| Answered (resp : Response)
| Exhausted (code : Z)
| Broken (f : failure)
| InvalidRetryAfter (value : string)
| ContentFailed (f : failure)
| NoAdapter
| InvalidURL
| BadLocation
| TooManyRedirects
| Unfinished.

(** One hop of a call: the request it sent, how it ended and what happened
    on the wire. *)
Record hop : Type := mkHop {
  hop_request : Request;
  hop_ending : ending;
  hop_wire : list wire_event
}.

(** [Retry.DEFAULT_ALLOWED_METHODS] *)
Definition retryable_methods : list string :=
  ["HEAD"; "GET"; "PUT"; "DELETE"; "OPTIONS"; "TRACE"].

(** [Retry.RETRY_AFTER_STATUS_CODES] *)
Definition retry_after_status_codes : list Z := [413; 429; 503].

(** [HTTPResponse.REDIRECT_STATUSES] of urllib3 and [REDIRECT_STATI] of
    requests. *)
Definition redirect_statuses : list Z := [301; 302; 303; 307; 308].

Definition mem_string (s : string) (l : list string) : bool := existsb (String.eqb s) l.

Definition mem_Z (z : Z) (l : list Z) : bool := existsb (Z.eqb z) l.

(** [Retry._is_method_retryable(method)] *)
Definition is_method_retryable (meth : string) : bool :=
  mem_string (upper meth) retryable_methods.

(** [Retry.is_retry(method, status_code, has_retry_after)] *)
Definition is_retry (r : Retry) (meth : string) (code : Z) (has_retry_after : bool) : bool :=
  if negb (is_method_retryable meth) then false
  else if mem_Z code (status_forcelist r) then true
  else (negb (total r =? 0) && has_retry_after && mem_Z code retry_after_status_codes)%bool.

(** [HTTPResponse.get_redirect_location()], when it is a location. *)
Definition get_redirect_location (resp : Response) : option string :=
  if mem_Z (status_code resp) redirect_statuses then
    match header_lookup "location" (headers resp) with
    | Some l => if String.eqb l "" then None else Some l
    | None => None
    end
  else None.

(** [Retry.increment(method, url, response, error)], for a response that
    [is_retry] accepted or for an error that is counted: one retry less,
    one more entry in the history. *)
Definition increment (r : Retry) (response : option Response) : Retry :=
  let entry :=
    match response with
    | None => {| status := None; redirect_location := None |}
    | Some resp =>
        {| status := if status_code resp =? 0 then None else Some (status_code resp);
           redirect_location := get_redirect_location resp |}
    end in
  {| total := total r - 1;
     read_retried := read_retried r;
     backoff_factor := backoff_factor r;
     status_forcelist := status_forcelist r;
     history := entry :: history r |}.

(** The failures that are raised again instead of being counted: an
    exception [urlopen] does not catch, and, in [Retry.increment], a
    failure after the request was sent when reads are not retried or the
    method is not one that is. *)
Definition reraised (r : Retry) (meth : string) (f : failure) : bool :=
  match f with
  | ReadFailure => (negb (read_retried r) || negb (is_method_retryable meth))%bool
  | Uncaught => true
  | _ => false
  end.

(** [Retry.is_exhausted()]: a counter went below zero. *)
Definition is_exhausted (r : Retry) : bool := total r <? 0.

(** [Retry.DEFAULT_BACKOFF_MAX] *)
Definition BACKOFF_MAX : Q := 120 # 1.

(** The number of entries at the recent end of the history that are not
    redirects. *)
Fixpoint consecutive_errors (h : list RequestHistory) : nat :=
  match h with
  | [] => O
  | entry :: h' =>
      match redirect_location entry with
      | None => S (consecutive_errors h')
      | Some _ => O
      end
  end.

(** [Retry.get_backoff_time()]: nothing up to the first retry, then
    [backoff_factor * 2 ** (consecutive_errors_len - 1)], at most
    [BACKOFF_MAX].  The product of a double and a power of two is exact,
    for the few retries that a policy allows. *)
Definition backoff_at (factor : Q) (n : nat) : Q :=
  if Nat.leb n 1 then 0
  else
    let v := Qred (factor * inject_Z (2 ^ (Z.of_nat n - 1))) in
    if Qle_bool BACKOFF_MAX v then BACKOFF_MAX else v.

Definition get_backoff_time (r : Retry) : Q :=
  backoff_at (backoff_factor r) (consecutive_errors (history r)).

(** [Retry._sleep_backoff()]: no pause when the backoff time is zero. *)
Definition sleep_backoff (r : Retry) : list wire_event :=
  if Qle_bool (get_backoff_time r) 0 then [] else [Backoff (get_backoff_time r)].

(** [bool(response.headers.get("Retry-After"))] *)
Definition has_retry_after (resp : Response) : bool :=
  match header_lookup "Retry-After" (headers resp) with
  | Some v => negb (String.eqb v "")
  | None => false
  end.

(** [Session.rebuild_method]: what the method becomes after a redirect of
    the given status. *)
Definition rebuild_method (meth : string) (code : Z) : string :=
  let meth := if ((code =? 303) && negb (String.eqb meth "HEAD"))%bool then "GET" else meth in
  let meth := if ((code =? 302) && negb (String.eqb meth "HEAD"))%bool then "GET" else meth in
  let meth := if ((code =? 301) && String.eqb meth "POST")%bool then "GET" else meth in
  meth.

(** [Session.get_redirect_target(resp)], when there is a target to go to: the
    [Location] of a response with a redirect status, unless it is empty. *)
Definition get_redirect_target (resp : Response) : option string :=
  if mem_Z (status_code resp) redirect_statuses then
    match header_lookup "location" (headers resp) with
    | Some l => if String.eqb l "" then None else Some l
    | None => None
    end
  else None.

Fixpoint starts_with (p s : string) : bool :=
  match p with
  | EmptyString => true
  | String a p' =>
      match s with
      | EmptyString => false
      | String b s' => (Ascii.eqb a b && starts_with p' s')%bool
      end
  end.

(** [Session.get_adapter(url)]: the first mounted prefix the URL starts with. *)
Fixpoint get_adapter (l : list (string * Retry)) (u : string) : option Retry :=
  match l with
  | [] => None
  | (prefix, r) :: l' =>
      if starts_with (lower prefix) (lower u) then Some r else get_adapter l' u
  end.

(** [Session.max_redirects] *)
Definition DEFAULT_REDIRECT_LIMIT : nat := 30.

Section Wire.

Context {N : Type} {T : Transport N} {L : Locator}.

(** [Retry.sleep(response)] after a retried response: the pause its
    [Retry-After] header asks for, when it has one that gives more than no
    time; else the pause of the backoff.  Nothing when the header cannot be
    read. *)
Definition sleep (r : Retry) (resp : Response) (n : N) : option (list wire_event) :=
  match header_lookup "Retry-After" (headers resp) with
  | None => Some (sleep_backoff r)
  | Some v =>
      match parse_retry_after v n with
      | None => None
      | Some seconds =>
          if Qle_bool seconds 0 then Some (sleep_backoff r) else Some [RetryAfter seconds]
      end
  end.

(** [HTTPConnectionPool.urlopen], as [HTTPAdapter.send] calls it: exchange;
    after a failure that the policy counts, and after a response that it
    retries, take one retry off, give up when none is left, else pause and
    exchange again. *)
Fixpoint urlopen (fuel : nat) (r : Retry) (req : Request) (n : N)
  : ending * N * list wire_event :=
  match fuel with
  | O => (Unfinished, n, [])
  | S k =>
      match exchange req n with
      | (Failed f, n1) =>
          if reraised r (method req) f then (Broken f, n1, [Fault req f])
          else
            let r' := increment r None in
            if is_exhausted r' then (Broken f, n1, [Fault req f])
            else
              match urlopen k r' req n1 with
              | (e, n2, t) => (e, n2, Fault req f :: sleep_backoff r' ++ t)
              end
      | (Responded resp, n1) =>
          if is_retry r (method req) (status_code resp) (has_retry_after resp) then
            let r' := increment r (Some resp) in
            if is_exhausted r' then (Exhausted (status_code resp), n1, [Attempt req resp])
            else
              match sleep r' resp n1 with
              | None =>
                  (InvalidRetryAfter
                     (match header_lookup "Retry-After" (headers resp) with
                      | Some v => v
                      | None => ""
                      end), n1, [Attempt req resp])
              | Some pause =>
                  match urlopen k r' req n1 with
                  | (e, n2, t) => (e, n2, Attempt req resp :: pause ++ t)
                  end
              end
          else (Answered resp, n1, [Attempt req resp])
      end
  end.

(** [Session.rebuild_auth]: the credentials for the next hop are those the
    netrc file has for its URL; else those of this hop, unless they are to
    be stripped on the way there. *)
Definition rebuild_auth (req : Request) (target : string) : option (string * string) :=
  match get_netrc_auth target with
  | Some a => Some a
  | None =>
      match authorization req with
      | Some a => if should_strip_auth (url req) target then None else Some a
      | None => None
      end
  end.

(** [Session.send] with [resolve_redirects]: the request goes through the
    adapter mounted for its URL, with as many exchanges as that adapter's
    policy can ask for.  A response that redirects has its body read and is
    followed, by a request rebuilt for the new URL, as long as [redirects]
    more are allowed; for the hops after the first, which [inner] tells, the
    new URL is worked out before the redirects are counted.  A response that
    does not redirect is handed back, its body read unless the call
    streams. *)
Fixpoint send (redirects : nat) (adapters : list (string * Retry)) (inner stream : bool)
              (req : Request) (n : N) : ending * N * list hop :=
  match get_adapter adapters (url req) with
  | None => (NoAdapter, n, [])
  | Some r =>
      match urlopen (S (Z.to_nat (total r))) r req n with
      | (Answered resp, n1, t) =>
          let h := {| hop_request := req; hop_ending := Answered resp; hop_wire := t |} in
          match get_redirect_target resp with
          | None =>
              if stream then (Answered resp, n1, [h])
              else
                match read_content resp n1 with
                | Some f => (ContentFailed f, n1, [h])
                | None => (Answered resp, n1, [h])
                end
          | Some location =>
              match to_native_string location with
              | None => (BadLocation, n1, [h])
              | Some target =>
                  match read_content resp n1 with
                  | Some f => (ContentFailed f, n1, [h])
                  | None =>
                      let next u :=
                        {| method := rebuild_method (method req) (status_code resp);
                           url := u;
                           authorization := rebuild_auth req u |} in
                      if inner then
                        match redirect_url (url req) target with
                        | None => (BadLocation, n1, [h])
                        | Some u =>
                            match redirects with
                            | O => (TooManyRedirects, n1, [h])
                            | S fewer =>
                                match send fewer adapters true stream (next u) n1 with
                                | (e, n2, hops) => (e, n2, h :: hops)
                                end
                            end
                        end
                      else
                        match redirects with
                        | O => (TooManyRedirects, n1, [h])
                        | S fewer =>
                            match redirect_url (url req) target with
                            | None => (BadLocation, n1, [h])
                            | Some u =>
                                match send fewer adapters true stream (next u) n1 with
                                | (e, n2, hops) => (e, n2, h :: hops)
                                end
                            end
                        end
                  end
              end
          end
      | (e, n1, t) => (e, n1, [{| hop_request := req; hop_ending := e; hop_wire := t |}])
      end
  end.

(** [session.request(method, url, stream=stream)]: the request carries the
    method in upper case, the prepared URL and the session's credentials (a
    session without any takes those of the netrc file or of the URL). *)
Definition request (s : Session) (meth u : string) (stream : bool) (n : N)
  : ending * N * list hop :=
  match prepare_url u with
  | None => (InvalidURL, n, [])
  | Some prepared =>
      send DEFAULT_REDIRECT_LIMIT (adapters s) false stream
           {| method := upper meth;
              url := prepared;
              authorization :=
                match auth s with
                | Some a => Some (basic_credentials a)
                | None =>
                    match get_netrc_auth u with
                    | Some a => Some a
                    | None => get_auth_from_url prepared
                    end
                end |} n
  end.

End Wire.

(** The exchanges of a wire trace, the requests they sent, the pauses of the
    backoff and the pauses asked for by a [Retry-After] header. *)
Fixpoint exchanges (t : list wire_event) : list wire_event :=
  match t with
  | [] => []
  | Attempt req resp :: t' => Attempt req resp :: exchanges t'
  | Fault req f :: t' => Fault req f :: exchanges t'
  | _ :: t' => exchanges t'
  end.

Fixpoint sent (t : list wire_event) : list Request :=
  match t with
  | [] => []
  | Attempt req _ :: t' => req :: sent t'
  | Fault req _ :: t' => req :: sent t'
  | _ :: t' => sent t'
  end.

Fixpoint pauses (t : list wire_event) : list Q :=
  match t with
  | [] => []
  | Backoff q :: t' => q :: pauses t'
  | _ :: t' => pauses t'
  end.

Fixpoint waits (t : list wire_event) : list Q :=
  match t with
  | [] => []
  | RetryAfter q :: t' => q :: waits t'
  | _ :: t' => waits t'
  end.

(** A scripted remote service: it answers the exchanges with the replies of
    the script, in turn, and with 200 once the script is used up.  It reads
    a [Retry-After] value made of digits as that number of seconds and no
    other; its bodies can be read. *)
Definition plain_response (code : Z) : Response :=
  {| status_code := code; headers := []; json_body := None; raw := [] |}.

Definition reply_of (code : Z) : reply := Responded (plain_response code).

Definition redirect_reply (code : Z) (location : string) : reply :=
  Responded {| status_code := code; headers := [("Location", location)];
               json_body := None; raw := [] |}.

Definition digit_value (c : ascii) : option Z :=
  let n := nat_of_ascii c in
  if (Nat.leb 48 n && Nat.leb n 57)%bool then Some (Z.of_nat (n - 48)) else None.

Fixpoint digits_value (acc : Z) (s : string) : option Z :=
  match s with
  | EmptyString => Some acc
  | String c s' =>
      match digit_value c with
      | Some d => digits_value (10 * acc + d) s'
      | None => None
      end
  end.

#[global] Instance scripted_transport : Transport (list reply) := {
  exchange _ n :=
    match n with
    | [] => (reply_of 200, [])
    | r :: n' => (r, n')
    end;
  parse_retry_after v _ :=
    match v with
    | EmptyString => None
    | _ => match digits_value 0 v with
           | Some seconds => Some (inject_Z seconds)
           | None => None
           end
    end;
  read_content _ _ := None
}.

(** The locator that goes with it: URLs are taken as they are written, a
    location is the URL of the next hop, every redirect leads to another
    host, and there is no netrc file. *)
#[global] Instance scripted_locator : Locator := {
  prepare_url u := Some u;
  to_native_string l := Some l;
  redirect_url _ target := Some target;
  should_strip_auth _ _ := true;
  get_netrc_auth _ := None;
  get_auth_from_url _ := None
}.

(** Why the policy [r] exchanges again after an exchange: it was answered
    with a response that [is_retry] accepts, or it failed in a way that is
    counted. *)
Definition retried (r : Retry) (ev : wire_event) : Prop :=
  match ev with
  | Attempt req resp =>
      is_method_retryable (method req) = true /\
      (mem_Z (status_code resp) (status_forcelist r) = true \/
       (has_retry_after resp = true /\
        mem_Z (status_code resp) retry_after_status_codes = true))
  | Fault req f =>
      f = ConnectFailure \/ f = OtherFailure \/
      (f = ReadFailure /\ read_retried r = true /\ is_method_retryable (method req) = true)
  | _ => False
  end.

(** The same for the policies of the session of [setup_session]: a 429, or a
    413 or 503 with a [Retry-After] header, in answer to a retried method; a
    failure that was not one of reading the answer; a failure of reading it,
    for a retried method. *)
Definition retried_by_session (ev : wire_event) : Prop :=
  match ev with
  | Attempt req resp =>
      is_method_retryable (method req) = true /\
      (status_code resp = 429 \/
       (has_retry_after resp = true /\
        (status_code resp = 413 \/ status_code resp = 503)))
  | Fault req f =>
      f = ConnectFailure \/ f = OtherFailure \/
      (f = ReadFailure /\ is_method_retryable (method req) = true)
  | _ => False
  end.

(** An exchange whose response, if it got one, has no [Retry-After] header. *)
Definition without_retry_after (ev : wire_event) : Prop :=
  match ev with
  | Attempt _ resp => header_lookup "Retry-After" (headers resp) = None
  | _ => True
  end.

(** The pauses the backoff makes before the retries number [first],
    [first + 1], ... ([count] of them). *)
Definition backoff_pauses (factor : Q) (first count : nat) : list Q :=
  flat_map (fun j => if Qle_bool (backoff_at factor j) 0 then [] else [backoff_at factor j])
           (seq first count).

(** [0.2 * 2 ** (j - 1)], as the doubles have it. *)
Definition pause_before_retry (j : nat) : Q :=
  Qred (double_0_2 * inject_Z (2 ^ (Z.of_nat j - 1))).

(** The time a list of pauses adds up to. *)
Definition total_pause (l : list Q) : Q := fold_right Qplus 0%Q l.

(** The four pauses of the policy of [setup_session] add up to thirty times
    the double [0.2]: six seconds and three parts in 2^53. *)
Definition backoff_budget : Q := 54043195528445955 # 9007199254740992.

End Session.

(** ** Test doubles for the remote service *)
Module Mock.

Definition json_response (status : Z) (j : json) : Response :=
  {| status_code := status; headers := []; json_body := Some j; raw := [] |}.

Definition empty_response (status : Z) : Response :=
  {| status_code := status; headers := []; json_body := None; raw := [] |}.

(** A scripted service: every call of the session consumes the next entry of
    the script, whatever the URL; the disk accepts every file. *)
Definition next_response (w : list (result Response)) : result Response * list (result Response) :=
  match w with
  | [] => (Err (OtherError "ConnectionError"), [])
  | r :: w' => (r, w')
  end.

#[global] Instance script_env : Env (list (result Response)) := {
  session_get _ _ w := next_response w;
  session_post _ _ w := next_response w;
  copy_to_file _ _ w := (Ok tt, w);
  time_sleep _ w := w
}.

(** A service that keeps the state of one asset, [visual], per scene. *)
Inductive asset_state : Type :=
| Inactive
| Activating (polls : nat)
| Active
| Stuck
| Denied
| Broken.

Definition server : Type := list (string * asset_state).

Definition reported (st : asset_state) : string :=
  match st with
  | Inactive | Denied | Broken => "inactive"
  | Activating _ | Stuck => "activating"
  | Active => "active"
  end.

(** Each status check brings an activating asset one step closer. *)
Definition after_poll (st : asset_state) : asset_state :=
  match st with
  | Activating O => Active
  | Activating (S n) => Activating n
  | _ => st
  end.

Definition activation_code (st : asset_state) : Z :=
  match st with
  | Inactive | Activating _ | Stuck => 202
  | Active => 204
  | Denied => 401
  | Broken => 500
  end.

Definition after_activation (st : asset_state) : asset_state :=
  match st with
  | Inactive => Activating 1
  | _ => st
  end.

Fixpoint update (id : string) (f : asset_state -> asset_state) (w : server) : server :=
  match w with
  | [] => []
  | (id', st) :: w' =>
      if String.eqb id id' then (id', f st) :: w' else (id', st) :: update id f w'
  end.

Definition assets_url (id : string) : string := ("https://mock/assets/" ++ id)%string.

Definition activate_url (id : string) : string := ("https://mock/activate/" ++ id)%string.

Definition assets_json (id : string) (st : asset_state) : json :=
  JObj [("visual",
         JObj [("status", JStr (reported st));
               ("_links", JObj [("activate", JStr (activate_url id))])])].

Definition feature (id : string) : json :=
  JObj [("id", JStr id); ("_links", JObj [("assets", JStr (assets_url id))])].

Definition serve (url : json) (w : server) : result Response * server :=
  match url with
  | JStr u =>
      match strip_prefix "https://mock/assets/" u with
      | Some id =>
          match assoc id w with
          | Some st => (Ok (json_response 200 (assets_json id st)), update id after_poll w)
          | None => (Ok (empty_response 404), w)
          end
      | None =>
          match strip_prefix "https://mock/activate/" u with
          | Some id =>
              match assoc id w with
              | Some st =>
                  (Ok (empty_response (activation_code st)), update id after_activation w)
              | None => (Ok (empty_response 404), w)
              end
          | None => (Ok (empty_response 404), w)
          end
      end
  | _ => (Err (OtherError "MissingSchema"), w)
  end.

#[global] Instance server_env : Env server := {
  session_get url _ w := serve url w;
  session_post url _ w := serve url w;
  copy_to_file _ _ w := (Ok tt, w);
  time_sleep _ w := w
}.

(** A page of search results as the service sends it. *)
Definition page_json (features : list json) (next : option string) : json :=
  JObj [("_links",
         JObj (match next with
               | Some u => [("_next", JStr u)]
               | None => []
               end));
        ("features", JArr features);
        ("type", JStr "FeatureCollection")].

Definition page (features : list json) (next : option string) : Response :=
  json_response 200 (page_json features next).

(** The answer to the request for an asset's location. *)
Definition file_response (disposition : option string) (data : list byte) : Response :=
  {| status_code := 200;
     headers :=
       match disposition with
       | Some d => [("Content-Type", "image/tiff"); ("Content-Disposition", d)]
       | None => [("Content-Type", "image/tiff")]
       end;
     json_body := None;
     raw := data |}.

(** The header value [attachment; filename=...] with the name in quotes. *)
Definition attachment (name : string) : string :=
  ("attachment; filename=" ++ String dquote name ++ String dquote EmptyString)%string.

Definition located_json (location : string) : json :=
  JObj [("visual", JObj [("status", JStr "active"); ("location", JStr location)])].

Definition located (location : string) : Response :=
  json_response 200 (located_json location).

(** A service whose every page of results links to one and the same page;
    its state counts the requests it has answered. *)
Definition cycle_link : string := "https://mock/page/again".

#[global] Instance cycle_env : Env nat := {
  session_get _ _ n := (Ok (page [JStr "scene"] (Some cycle_link)), S n);
  session_post _ _ n := (Ok (page [JStr "scene"] (Some cycle_link)), S n);
  copy_to_file _ _ n := (Ok tt, n);
  time_sleep _ n := n
}.

End Mock.

(** ** Descriptions of runs, used to state the properties *)

Section Runs.

Context {W : Type} {E : Env W}.

(** [body] is a page of results: its features, and its next-page link when it
    carries one (a non-empty string under [_links._next]). *)
Definition is_page (body : json) (features : list json) (next : option string) : Prop :=
  getitem body "features" = Ok (JArr features) /\
  exists links,
    getitem body "_links" = Ok links /\
    match next with
    | Some u => dict_get links "_next" = Ok (JStr u) /\ u <> ""
    | None => dict_get links "_next" = Ok JNull
    end.

(** The value of [next_url] after a page with, or without, a link. *)
Definition next_value (next : option string) : json :=
  match next with
  | Some u => JStr u
  | None => JNull
  end.

Definition ok_status (r : Response) : Prop := status_code r < 400 \/ 600 <= status_code r.

(** [follows next w pages w' gets]: starting in world [w] and following the
    link [next], the service hands out [pages] one GET after the other, the
    last of them without a link, and is left in [w']. *)
Inductive follows : option string -> W -> list (list json * option string) -> W -> trace -> Prop :=
| follows_end (w : W) : follows None w [] w []
| follows_step (u : string) (w w1 w' : W) (resp : Response) (body : json)
    (features : list json) (next : option string)
    (pages : list (list json * option string)) (gets : trace) :
    u <> "" ->
    session_get (JStr u) false w = (Ok resp, w1) ->
    ok_status resp ->
    json_body resp = Some body ->
    is_page body features next ->
    follows next w1 pages w' gets ->
    follows (Some u) w ((features, next) :: pages) w'
            (EvGet (JStr u) false (Ok resp) :: gets).

(** The requests of a trace, without what was printed or yielded. *)
Fixpoint requests (t : trace) : trace :=
  match t with
  | [] => []
  | EvGet u s r :: t' => EvGet u s r :: requests t'
  | EvPost u b r :: t' => EvPost u b r :: requests t'
  | _ :: t' => requests t'
  end.

(** [ev] is the fetch of the assets of [feature]: a GET of its assets link,
    answered by [assets]. *)
Definition fetched (feature assets : json) (ev : event) : Prop :=
  exists links url resp,
    getitem feature "_links" = Ok links /\
    getitem links "assets" = Ok url /\
    ok_status resp /\
    json_body resp = Some assets /\
    ev = EvGet url false (Ok resp).

(** [ev] is the status check of [feature]: the fetch of its assets, among
    which [asset_name] has the status [st]. *)
Definition status_check (asset_name : string) (feature : json) (st : json) (ev : event) : Prop :=
  exists assets, fetched feature assets ev /\ asset_status assets asset_name = Ok st.

(** [activated a results t]: the trace [t] is, for each result in turn, its
    status check, followed by one GET of the activation link exactly when
    the status read is [inactive]. *)
Inductive activated (asset_name : string) : list json -> trace -> Prop :=
| activated_nil : activated asset_name [] []
| activated_skip (feature assets st : json) (ev : event) (features : list json) (t : trace) :
    fetched feature assets ev ->
    asset_status assets asset_name = Ok st ->
    st <> JStr "inactive" ->
    activated asset_name features t ->
    activated asset_name (feature :: features) (ev :: t)
| activated_request (feature assets url : json) (resp : Response) (ev : event)
    (features : list json) (t : trace) :
    fetched feature assets ev ->
    asset_status assets asset_name = Ok (JStr "inactive") ->
    activate_link assets asset_name = Ok url ->
    ok_status resp ->
    activated asset_name features t ->
    activated asset_name (feature :: features) (ev :: EvGet url false (Ok resp) :: t).

(** [polled results a w rounds w' t]: from [w], the polling rounds over
    [results] completed one after the other with the status lists [rounds],
    leaving [w'] and the trace [t]. *)
Inductive polled (results : list json) (asset_name : string)
  : W -> list (list json) -> W -> trace -> Prop :=
| polled_nil (w : W) : polled results asset_name w [] w []
| polled_cons (w w1 w' : W) (statuses : list json) (t1 t : trace)
    (rounds : list (list json)) :
    poll_statuses results asset_name w = (Return statuses, w1, t1) ->
    polled results asset_name w1 rounds w' t ->
    polled results asset_name w (statuses :: rounds) w' (t1 ++ t).

Definition all_active (statuses : list json) : bool :=
  all (map (fun item => eq_str item "active") statuses).

(** What [download_one] does once it holds the response: name, print, write. *)
Definition save_response (resp : Response) : M W string :=
  bind (lift (header_getitem (headers resp) "Content-Disposition"))
       (fun disposition =>
          bind (lift (index0 (re_findall_filename disposition)))
               (fun filename =>
                  bind (print ("Downloading " ++ filename)%string)
                       (fun _ => bind (write_file filename (raw resp))
                                      (fun _ => ret filename)))).

(** [round_of a results statuses t]: the trace [t] is one status check per
    result, in the order of [results], and nothing else. *)
Inductive round_of (asset_name : string) : list json -> list json -> trace -> Prop :=
| round_nil : round_of asset_name [] [] []
| round_cons (feature st : json) (ev : event) (features statuses : list json) (evs : trace) :
    status_check asset_name feature st ev ->
    round_of asset_name features statuses evs ->
    round_of asset_name (feature :: features) (st :: statuses) (ev :: evs).

(** [checked a results rounds t]: the trace [t] is the rounds, one after the
    other, each of them a [round_of] over all of [results]. *)
Inductive checked (asset_name : string) (results : list json)
  : list (list json) -> trace -> Prop :=
| checked_nil : checked asset_name results [] []
| checked_cons (statuses : list json) (t1 t : trace) (rounds : list (list json)) :
    round_of asset_name results statuses t1 ->
    checked asset_name results rounds t ->
    checked asset_name results (statuses :: rounds) (t1 ++ t).

(** [served next w pages w' gets last]: as [follows], for pages that need not
    be the last ones: following [next] from [w], the service hands out
    [pages], and [last] is the link of the last of them (or [next] itself
    when there are none). *)
Inductive served
  : option string -> W -> list (list json * option string) -> W -> trace -> option string -> Prop :=
| served_none (next : option string) (w : W) : served next w [] w [] next
| served_step (u : string) (w w1 w' : W) (resp : Response) (body : json)
    (features : list json) (next last : option string)
    (pages : list (list json * option string)) (gets : trace) :
    u <> "" ->
    session_get (JStr u) false w = (Ok resp, w1) ->
    ok_status resp ->
    json_body resp = Some body ->
    is_page body features next ->
    served next w1 pages w' gets last ->
    served (Some u) w ((features, next) :: pages) w'
           (EvGet (JStr u) false (Ok resp) :: gets) last.

(** The paths of the files a trace has written to the end. *)
Fixpoint written (t : trace) : list string :=
  match t with
  | [] => []
  | EvWrite path _ (Ok _) :: t' => path :: written t'
  | _ :: t' => written t'
  end.

(** The paths a trace has opened for writing, written to the end or not. *)
Fixpoint opened (t : trace) : list string :=
  match t with
  | [] => []
  | EvWrite path _ _ :: t' => path :: opened t'
  | _ :: t' => opened t'
  end.

(** The lines a trace has printed. *)
Fixpoint printed (t : trace) : list string :=
  match t with
  | [] => []
  | EvPrint line :: t' => line :: printed t'
  | _ :: t' => printed t'
  end.

(** The pauses of a trace. *)
Fixpoint sleeps (t : trace) : list Q :=
  match t with
  | [] => []
  | EvSleep q :: t' => q :: sleeps t'
  | _ :: t' => sleeps t'
  end.

(** [scene_check url a w assets st w1 ev]: in the world [w] the GET of [url]
    is answered, without an error status, by the JSON value [assets], in
    which the asset [a] has the status [st]; [ev] is that request and [w1]
    the world after it. *)
Definition scene_check (assets_url : json) (asset_name : string) (w : W)
  (assets st : json) (w1 : W) (ev : event) : Prop :=
  exists resp,
    session_get assets_url false w = (Ok resp, w1) /\
    ok_status resp /\
    json_body resp = Some assets /\
    asset_status assets asset_name = Ok st /\
    ev = EvGet assets_url false (Ok resp).

(** [waited url a w k w' t]: from [w], [k] checks in a row read a status
    other than [active], and each was followed by a pause of half a second;
    [t] is these checks and pauses and [w'] the world after the last pause. *)
Inductive waited (assets_url : json) (asset_name : string)
  : W -> nat -> W -> trace -> Prop :=
| waited_none (w : W) : waited assets_url asset_name w 0 w []
| waited_more (w w1 w' : W) (assets st : json) (ev : event) (k : nat) (t : trace) :
    scene_check assets_url asset_name w assets st w1 ev ->
    eq_str st "active" = false ->
    waited assets_url asset_name (time_sleep (1 # 2) w1) k w' t ->
    waited assets_url asset_name w (S k) w' (ev :: EvSleep (1 # 2) :: t).

End Runs.

(** * Properties *)

(** ** Laws of the monad *)

Section MonadLaws.

Context {W A B : Type}.

Lemma bind_return (m : M W A) (f : A -> M W B) (w w1 : W) (a : A) (t1 : trace) :
  m w = (Return a, w1, t1) ->
  bind m f w = (fst (fst (f a w1)), snd (fst (f a w1)), t1 ++ snd (f a w1)).
Proof.
  intros Hm. unfold bind. rewrite Hm.
  destruct (f a w1) as [[r w2] t2]. reflexivity.
Qed.

Lemma bind_return_prepend (m : M W A) (f : A -> M W B) (w w1 : W) (a : A) (t1 : trace) :
  m w = (Return a, w1, t1) -> bind m f w = prepend t1 (f a w1).
Proof. intros Hm. unfold bind, prepend. rewrite Hm. reflexivity. Qed.

Lemma bind_ret (a : A) (f : A -> M W B) (w : W) : bind (ret a) f w = f a w.
Proof. unfold bind, ret. destruct (f a w) as [[r w2] t2]. reflexivity. Qed.

Lemma bind_lift_ok (r : result A) (a : A) (f : A -> M W B) (w : W) :
  r = Ok a -> bind (lift r) f w = f a w.
Proof. intros ->. apply bind_ret. Qed.

Lemma bind_lift_err (r : result A) (e : exn) (f : A -> M W B) (w : W) :
  r = Err e -> bind (lift r) f w = (Raise e, w, []).
Proof. intros ->. reflexivity. Qed.

Lemma prepend_prepend (t1 t2 : trace) (x : outcome B * W * trace) :
  prepend t1 (prepend t2 x) = prepend (t1 ++ t2) x.
Proof. destruct x as [[r w] t]. unfold prepend. rewrite app_assoc. reflexivity. Qed.

Lemma bind_raise (m : M W A) (f : A -> M W B) (w w1 : W) (e : exn) (t1 : trace) :
  m w = (Raise e, w1, t1) -> bind m f w = (Raise e, w1, t1).
Proof. intros Hm. unfold bind. rewrite Hm. reflexivity. Qed.

Lemma bind_out_of_fuel (m : M W A) (f : A -> M W B) (w w1 : W) (t1 : trace) :
  m w = (OutOfFuel, w1, t1) -> bind m f w = (OutOfFuel, w1, t1).
Proof. intros Hm. unfold bind. rewrite Hm. reflexivity. Qed.

Lemma bind_return_inv (m : M W A) (f : A -> M W B) (w w' : W) (b : B) (t : trace) :
  bind m f w = (Return b, w', t) ->
  exists a w1 t1 t2,
    m w = (Return a, w1, t1) /\ f a w1 = (Return b, w', t2) /\ t = t1 ++ t2.
Proof.
  unfold bind. destruct (m w) as [[[a | e | ] w1] t1]; try discriminate.
  destruct (f a w1) as [[r w2] t2] eqn:Hf. intros H. inversion H; subst.
  exists a, w1, t1, t2. auto.
Qed.

Lemma lift_return_inv (r : result A) (w w' : W) (a : A) (t : trace) :
  lift r w = (Return a, w', t) -> r = Ok a /\ w' = w /\ t = [].
Proof.
  destruct r as [x | e]; cbn; intros H; inversion H; subst; auto.
Qed.

End MonadLaws.

Tactic Notation "bind_inv" hyp(H) "as" ident(a) ident(w) ident(t1) ident(t2) ident(H1) ident(H2) :=
  apply bind_return_inv in H;
  destruct H as (a & w & t1 & t2 & H1 & H2 & ->).

Tactic Notation "lift_inv" hyp(H) :=
  apply lift_return_inv in H;
  destruct H as (H & -> & ->).

(** ** The file-name pattern *)

Lemma strip_prefix_sound (p s rest : string) :
  strip_prefix p s = Some rest -> s = (p ++ rest)%string.
Proof.
  revert s. induction p as [| a p IH]; intros s H; cbn in H.
  - inversion H. reflexivity.
  - destruct s as [| b s]; [discriminate |].
    destruct (Ascii.eqb a b) eqn:Hab; [| discriminate].
    apply Ascii.eqb_eq in Hab. subst b. cbn. f_equal. apply IH. exact H.
Qed.

Lemma before_last_quote_sound (s cap : string) :
  before_last_quote s = Some cap ->
  exists post, s = (cap ++ String dquote post)%string.
Proof.
  revert cap. induction s as [| c s IH]; intros cap H; cbn in H; [discriminate |].
  destruct (before_last_quote s) as [cap' |].
  - inversion H; subst. destruct (IH cap' eq_refl) as [post Hs].
    exists post. cbn. f_equal. exact Hs.
  - destruct (Ascii.eqb c dquote) eqn:Hc; [| discriminate].
    inversion H; subst. apply Ascii.eqb_eq in Hc. subst c.
    exists s. reflexivity.
Qed.

Lemma line_prefix_split (s : string) :
  free_of newline (line_prefix s) = true /\
  exists rest, s = (line_prefix s ++ rest)%string.
Proof.
  induction s as [| c s [IHf [rest IHr]]]; cbn.
  - split; [reflexivity | exists EmptyString; reflexivity].
  - destruct (Ascii.eqb c newline) eqn:Hc; cbn.
    + split; [reflexivity | eexists; reflexivity].
    + rewrite Hc, IHf. split; [reflexivity |].
      exists rest. f_equal. exact IHr.
Qed.

Lemma free_of_app_l (c : ascii) (s1 s2 : string) :
  free_of c (s1 ++ s2)%string = true -> free_of c s1 = true.
Proof.
  induction s1 as [| a s1 IH]; cbn; [reflexivity |].
  intros H. apply andb_true_iff in H. destruct H as [Ha Hr].
  rewrite Ha, (IH Hr). reflexivity.
Qed.

Lemma string_app_assoc (s1 s2 s3 : string) :
  ((s1 ++ s2) ++ s3 = s1 ++ (s2 ++ s3))%string.
Proof. induction s1 as [| a s1 IH]; cbn; [reflexivity | f_equal; exact IH]. Qed.

Lemma greedy_group_sound (s cap : string) :
  greedy_group s = Some cap ->
  cap <> "" /\ free_of newline cap = true /\
  exists post, s = (cap ++ String dquote post)%string.
Proof.
  unfold greedy_group. intros H.
  destruct (line_prefix_split s) as [Hfree [rest Hs]].
  destruct (line_prefix s) as [| c run]; [discriminate |].
  destruct (before_last_quote run) as [cap' |] eqn:Hq; [| discriminate].
  inversion H; subst cap. clear H.
  destruct (before_last_quote_sound _ _ Hq) as [post Hrun]. subst run.
  split; [discriminate |]. split.
  - change (String c (cap' ++ String dquote post))%string
      with (String c cap' ++ String dquote post)%string in Hfree.
    apply free_of_app_l in Hfree. exact Hfree.
  - exists (post ++ rest)%string. rewrite Hs at 1. cbn. f_equal.
    rewrite string_app_assoc. reflexivity.
Qed.

(** X13.  The first match of the pattern: the header reads, somewhere, the
    literal prefix, then the captured name -- not empty, on one line --
    then a double quote.  So the name [download] opens is never the empty
    string and never holds a newline. *)
Lemma first_match_shape (disposition filename : string) (more : list string) :
  re_findall_filename disposition = filename :: more ->
  filename <> "" /\ free_of newline filename = true /\
  exists pre post,
    disposition = (pre ++ filename_prefix ++ filename ++ String dquote post)%string.
Proof.
  unfold re_findall_filename.
  induction disposition as [| c d IH]; intros H; [discriminate |].
  cbn [findall_from] in H.
  destruct (match_here (String c d)) as [cap |] eqn:Hm.
  - inversion H; subst cap. clear H.
    unfold match_here in Hm.
    destruct (strip_prefix filename_prefix (String c d)) as [rest |] eqn:Hp; [| discriminate].
    apply strip_prefix_sound in Hp.
    destruct (greedy_group_sound _ _ Hm) as (Hne & Hfree & post & Hrest).
    split; [exact Hne |]. split; [exact Hfree |].
    exists EmptyString, post. rewrite Hp, Hrest. reflexivity.
  - destruct (IH H) as (Hne & Hfree & pre & post & Hd).
    split; [exact Hne |]. split; [exact Hfree |].
    exists (String c pre), post. cbn. f_equal. exact Hd.
Qed.

(** ** Search *)

Section SearchProperties.

Context {W : Type} {E : Env W}.

(** C7.  Whatever the geometry, the dates, the item type and the asset name,
    the first action of [search] is the POST to the quick-search endpoint of
    a body that is exactly: [item_types] holding the one item type, and as
    [filter] an [AndFilter] over, in this order, the [PermissionFilter] on
    [assets.<asset>:download], the [GeometryFilter] on the field [geometry]
    with the given geometry, and the [DateRangeFilter] on the field
    [acquired] with [gt] the start date and [lte] the end date. *)
Theorem search_posts_exact_request_body :
  forall (fuel : nat) (geom start_date end_date item_type : json) (asset : string) (w : W),
  exists (r : result Response) (rest : trace),
    snd (search fuel geom start_date end_date item_type asset w) =
    EvPost
      (JStr "https://api.planet.com/data/v1/quick-search")
      (JObj
         [("item_types", JArr [item_type]);
          ("filter",
           JObj
             [("type", JStr "AndFilter");
              ("config",
               JArr
                 [JObj [("type", JStr "PermissionFilter");
                        ("config", JArr [JStr ("assets." ++ asset ++ ":download")%string])];
                  JObj [("type", JStr "GeometryFilter");
                        ("field_name", JStr "geometry");
                        ("config", geom)];
                  JObj [("type", JStr "DateRangeFilter");
                        ("field_name", JStr "acquired");
                        ("config", JObj [("gt", start_date); ("lte", end_date)])]])])])
      r
    :: rest.
Proof.
  intros fuel geom start_date end_date item_type asset w.
  unfold search.
  match goal with
  | |- context [bind (post ?u ?b) ?k] => set (body := b); set (k0 := k)
  end.
  unfold bind, post. cbn [PLANET_API_URL append].
  destruct (session_post _ body w) as [[resp | e] w1].
  - destruct (k0 resp w1) as [[o w2] t2]. cbn. eauto.
  - cbn. eauto.
Qed.

Lemma yields_app (t1 t2 : trace) : yields (t1 ++ t2) = yields t1 ++ yields t2.
Proof.
  induction t1 as [| ev t1 IH]; [reflexivity |].
  destruct ev; cbn; rewrite ?IH; reflexivity.
Qed.

Lemma requests_app (t1 t2 : trace) : requests (t1 ++ t2) = requests t1 ++ requests t2.
Proof.
  induction t1 as [| ev t1 IH]; [reflexivity |].
  destruct ev; cbn; rewrite ?IH; reflexivity.
Qed.

Lemma yields_map_yield (items : list json) : yields (map EvYield items) = items.
Proof. induction items as [| i items IH]; cbn; congruence. Qed.

Lemma requests_map_yield (items : list json) : requests (map EvYield items) = [].
Proof. induction items as [| i items IH]; cbn; congruence. Qed.

Lemma for_each_yield (items : list json) (w : W) :
  for_each items yield w = (Return tt, w, map EvYield items).
Proof.
  induction items as [| i items IH]; [reflexivity |].
  cbn [for_each]. unfold bind. cbn. rewrite IH. reflexivity.
Qed.

Lemma raise_for_status_ok (r : Response) (w : W) :
  ok_status r -> raise_for_status r w = (Return tt, w, []).
Proof.
  intros H. unfold raise_for_status.
  replace ((400 <=? status_code r) && (status_code r <? 600))%bool with false;
    [reflexivity |].
  symmetry. apply andb_false_iff. unfold ok_status in H.
  destruct H; [left; apply Z.leb_gt | right; apply Z.ltb_ge]; lia.
Qed.

Lemma is_page_next (body : json) (features : list json) (next : option string) :
  is_page body features next ->
  exists links,
    getitem body "_links" = Ok links /\ dict_get links "_next" = Ok (next_value next).
Proof.
  intros [_ (links & Hl & Hn)]. exists links. split; [exact Hl |].
  destruct next; cbn; tauto.
Qed.

(** One turn of the paging loop on a well-formed page. *)
Lemma search_pages_step (n : nat) (u : string) (w w1 : W) (resp : Response) (body : json)
  (features : list json) (next : option string) :
  u <> "" ->
  session_get (JStr u) false w = (Ok resp, w1) ->
  ok_status resp ->
  json_body resp = Some body ->
  is_page body features next ->
  search_pages (S n) (JStr u) w =
  (fst (fst (search_pages n (next_value next) w1)),
   snd (fst (search_pages n (next_value next) w1)),
   EvGet (JStr u) false (Ok resp)
     :: map EvYield features ++ snd (search_pages n (next_value next) w1)).
Proof.
  intros Hu Hget Hok Hbody Hpage.
  destruct (is_page_next _ _ _ Hpage) as (links & Hl & Hn).
  destruct Hpage as [Hf _].
  cbn [search_pages truthy].
  apply String.eqb_neq in Hu. rewrite Hu. cbn [negb].
  unfold bind at 1. unfold get. rewrite Hget.
  unfold bind at 1. rewrite (raise_for_status_ok _ _ Hok).
  unfold bind at 1. unfold resp_json. rewrite Hbody. cbn [ret].
  unfold bind at 1. rewrite Hl. cbn [lift ret].
  unfold bind at 1. rewrite Hn. cbn [lift ret].
  unfold bind at 1. rewrite Hf. cbn [lift ret].
  unfold bind at 1. cbn [py_iter lift ret].
  unfold bind at 1. rewrite for_each_yield.
  destruct (search_pages n (next_value next) w1) as [[o w2] t2].
  cbn. reflexivity.
Qed.

Lemma search_pages_follows (next : option string) (w w' : W)
  (pages : list (list json * option string)) (gets : trace) :
  follows next w pages w' gets ->
  forall fuel : nat,
    (List.length pages <= fuel)%nat ->
    exists t,
      search_pages fuel (next_value next) w = (Return tt, w', t) /\
      yields t = concat (map fst pages) /\
      requests t = gets.
Proof.
  induction 1
    as [w | u w w1 w' resp body features next pages gets Hu Hget Hok Hbody Hpage Hrest IH];
    intros fuel Hfuel.
  - exists []. destruct fuel; cbn; auto.
  - destruct fuel as [| n]; [cbn in Hfuel; lia |].
    destruct (IH n) as (t & Hrun & Hy & Hr); [cbn in Hfuel; lia |].
    cbn [next_value].
    rewrite (search_pages_step n u w w1 resp body features next Hu Hget Hok Hbody Hpage).
    rewrite Hrun. cbn [fst snd].
    eexists. split; [reflexivity |]. split.
    + cbn. rewrite yields_app, yields_map_yield, Hy. reflexivity.
    + cbn. rewrite requests_app, requests_map_yield, Hr. reflexivity.
Qed.

(** C5.  When the service answers the search with a first page and then
    hands out the further pages along the next-page links, the last page
    being the first one without a link, [list(search(...))] returns the
    features of all the pages, concatenated in the order the service sent
    them, nothing dropped, merged or reordered; the requests made are the
    initial POST and one GET per further page, to the link of the page
    before, and none after the page without a link. *)
Theorem search_yields_all_pages_in_order
  (fuel : nat) (geom start_date end_date item_type : json) (asset : string)
  (w w1 w' : W) (resp : Response) (body : json) (features : list json)
  (next : option string) (pages : list (list json * option string)) (gets : trace) :
  session_post (JStr (PLANET_API_URL ++ "/quick-search")%string)
               (search_request geom start_date end_date item_type asset) w = (Ok resp, w1) ->
  ok_status resp ->
  json_body resp = Some body ->
  is_page body features next ->
  follows next w1 pages w' gets ->
  (List.length pages <= fuel)%nat ->
  exists t,
    py_list (search fuel geom start_date end_date item_type asset) w =
      (Return (features ++ concat (map fst pages)), w', t) /\
    requests t =
      EvPost (JStr (PLANET_API_URL ++ "/quick-search")%string)
             (search_request geom start_date end_date item_type asset) (Ok resp)
      :: gets.
Proof.
  intros Hpost Hok Hbody Hpage Hfollows Hfuel.
  destruct (search_pages_follows _ _ _ _ _ Hfollows fuel Hfuel) as (t & Hrun & Hy & Hr).
  destruct (is_page_next _ _ _ Hpage) as (links & Hl & Hn).
  destruct Hpage as [Hf _].
  unfold py_list, search.
  unfold bind at 1. unfold post. rewrite Hpost.
  unfold bind at 1. rewrite (raise_for_status_ok _ _ Hok).
  unfold bind at 1. unfold resp_json. rewrite Hbody. cbn [ret].
  unfold bind at 1. rewrite Hf. cbn [lift ret].
  unfold bind at 1. cbn [py_iter lift ret].
  unfold bind at 1. rewrite for_each_yield.
  unfold bind at 1. rewrite Hl. cbn [lift ret].
  unfold bind at 1. rewrite Hn. cbn [lift ret].
  rewrite Hrun. cbn [app].
  eexists. split.
  - cbn [yields]. rewrite yields_app, yields_map_yield, Hy. reflexivity.
  - cbn [requests]. rewrite requests_app, requests_map_yield, Hr. reflexivity.
Qed.

End SearchProperties.

(** Three pages of two features each, the third without a link: six features,
    in page order. *)
Lemma search_three_pages_witness :
  exists t,
    py_list (search 2 JNull (JStr "2018-01-01T00:00:00Z") (JStr "2018-01-10T00:00:00Z")
                    (JStr "PSScene3Band") "visual")
            [Ok (Mock.page [JStr "a1"; JStr "a2"] (Some "https://mock/page/2"));
             Ok (Mock.page [JStr "b1"; JStr "b2"] (Some "https://mock/page/3"));
             Ok (Mock.page [JStr "c1"; JStr "c2"] None)] =
      (Return [JStr "a1"; JStr "a2"; JStr "b1"; JStr "b2"; JStr "c1"; JStr "c2"], [], t) /\
    List.length (requests t) = 3%nat.
Proof.
  destruct (search_yields_all_pages_in_order
              2 JNull (JStr "2018-01-01T00:00:00Z") (JStr "2018-01-10T00:00:00Z")
              (JStr "PSScene3Band") "visual"
              [Ok (Mock.page [JStr "a1"; JStr "a2"] (Some "https://mock/page/2"));
               Ok (Mock.page [JStr "b1"; JStr "b2"] (Some "https://mock/page/3"));
               Ok (Mock.page [JStr "c1"; JStr "c2"] None)]
              [Ok (Mock.page [JStr "b1"; JStr "b2"] (Some "https://mock/page/3"));
               Ok (Mock.page [JStr "c1"; JStr "c2"] None)]
              []
              (Mock.page [JStr "a1"; JStr "a2"] (Some "https://mock/page/2"))
              (Mock.page_json [JStr "a1"; JStr "a2"] (Some "https://mock/page/2"))
              [JStr "a1"; JStr "a2"] (Some "https://mock/page/2")
              [([JStr "b1"; JStr "b2"], Some "https://mock/page/3");
               ([JStr "c1"; JStr "c2"], None)]
              [EvGet (JStr "https://mock/page/2") false
                 (Ok (Mock.page [JStr "b1"; JStr "b2"] (Some "https://mock/page/3")));
               EvGet (JStr "https://mock/page/3") false
                 (Ok (Mock.page [JStr "c1"; JStr "c2"] None))])
    as (t & Hrun & Hreq).
  - reflexivity.
  - left. cbn. lia.
  - reflexivity.
  - split; [reflexivity |]. eexists. split; [reflexivity |].
    split; [reflexivity | discriminate].
  - eapply follows_step with (w1 := [Ok (Mock.page [JStr "c1"; JStr "c2"] None)]).
    + discriminate.
    + reflexivity.
    + left. cbn. lia.
    + reflexivity.
    + split; [reflexivity |]. eexists. split; [reflexivity |].
      split; [reflexivity | discriminate].
    + eapply follows_step with (w1 := []).
      * discriminate.
      * reflexivity.
      * left. cbn. lia.
      * reflexivity.
      * split; [reflexivity |]. eexists. split; reflexivity.
      * apply follows_end.
  - cbn. lia.
  - exists t. split; [exact Hrun |]. rewrite Hreq. reflexivity.
Defined.

(** ** Waiting for activation *)

Section PollingProperties.

Context {W : Type} {E : Env W}.

Lemma raise_for_status_return_inv (r : Response) (w w' : W) (u : unit) (t : trace) :
  raise_for_status r w = (Return u, w', t) -> ok_status r /\ w' = w /\ t = [].
Proof.
  unfold raise_for_status, ok_status.
  destruct (400 <=? status_code r) eqn:Hlo; destruct (status_code r <? 600) eqn:Hhi;
    cbn; intros H; inversion H; subst; (split; [| auto]).
  - apply Z.ltb_ge in Hhi. lia.
  - apply Z.leb_gt in Hlo. lia.
  - apply Z.leb_gt in Hlo. lia.
Qed.

(** A successful [_fetch_assets] is exactly one GET of the feature's assets
    link, answered without an error status by a JSON body. *)
Lemma fetch_assets_return_inv (feature assets : json) (w w' : W) (t : trace) :
  _fetch_assets feature w = (Return assets, w', t) ->
  exists links url resp,
    getitem feature "_links" = Ok links /\
    getitem links "assets" = Ok url /\
    session_get url false w = (Ok resp, w') /\
    ok_status resp /\
    json_body resp = Some assets /\
    t = [EvGet url false (Ok resp)].
Proof.
  unfold _fetch_assets. intros H.
  bind_inv H as links w1 t1 t2 Hl H. lift_inv Hl.
  bind_inv H as url w2 t3 t4 Hu H. lift_inv Hu.
  bind_inv H as resp w3 t5 t6 Hget H.
  bind_inv H as u w4 t7 t8 Hok Hj.
  apply raise_for_status_return_inv in Hok. destruct Hok as (Hok & -> & ->).
  unfold get in Hget.
  destruct (session_get url false w) as [[r | e] wx] eqn:Hs; inversion Hget; subst.
  unfold resp_json in Hj.
  destruct (json_body resp) as [j |] eqn:Hb; inversion Hj; subst.
  exists links, url, resp. repeat split; auto.
Qed.

Lemma poll_statuses_round (results : list json) (asset_name : string) :
  forall (w w' : W) (statuses : list json) (t : trace),
    poll_statuses results asset_name w = (Return statuses, w', t) ->
    round_of asset_name results statuses t.
Proof.
  unfold poll_statuses.
  induction results as [| feature results IH]; intros w w' statuses t H.
  - inversion H; subst. constructor.
  - cbn [comprehension] in H.
    bind_inv H as st w1 t1 t2 Hst H.
    bind_inv Hst as assets w2 t3 t4 Hfetch Hst.
    apply fetch_assets_return_inv in Hfetch.
    destruct Hfetch as (links & url & resp & Hl & Hu & Hget & Hok & Hj & ->).
    lift_inv Hst.
    bind_inv H as sts w3 t5 t6 Hrest H.
    inversion H; subst.
    apply IH in Hrest. cbn.
    rewrite app_nil_r. constructor; [| exact Hrest].
    exists assets. split; [| exact Hst].
    exists links, url, resp. auto.
Qed.

Lemma polled_checked (results : list json) (asset_name : string) :
  forall (w w' : W) (rounds : list (list json)) (t : trace),
    polled results asset_name w rounds w' t -> checked asset_name results rounds t.
Proof.
  induction 1 as [w | w w1 w' statuses t1 t rounds Hpoll Hrest IH]; constructor; auto.
  eapply poll_statuses_round; eauto.
Qed.

(** The rounds are made of status checks only: nothing is slept, printed or
    written between them. *)
Lemma checked_only_status_checks (results : list json) (asset_name : string) :
  forall (rounds : list (list json)) (t : trace),
    checked asset_name results rounds t ->
    Forall (fun ev => exists url resp, ev = EvGet url false (Ok resp)) t.
Proof.
  induction 1 as [| statuses t1 t rounds Hround Hrest IH]; [constructor |].
  apply Forall_app. split; [| exact IH].
  clear Hrest IH. induction Hround as [| feature st ev features sts evs Hcheck Hround IH].
  - constructor.
  - constructor; [| exact IH].
    destruct Hcheck as (assets & (links & url & resp & _ & _ & _ & _ & Hev) & _).
    eauto.
Qed.

Lemma wait_loop_return_inv (results : list json) (asset_name : string) :
  forall (fuel : nat) (active : list bool) (w w' : W) (t : trace),
    wait_loop fuel results asset_name active w = (Return tt, w', t) ->
    (all active = true /\ w' = w /\ t = []) \/
    (all active = false /\
     exists rounds last,
       (List.length rounds < fuel)%nat /\
       polled results asset_name w (rounds ++ [last]) w' t /\
       Forall (fun r => all_active r = false) rounds /\
       all_active last = true).
Proof.
  induction fuel as [| n IH]; intros active w w' t H.
  - cbn [wait_loop] in H. destruct (all active) eqn:Ha.
    + inversion H; subst. left. auto.
    + discriminate.
  - cbn [wait_loop] in H. destruct (all active) eqn:Ha.
    + inversion H; subst. left. auto.
    + right. split; [reflexivity |].
      bind_inv H as sts w1 t1 t2 Hpoll H. apply IH in H.
      destruct H as [(Hall & -> & ->) | (Hall & rounds & last & Hlen & Hp & Hf & Hl)].
      * exists [], sts. cbn. repeat split; auto; try lia.
        econstructor; [exact Hpoll | constructor].
      * exists (sts :: rounds), last. cbn. repeat split; auto; try lia.
        econstructor; eauto.
Qed.

Lemma wait_loop_returns (results : list json) (asset_name : string) :
  forall (rounds : list (list json)) (last : list json) (fuel : nat) (active : list bool)
         (w w' : W) (t : trace),
    all active = false ->
    (List.length rounds < fuel)%nat ->
    polled results asset_name w (rounds ++ [last]) w' t ->
    Forall (fun r => all_active r = false) rounds ->
    all_active last = true ->
    wait_loop fuel results asset_name active w = (Return tt, w', t).
Proof.
  induction rounds as [| r rounds IH]; intros last fuel active w w' t Ha Hlen Hp Hf Hl;
    (destruct fuel as [| n]; [cbn in Hlen; lia |]);
    cbn [wait_loop]; rewrite Ha; cbn [app] in Hp;
    inversion Hp as [| w0 w1 w2 sts t1 t2 rs Hpoll Hrest]; subst.
  - inversion Hrest; subst.
    rewrite (bind_return _ _ _ _ _ _ Hpoll).
    destruct n; cbn [wait_loop]; fold (all_active last); rewrite Hl; reflexivity.
  - inversion Hf as [| r0 rs0 Hr Hrs]; subst.
    rewrite (bind_return _ _ _ _ _ _ Hpoll).
    rewrite (IH last n _ w1 w' t2); auto.
    cbn in Hlen. lia.
Qed.

Lemma wait_loop_keeps_polling (results : list json) (asset_name : string) :
  forall (w w' : W) (rounds : list (list json)) (t : trace),
    polled results asset_name w rounds w' t ->
    forall active : list bool,
      all active = false ->
      Forall (fun r => all_active r = false) rounds ->
      wait_loop (List.length rounds) results asset_name active w = (OutOfFuel, w', t).
Proof.
  induction 1 as [w | w w1 w' statuses t1 t rounds Hpoll Hrest IH]; intros active Ha Hf.
  - cbn. rewrite Ha. reflexivity.
  - inversion Hf as [| r0 rs0 Hr Hrs]; subst.
    cbn [List.length wait_loop]. rewrite Ha.
    rewrite (bind_return _ _ _ _ _ _ Hpoll).
    rewrite (IH _ Hr Hrs). reflexivity.
Qed.

(** C1, as the code has it.  [wait_for_active] returns exactly when a polling
    round finds every asset [active], all the rounds before it having found
    some asset not active; every round it makes is one status check for
    every result, those already seen active included, and nothing between
    the rounds; and it has no deadline: after any number of rounds that did
    not find every asset active it is still polling. *)
Theorem wait_for_active_polls_all_until_all_active
  (results : list json) (asset_name : string) (w : W) :
  (forall (fuel : nat) (w' : W) (t : trace),
     wait_for_active fuel results asset_name w = (Return tt, w', t) <->
     exists rounds last,
       (List.length rounds < fuel)%nat /\
       polled results asset_name w (rounds ++ [last]) w' t /\
       Forall (fun r => all_active r = false) rounds /\
       all_active last = true) /\
  (forall (rounds : list (list json)) (w' : W) (t : trace),
     polled results asset_name w rounds w' t ->
     checked asset_name results rounds t) /\
  (forall (rounds : list (list json)) (w' : W) (t : trace),
     polled results asset_name w rounds w' t ->
     Forall (fun r => all_active r = false) rounds ->
     wait_for_active (List.length rounds) results asset_name w = (OutOfFuel, w', t)).
Proof.
  split; [| split].
  - intros fuel w' t. unfold wait_for_active. split.
    + intros H. apply wait_loop_return_inv in H.
      destruct H as [(Hall & _) | (_ & H)]; [discriminate | exact H].
    + intros (rounds & last & Hlen & Hp & Hf & Hl).
      eapply wait_loop_returns; eauto.
  - intros rounds w' t Hp. eapply polled_checked; eauto.
  - intros rounds w' t Hp Hf. unfold wait_for_active.
    apply wait_loop_keeps_polling; auto.
Qed.

(** C10.  On an empty sequence of results [wait_for_active] returns after
    exactly one round: no round is not enough, because of the initial
    [[False]]; one round is, and it makes no status check at all. *)
Theorem wait_for_active_empty_one_round :
  forall (asset_name : string) (w : W),
    wait_for_active 0 [] asset_name w = (OutOfFuel, w, []) /\
    forall fuel : nat, wait_for_active (S fuel) [] asset_name w = (Return tt, w, []).
Proof.
  intros asset_name w. split; [reflexivity |].
  intros fuel. unfold wait_for_active. cbn [wait_loop all forallb].
  unfold bind. cbn. destruct fuel; reflexivity.
Qed.

End PollingProperties.

(** Scene A is active from its second status check on, scene B from its
    fifth: the call returns after the fifth round, having made ten status
    checks, and after four rounds it is still polling. *)
Lemma wait_for_active_two_scenes_witness :
  exists (w' : Mock.server) (t : trace),
    wait_for_active 5 [Mock.feature "A"; Mock.feature "B"] "visual"
                    [("A", Mock.Activating 0); ("B", Mock.Activating 3)]
      = (Return tt, w', t) /\
    checked "visual" [Mock.feature "A"; Mock.feature "B"]
            [[JStr "activating"; JStr "activating"]; [JStr "active"; JStr "activating"];
             [JStr "active"; JStr "activating"]; [JStr "active"; JStr "activating"];
             [JStr "active"; JStr "active"]] t /\
    List.length t = 10%nat /\
    fst (fst (wait_for_active 4 [Mock.feature "A"; Mock.feature "B"] "visual"
                              [("A", Mock.Activating 0); ("B", Mock.Activating 3)]))
      = OutOfFuel.
Proof.
  destruct (wait_for_active_polls_all_until_all_active
              [Mock.feature "A"; Mock.feature "B"] "visual"
              [("A", Mock.Activating 0); ("B", Mock.Activating 3)])
    as (Hreturns & Hchecked & Hpolling).
  assert (Hfour :
            exists w4 t4,
              polled [Mock.feature "A"; Mock.feature "B"] "visual"
                     [("A", Mock.Activating 0); ("B", Mock.Activating 3)]
                     [[JStr "activating"; JStr "activating"];
                      [JStr "active"; JStr "activating"];
                      [JStr "active"; JStr "activating"];
                      [JStr "active"; JStr "activating"]] w4 t4).
  { eexists. eexists.
    do 4 (eapply polled_cons; [vm_compute; reflexivity |]).
    apply polled_nil. }
  assert (Hfive :
            exists w5 t5,
              polled [Mock.feature "A"; Mock.feature "B"] "visual"
                     [("A", Mock.Activating 0); ("B", Mock.Activating 3)]
                     ([[JStr "activating"; JStr "activating"];
                       [JStr "active"; JStr "activating"];
                       [JStr "active"; JStr "activating"];
                       [JStr "active"; JStr "activating"]]
                        ++ [[JStr "active"; JStr "active"]]) w5 t5 /\
              List.length t5 = 10%nat).
  { eexists. eexists. split.
    - cbn [app].
      do 5 (eapply polled_cons; [vm_compute; reflexivity |]).
      apply polled_nil.
    - reflexivity. }
  destruct Hfour as (w4 & t4 & Hp4).
  destruct Hfive as (w5 & t5 & Hp5 & Hlen).
  exists w5, t5. split; [| split; [| split]].
  - apply Hreturns. eexists. eexists. split; [| split; [exact Hp5 | split]].
    + cbn. lia.
    + repeat constructor.
    + reflexivity.
  - exact (Hchecked _ _ _ Hp5).
  - exact Hlen.
  - change 4%nat with
      (List.length [[JStr "activating"; JStr "activating"];
                    [JStr "active"; JStr "activating"];
                    [JStr "active"; JStr "activating"];
                    [JStr "active"; JStr "activating"]]).
    rewrite (Hpolling _ _ _ Hp4); [reflexivity |]. repeat constructor.
Defined.

(** Against a service whose asset never leaves [activating], the call is
    still polling after any number of rounds, and all it has done is one
    status check per round. *)
Lemma stuck_service_keeps_polling :
  forall fuel : nat,
    wait_for_active fuel [Mock.feature "A"] "visual" [("A", Mock.Stuck)] =
    (OutOfFuel,
     [("A", Mock.Stuck)],
     repeat (EvGet (JStr "https://mock/assets/A") false
                   (Ok (Mock.json_response 200 (Mock.assets_json "A" Mock.Stuck))))
            fuel).
Proof.
  unfold wait_for_active.
  induction fuel as [| n IH]; [reflexivity |].
  cbn [wait_loop all forallb andb].
  rewrite (bind_return _ _ _ [("A", Mock.Stuck)] [JStr "activating"]
             [EvGet (JStr "https://mock/assets/A") false
                    (Ok (Mock.json_response 200 (Mock.assets_json "A" Mock.Stuck)))]);
    [| reflexivity].
  cbn [map eq_str]. change (String.eqb "activating" "active") with false.
  rewrite IH. reflexivity.
Qed.

(** C1 as the specification states it does not hold: there is no deadline.
    Against the service whose asset never becomes active, no bound on the
    number of rounds makes the call end, be it by returning or by raising
    [PollTimeoutError] or any other exception. *)
Lemma wait_for_active_never_times_out :
  ~ exists (fuel : nat) (o : outcome unit) (w' : Mock.server) (t : trace),
      wait_for_active fuel [Mock.feature "A"] "visual" [("A", Mock.Stuck)] = (o, w', t) /\
      o <> OutOfFuel.
Proof.
  intros (fuel & o & w' & t & Hrun & Ho).
  rewrite stuck_service_keeps_polling in Hrun.
  inversion Hrun; subst. apply Ho. reflexivity.
Qed.

(** ** Activation *)

Section ActivationProperties.

Context {W : Type} {E : Env W}.

Lemma activate_cons (asset_name : string) (feature : json) (rest : list json) (w : W) :
  activate (feature :: rest) asset_name w =
  bind (activate_one asset_name feature) (fun _ => activate rest asset_name) w.
Proof. reflexivity. Qed.

(** An asset that is not reported [inactive] costs its status check and
    nothing more. *)
Lemma activate_one_not_inactive (asset_name : string) (feature assets st : json)
  (w w1 : W) (t1 : trace) :
  _fetch_assets feature w = (Return assets, w1, t1) ->
  asset_status assets asset_name = Ok st ->
  eq_str st "inactive" = false ->
  activate_one asset_name feature w = (Return tt, w1, t1).
Proof.
  intros Hfetch Hst Hne. unfold activate_one.
  rewrite (bind_return _ _ _ _ _ _ Hfetch).
  unfold bind. rewrite Hst. cbn [lift ret]. rewrite Hne. cbn.
  rewrite app_nil_r. reflexivity.
Qed.

Lemma activate_settled (asset_name : string) :
  forall (results : list json) (w w' : W) (statuses : list json) (t : trace),
    poll_statuses results asset_name w = (Return statuses, w', t) ->
    Forall (fun st => eq_str st "inactive" = false) statuses ->
    activate results asset_name w = (Return tt, w', t).
Proof.
  unfold poll_statuses.
  induction results as [| feature results IH]; intros w w' statuses t H Hf.
  - inversion H; subst. reflexivity.
  - cbn [comprehension] in H.
    bind_inv H as st w1 t1 t2 Hst H.
    bind_inv Hst as assets w2 t3 t4 Hfetch Hst.
    lift_inv Hst.
    bind_inv H as sts w3 t5 t6 Hrest H.
    inversion H; subst.
    inversion Hf as [| st0 sts0 Hne Hsts]; subst.
    rewrite activate_cons.
    rewrite (bind_return _ _ _ _ _ _
               (activate_one_not_inactive _ _ _ _ _ _ _ Hfetch Hst Hne)).
    rewrite (IH _ _ _ _ Hrest Hsts). cbn.
    rewrite !app_nil_r. reflexivity.
Qed.

Lemma eq_str_true (st : json) (s : string) : eq_str st s = true -> st = JStr s.
Proof.
  destruct st; cbn; try discriminate. intros H. apply String.eqb_eq in H. congruence.
Qed.

Lemma eq_str_false (st : json) (s : string) : eq_str st s = false -> st <> JStr s.
Proof.
  intros H ->. cbn in H. rewrite String.eqb_refl in H. discriminate.
Qed.

Lemma fetch_assets_fetched (feature assets : json) (w w' : W) (t : trace) :
  _fetch_assets feature w = (Return assets, w', t) ->
  exists ev, t = [ev] /\ fetched feature assets ev.
Proof.
  intros H. apply fetch_assets_return_inv in H.
  destruct H as (links & url & resp & Hl & Hu & _ & Hok & Hj & ->).
  eexists. split; [reflexivity |]. exists links, url, resp. auto.
Qed.

(** A completed turn of the loop of [activate]: the status check, and the
    activation request exactly when the status read is [inactive]. *)
Lemma activate_one_return_inv (asset_name : string) (feature : json) (w w' : W) (t : trace) :
  activate_one asset_name feature w = (Return tt, w', t) ->
  exists assets ev,
    fetched feature assets ev /\
    ((exists st,
        asset_status assets asset_name = Ok st /\ st <> JStr "inactive" /\ t = [ev]) \/
     (asset_status assets asset_name = Ok (JStr "inactive") /\
      exists url resp,
        activate_link assets asset_name = Ok url /\
        ok_status resp /\
        t = [ev; EvGet url false (Ok resp)])).
Proof.
  unfold activate_one. intros H.
  bind_inv H as assets w1 t1 t2 Hfetch H.
  apply fetch_assets_fetched in Hfetch. destruct Hfetch as (ev & -> & Hfetched).
  bind_inv H as st w2 t3 t4 Hst H. lift_inv Hst.
  exists assets, ev. split; [exact Hfetched |].
  destruct (eq_str st "inactive") eqn:Hinactive.
  - right. apply eq_str_true in Hinactive. subst st. split; [exact Hst |].
    bind_inv H as url w3 t5 t6 Hlink H. lift_inv Hlink.
    bind_inv H as resp w4 t7 t8 Hget H.
    apply raise_for_status_return_inv in H. destruct H as (Hok & -> & ->).
    unfold get in Hget.
    destruct (session_get url false w1) as [[r | e] wx]; inversion Hget; subst.
    exists url, resp. auto.
  - left. inversion H; subst. exists st.
    split; [exact Hst |]. split; [apply eq_str_false; exact Hinactive | reflexivity].
Qed.

Lemma activate_return_activated (asset_name : string) :
  forall (results : list json) (w w' : W) (t : trace),
    activate results asset_name w = (Return tt, w', t) ->
    activated asset_name results t.
Proof.
  induction results as [| feature results IH]; intros w w' t H.
  - inversion H; subst. constructor.
  - rewrite activate_cons in H.
    bind_inv H as u w1 t1 t2 Hone H. destruct u.
    apply IH in H.
    apply activate_one_return_inv in Hone.
    destruct Hone
      as (assets & ev & Hfetched &
          [(st & Hst & Hne & ->) | (Hst & url & resp & Hlink & Hok & ->)]).
    + eapply activated_skip; eauto.
    + eapply activated_request; eauto.
Qed.

Lemma settled_not_inactive (st : json) :
  st = JStr "activating" \/ st = JStr "active" -> eq_str st "inactive" = false.
Proof. intros [-> | ->]; reflexivity. Qed.

(** C6.  A feature whose asset is reported [activating] or [active] costs
    [activate] its one status check and no activation request: the call goes
    on with the remaining features from there.  Hence running [activate] on
    features that are all reported [activating] or [active], as on a second
    run after they were activated, makes exactly one status check per
    feature and no activation request at all.  And every completed run,
    the first like any later one, makes no request beyond the status
    checks and one activation request for each feature it read as
    [inactive]. *)
Theorem activate_skips_activating_and_active (asset_name : string) :
  (forall (feature : json) (rest : list json) (assets st : json) (w w1 : W) (t1 : trace),
     _fetch_assets feature w = (Return assets, w1, t1) ->
     asset_status assets asset_name = Ok st ->
     st = JStr "activating" \/ st = JStr "active" ->
     (exists url resp, t1 = [EvGet url false (Ok resp)]) /\
     activate (feature :: rest) asset_name w = prepend t1 (activate rest asset_name w1)) /\
  (forall (results statuses : list json) (w w' : W) (t : trace),
     poll_statuses results asset_name w = (Return statuses, w', t) ->
     Forall (fun st => st = JStr "activating" \/ st = JStr "active") statuses ->
     activate results asset_name w = (Return tt, w', t) /\
     round_of asset_name results statuses t) /\
  (forall (results : list json) (w w' : W) (t : trace),
     activate results asset_name w = (Return tt, w', t) ->
     activated asset_name results t).
Proof.
  split; [| split; [| apply activate_return_activated]].
  - intros feature rest assets st w w1 t1 Hfetch Hst Hsettled. split.
    + apply fetch_assets_return_inv in Hfetch.
      destruct Hfetch as (links & url & resp & _ & _ & _ & _ & _ & Ht). eauto.
    + rewrite activate_cons.
      apply (bind_return_prepend _ (fun _ => activate rest asset_name) _ _ tt).
      eapply activate_one_not_inactive; eauto using settled_not_inactive.
  - intros results statuses w w' t Hpoll Hsettled. split.
    + eapply activate_settled; [exact Hpoll |].
      eapply Forall_impl; [| exact Hsettled].
      intros st. apply settled_not_inactive.
    + eapply poll_statuses_round. exact Hpoll.
Qed.

(** C2, as the code has it.  When the status check reports [inactive] and
    the activation request is answered with any 4xx or 5xx status,
    [activate] stops there with the [HTTPError] of [raise_for_status]
    carrying that status: a 401 and a 500 differ in the status code only. *)
Theorem activate_raises_http_error
  (asset_name : string) (feature : json) (rest : list json) (assets url : json)
  (resp : Response) (w w1 w2 : W) (t1 : trace) :
  _fetch_assets feature w = (Return assets, w1, t1) ->
  asset_status assets asset_name = Ok (JStr "inactive") ->
  activate_link assets asset_name = Ok url ->
  session_get url false w1 = (Ok resp, w2) ->
  400 <= status_code resp < 600 ->
  activate (feature :: rest) asset_name w =
  (Raise (HTTPError (status_code resp)), w2, t1 ++ [EvGet url false (Ok resp)]).
Proof.
  intros Hfetch Hst Hlink Hget Hcode.
  rewrite activate_cons. apply bind_raise.
  unfold activate_one.
  rewrite (bind_return _ _ _ _ _ _ Hfetch).
  unfold bind. rewrite Hst. cbn [lift ret eq_str].
  change (String.eqb "inactive" "inactive") with true. cbn iota.
  rewrite Hlink. cbn [lift ret].
  unfold get. rewrite Hget.
  unfold raise_for_status.
  replace ((400 <=? status_code resp) && (status_code resp <? 600))%bool with true.
  - cbn. reflexivity.
  - symmetry. apply andb_true_iff. split; [apply Z.leb_le | apply Z.ltb_lt]; lia.
Qed.

End ActivationProperties.

(** A first run activates the inactive scene A and leaves the active scene
    B and the activating scene C alone; a second run, on what the first run
    left, makes its three status checks and no activation request. *)
Lemma activate_twice_witness :
  exists (w1 w2 : Mock.server) (t1 t2 : trace),
    activate [Mock.feature "A"; Mock.feature "B"; Mock.feature "C"] "visual"
             [("A", Mock.Inactive); ("B", Mock.Active); ("C", Mock.Activating 7)]
      = (Return tt, w1, t1) /\
    List.length t1 = 4%nat /\
    activate [Mock.feature "A"; Mock.feature "B"; Mock.feature "C"] "visual" w1
      = (Return tt, w2, t2) /\
    round_of "visual" [Mock.feature "A"; Mock.feature "B"; Mock.feature "C"]
             [JStr "activating"; JStr "active"; JStr "activating"] t2.
Proof.
  eexists. eexists. eexists. eexists.
  split; [vm_compute; reflexivity |].
  split; [reflexivity |].
  apply (proj1 (proj2 (activate_skips_activating_and_active "visual"))).
  - vm_compute. reflexivity.
  - constructor; [left; reflexivity |].
    constructor; [right; reflexivity |].
    constructor; [left; reflexivity |].
    constructor.
Defined.

(** A scene whose activation is refused with 401. *)
Lemma activate_denied_witness :
  activate [Mock.feature "A"] "visual" [("A", Mock.Denied)] =
  (Raise (HTTPError 401),
   [("A", Mock.Denied)],
   [EvGet (JStr "https://mock/assets/A") false
          (Ok (Mock.json_response 200 (Mock.assets_json "A" Mock.Denied)));
    EvGet (JStr "https://mock/activate/A") false (Ok (Mock.empty_response 401))]).
Proof.
  apply (activate_raises_http_error
           "visual" (Mock.feature "A") [] (Mock.assets_json "A" Mock.Denied)
           (JStr "https://mock/activate/A") (Mock.empty_response 401)
           [("A", Mock.Denied)] [("A", Mock.Denied)] [("A", Mock.Denied)]
           [EvGet (JStr "https://mock/assets/A") false
                  (Ok (Mock.json_response 200 (Mock.assets_json "A" Mock.Denied)))]).
  - reflexivity.
  - reflexivity.
  - reflexivity.
  - reflexivity.
  - cbn. lia.
Defined.

(** C2 as the specification states it does not hold: a refused activation
    (401) and a failing one (500) raise an exception of the same class,
    [HTTPError], and that class is not [PermissionError]. *)
Lemma activate_401_is_not_a_permission_error :
  exists (w1 w2 : Mock.server) (t1 t2 : trace) (e1 e2 : exn),
    activate [Mock.feature "A"] "visual" [("A", Mock.Denied)] = (Raise e1, w1, t1) /\
    activate [Mock.feature "A"] "visual" [("A", Mock.Broken)] = (Raise e2, w2, t2) /\
    e1 = HTTPError 401 /\
    e2 = HTTPError 500 /\
    exn_class e1 = exn_class e2 /\
    exn_class e1 <> "PermissionError".
Proof.
  do 4 eexists. exists (HTTPError 401), (HTTPError 500).
  split; [vm_compute; reflexivity |].
  split; [vm_compute; reflexivity |].
  repeat split. discriminate.
Qed.

(** ** Download *)

Section DownloadProperties.

Context {W : Type} {E : Env W}.

Lemma bind_get_ok {B : Type} (url : json) (stream : bool) (resp : Response)
  (f : Response -> M W B) (w w' : W) :
  session_get url stream w = (Ok resp, w') ->
  bind (get url stream) f w = prepend [EvGet url stream (Ok resp)] (f resp w').
Proof.
  intros Hget. apply bind_return_prepend. unfold get. rewrite Hget. reflexivity.
Qed.

Lemma bind_raise_for_status_ok {B : Type} (resp : Response) (f : unit -> M W B) (w : W) :
  ok_status resp -> bind (raise_for_status resp) f w = f tt w.
Proof.
  intros Hok. rewrite (bind_return_prepend _ _ _ _ _ _ (raise_for_status_ok _ _ Hok)).
  destruct (f tt w) as [[r w2] t2]. reflexivity.
Qed.

Lemma download_cons (asset_name : string) (feature : json) (rest : list json) (w : W) :
  download (feature :: rest) asset_name w =
  bind (bind (download_one asset_name feature) (fun filename => yield (JStr filename)))
       (fun _ => download rest asset_name) w.
Proof. reflexivity. Qed.

(** The run of [download_one] up to the response to the download request. *)
Lemma download_one_to_response (asset_name : string) (feature assets location : json)
  (resp : Response) (w w1 w2 : W) (t1 : trace) :
  _fetch_assets feature w = (Return assets, w1, t1) ->
  asset_location assets asset_name = Ok location ->
  session_get location true w1 = (Ok resp, w2) ->
  ok_status resp ->
  download_one asset_name feature w =
  prepend (t1 ++ [EvGet location true (Ok resp)]) (save_response resp w2).
Proof.
  intros Hfetch Hloc Hget Hok. unfold download_one.
  rewrite (bind_return_prepend _ _ _ _ _ _ Hfetch).
  rewrite (bind_lift_ok _ _ _ _ Hloc).
  rewrite (bind_get_ok _ _ _ _ _ _ Hget).
  rewrite (bind_raise_for_status_ok _ _ _ Hok).
  rewrite prepend_prepend. reflexivity.
Qed.

Lemma save_response_named (resp : Response) (disposition filename : string)
  (more : list string) (w : W) :
  header_getitem (headers resp) "Content-Disposition" = Ok disposition ->
  re_findall_filename disposition = filename :: more ->
  save_response resp w =
  match copy_to_file filename (raw resp) w with
  | (Ok u, w') =>
      (Return filename, w',
       [EvPrint ("Downloading " ++ filename)%string; EvWrite filename (raw resp) (Ok u)])
  | (Err e, w') =>
      (Raise e, w',
       [EvPrint ("Downloading " ++ filename)%string; EvWrite filename (raw resp) (Err e)])
  end.
Proof.
  intros Hdisp Hname. unfold save_response.
  rewrite (bind_lift_ok _ _ _ _ Hdisp).
  rewrite (bind_lift_ok _ filename); [| rewrite Hname; reflexivity].
  unfold bind, print, emit, write_file, ret.
  destruct (copy_to_file filename (raw resp) w) as [[u | e] w']; reflexivity.
Qed.

(** C9.  Whatever string the pattern captures in the [Content-Disposition]
    header of the download response, as it stands -- a bare name, a
    relative path leaving the working directory, an absolute path --
    [download] opens that very string as the path of the file it writes the
    body to; there is no directory argument and nothing is cleaned.  When
    the write succeeds, the same string is what it yields, and it goes on
    with the remaining features. *)
Theorem download_writes_to_captured_filename
  (asset_name : string) (feature : json) (rest : list json) (assets location : json)
  (resp : Response) (disposition filename : string) (more : list string)
  (w w1 w2 : W) (t1 : trace) :
  _fetch_assets feature w = (Return assets, w1, t1) ->
  asset_location assets asset_name = Ok location ->
  session_get location true w1 = (Ok resp, w2) ->
  ok_status resp ->
  header_getitem (headers resp) "Content-Disposition" = Ok disposition ->
  re_findall_filename disposition = filename :: more ->
  download (feature :: rest) asset_name w =
  match copy_to_file filename (raw resp) w2 with
  | (Ok u, w3) =>
      prepend (t1 ++ [EvGet location true (Ok resp);
                      EvPrint ("Downloading " ++ filename)%string;
                      EvWrite filename (raw resp) (Ok u);
                      EvYield (JStr filename)])
              (download rest asset_name w3)
  | (Err e, w3) =>
      (Raise e, w3,
       t1 ++ [EvGet location true (Ok resp);
              EvPrint ("Downloading " ++ filename)%string;
              EvWrite filename (raw resp) (Err e)])
  end.
Proof.
  intros Hfetch Hloc Hget Hok Hdisp Hname.
  rewrite download_cons.
  pose proof (download_one_to_response _ _ _ _ _ _ _ _ _ Hfetch Hloc Hget Hok) as Hone.
  rewrite (save_response_named _ _ _ _ _ Hdisp Hname) in Hone.
  destruct (copy_to_file filename (raw resp) w2) as [[u | e] w3]; cbn [prepend] in Hone.
  - rewrite (bind_return_prepend _ _ _ w3 tt
               ((t1 ++ [EvGet location true (Ok resp)])
                  ++ [EvPrint ("Downloading " ++ filename)%string;
                      EvWrite filename (raw resp) (Ok u)]
                  ++ [EvYield (JStr filename)])).
    + f_equal. rewrite <- !app_assoc. reflexivity.
    + rewrite (bind_return_prepend _ _ _ _ _ _ Hone). cbn.
      rewrite <- !app_assoc. reflexivity.
  - apply bind_raise. rewrite (bind_raise _ _ _ _ _ _ Hone).
    rewrite <- !app_assoc. reflexivity.
Qed.

(** C8, as the code has it.  The file name is the first group the pattern
    captures in the [Content-Disposition] header of the download response.
    When the response has no such header the subscript raises [KeyError];
    when the pattern matches nowhere in it, taking element 0 of the empty
    list of matches raises [IndexError]; in both cases nothing is printed or
    written. *)
Theorem download_filename_from_content_disposition
  (asset_name : string) (feature : json) (rest : list json) (assets location : json)
  (resp : Response) (w w1 w2 : W) (t1 : trace) :
  _fetch_assets feature w = (Return assets, w1, t1) ->
  asset_location assets asset_name = Ok location ->
  session_get location true w1 = (Ok resp, w2) ->
  ok_status resp ->
  match header_lookup "Content-Disposition" (headers resp) with
  | None =>
      download (feature :: rest) asset_name w =
      (Raise (KeyError "content-disposition"), w2, t1 ++ [EvGet location true (Ok resp)])
  | Some disposition =>
      match re_findall_filename disposition with
      | [] =>
          download (feature :: rest) asset_name w =
          (Raise IndexError, w2, t1 ++ [EvGet location true (Ok resp)])
      | filename :: _ =>
          exists (r : result unit) (o : outcome unit) (w' : W) (t' : trace),
            download (feature :: rest) asset_name w =
            (o, w',
             t1 ++ [EvGet location true (Ok resp);
                    EvPrint ("Downloading " ++ filename)%string;
                    EvWrite filename (raw resp) r] ++ t')
      end
  end.
Proof.
  intros Hfetch Hloc Hget Hok.
  pose proof (download_one_to_response _ _ _ _ _ _ _ _ _ Hfetch Hloc Hget Hok) as Hone.
  destruct (header_lookup "Content-Disposition" (headers resp)) as [disposition |] eqn:Hh.
  - assert (Hdisp : header_getitem (headers resp) "Content-Disposition" = Ok disposition).
    { unfold header_getitem. rewrite Hh. reflexivity. }
    destruct (re_findall_filename disposition) as [| filename more] eqn:Hname.
    + rewrite download_cons. apply bind_raise.
      apply bind_raise. rewrite Hone. unfold save_response.
      rewrite (bind_lift_ok _ _ _ _ Hdisp).
      rewrite (bind_lift_err _ IndexError); [| rewrite Hname; reflexivity].
      cbn. rewrite app_nil_r. reflexivity.
    + rewrite download_cons.
      rewrite (save_response_named _ _ _ _ _ Hdisp Hname) in Hone.
      destruct (copy_to_file filename (raw resp) w2) as [[u | e] w3]; cbn [prepend] in Hone.
      * exists (Ok u).
        destruct (download rest asset_name w3) as [[o w4] t4] eqn:Hrest.
        exists o, w4, (EvYield (JStr filename) :: t4).
        rewrite (bind_return_prepend _ _ _ w3 tt
                   ((t1 ++ [EvGet location true (Ok resp)])
                      ++ [EvPrint ("Downloading " ++ filename)%string;
                          EvWrite filename (raw resp) (Ok u)]
                      ++ [EvYield (JStr filename)])).
        -- rewrite Hrest. cbn [prepend]. f_equal. rewrite <- !app_assoc. reflexivity.
        -- rewrite (bind_return_prepend _ _ _ _ _ _ Hone). cbn.
           rewrite <- !app_assoc. reflexivity.
      * exists (Err e), (Raise e), w3, [].
        apply bind_raise. rewrite (bind_raise _ _ _ _ _ _ Hone).
        rewrite <- !app_assoc. reflexivity.
  - rewrite download_cons. apply bind_raise.
    apply bind_raise. rewrite Hone. unfold save_response, header_getitem.
    rewrite Hh. cbn. rewrite app_nil_r. reflexivity.
Qed.

End DownloadProperties.

(** The service names the file with a path that leaves the working
    directory: that path is opened, written to and yielded as it is. *)
Lemma download_path_from_header_witness :
  download [Mock.feature "A"] "visual"
           [Ok (Mock.located "https://mock/download/A");
            Ok (Mock.file_response (Some (Mock.attachment "../outside/scene.tif"))
                                   [Byte.x49; Byte.x49; Byte.x2a; Byte.x00])] =
  (Return tt, [],
   [EvGet (JStr "https://mock/assets/A") false (Ok (Mock.located "https://mock/download/A"));
    EvGet (JStr "https://mock/download/A") true
          (Ok (Mock.file_response (Some (Mock.attachment "../outside/scene.tif"))
                                  [Byte.x49; Byte.x49; Byte.x2a; Byte.x00]));
    EvPrint "Downloading ../outside/scene.tif";
    EvWrite "../outside/scene.tif" [Byte.x49; Byte.x49; Byte.x2a; Byte.x00] (Ok tt);
    EvYield (JStr "../outside/scene.tif")]).
Proof.
  rewrite (download_writes_to_captured_filename
             "visual" (Mock.feature "A") [] (Mock.located_json "https://mock/download/A")
             (JStr "https://mock/download/A")
             (Mock.file_response (Some (Mock.attachment "../outside/scene.tif"))
                                 [Byte.x49; Byte.x49; Byte.x2a; Byte.x00])
             (Mock.attachment "../outside/scene.tif") "../outside/scene.tif" []
             [Ok (Mock.located "https://mock/download/A");
              Ok (Mock.file_response (Some (Mock.attachment "../outside/scene.tif"))
                                     [Byte.x49; Byte.x49; Byte.x2a; Byte.x00])]
             [Ok (Mock.file_response (Some (Mock.attachment "../outside/scene.tif"))
                                     [Byte.x49; Byte.x49; Byte.x2a; Byte.x00])]
             []
             [EvGet (JStr "https://mock/assets/A") false
                    (Ok (Mock.located "https://mock/download/A"))]).
  - reflexivity.
  - reflexivity.
  - reflexivity.
  - reflexivity.
  - left. cbn. lia.
  - reflexivity.
  - reflexivity.
Defined.

(** A download response without a [Content-Disposition] header. *)
Lemma download_without_header_witness :
  download [Mock.feature "A"] "visual"
           [Ok (Mock.located "https://mock/download/A");
            Ok (Mock.file_response None [Byte.x49; Byte.x49])] =
  (Raise (KeyError "content-disposition"), [],
   [EvGet (JStr "https://mock/assets/A") false (Ok (Mock.located "https://mock/download/A"));
    EvGet (JStr "https://mock/download/A") true
          (Ok (Mock.file_response None [Byte.x49; Byte.x49]))]).
Proof.
  refine (download_filename_from_content_disposition
            "visual" (Mock.feature "A") [] (Mock.located_json "https://mock/download/A")
            (JStr "https://mock/download/A")
            (Mock.file_response None [Byte.x49; Byte.x49])
            [Ok (Mock.located "https://mock/download/A");
             Ok (Mock.file_response None [Byte.x49; Byte.x49])]
            [Ok (Mock.file_response None [Byte.x49; Byte.x49])]
            []
            [EvGet (JStr "https://mock/assets/A") false
                   (Ok (Mock.located "https://mock/download/A"))]
            _ _ _ _).
  - reflexivity.
  - reflexivity.
  - reflexivity.
  - left. cbn. lia.
Defined.

(** C8 as the specification states it does not hold: without the header the
    download fails with [KeyError], with a header that names no file it
    fails with [IndexError]; neither is a [MalformedResponseError]. *)
Lemma download_malformed_header_is_key_or_index_error :
  exists (t1 t2 : trace) (e1 e2 : exn),
    download [Mock.feature "A"] "visual"
             [Ok (Mock.located "https://mock/download/A");
              Ok (Mock.file_response None [Byte.x49; Byte.x49])]
      = (Raise e1, [], t1) /\
    download [Mock.feature "A"] "visual"
             [Ok (Mock.located "https://mock/download/A");
              Ok (Mock.file_response (Some "attachment") [Byte.x49; Byte.x49])]
      = (Raise e2, [], t2) /\
    e1 = KeyError "content-disposition" /\
    e2 = IndexError /\
    exn_class e1 <> "MalformedResponseError" /\
    exn_class e2 <> "MalformedResponseError".
Proof.
  do 2 eexists. exists (KeyError "content-disposition"), IndexError.
  split; [vm_compute; reflexivity |].
  split; [vm_compute; reflexivity |].
  repeat split; discriminate.
Qed.

(** ** The session and its retries *)

Module SessionFacts.

Import Session.

Lemma exchanges_app (t1 t2 : list wire_event) :
  exchanges (t1 ++ t2) = exchanges t1 ++ exchanges t2.
Proof.
  induction t1 as [| ev t1 IH]; [reflexivity |].
  destruct ev; cbn; rewrite ?IH; reflexivity.
Qed.

Lemma pauses_app (t1 t2 : list wire_event) :
  pauses (t1 ++ t2) = pauses t1 ++ pauses t2.
Proof.
  induction t1 as [| ev t1 IH]; [reflexivity |].
  destruct ev; cbn; rewrite ?IH; reflexivity.
Qed.

Lemma waits_app (t1 t2 : list wire_event) :
  waits (t1 ++ t2) = waits t1 ++ waits t2.
Proof.
  induction t1 as [| ev t1 IH]; [reflexivity |].
  destruct ev; cbn; rewrite ?IH; reflexivity.
Qed.

Lemma sent_app (t1 t2 : list wire_event) : sent (t1 ++ t2) = sent t1 ++ sent t2.
Proof.
  induction t1 as [| ev t1 IH]; [reflexivity |].
  destruct ev; cbn; rewrite ?IH; reflexivity.
Qed.

Lemma exchanges_sleep_backoff (r : Retry) : exchanges (sleep_backoff r) = [].
Proof. unfold sleep_backoff. destruct (Qle_bool (get_backoff_time r) 0); reflexivity. Qed.

Lemma sent_sleep_backoff (r : Retry) : sent (sleep_backoff r) = [].
Proof. unfold sleep_backoff. destruct (Qle_bool (get_backoff_time r) 0); reflexivity. Qed.

Lemma waits_sleep_backoff (r : Retry) : waits (sleep_backoff r) = [].
Proof. unfold sleep_backoff. destruct (Qle_bool (get_backoff_time r) 0); reflexivity. Qed.

Lemma pauses_sleep_backoff (r : Retry) :
  pauses (sleep_backoff r) =
  backoff_pauses (backoff_factor r) (consecutive_errors (history r)) 1.
Proof.
  unfold sleep_backoff, backoff_pauses, get_backoff_time.
  cbn [seq flat_map]. rewrite app_nil_r.
  destruct (Qle_bool (backoff_at (backoff_factor r) (consecutive_errors (history r))) 0);
    reflexivity.
Qed.

Lemma backoff_pauses_split (factor : Q) (first count : nat) :
  backoff_pauses factor first (S count) =
  backoff_pauses factor first 1 ++ backoff_pauses factor (S first) count.
Proof.
  unfold backoff_pauses. cbn [seq flat_map]. rewrite app_nil_r. reflexivity.
Qed.

(** What [is_retry] accepts. *)
Lemma is_retry_true (r : Retry) (meth : string) (code : Z) (ra : bool) :
  is_retry r meth code ra = true ->
  is_method_retryable meth = true /\
  (mem_Z code (status_forcelist r) = true \/
   (ra = true /\ mem_Z code retry_after_status_codes = true)).
Proof.
  unfold is_retry. intros H.
  destruct (is_method_retryable meth); [| discriminate].
  split; [reflexivity |]. cbn [negb] in H.
  destruct (mem_Z code (status_forcelist r)); [left; reflexivity |].
  right. destruct (negb (total r =? 0)); [| discriminate].
  destruct ra; [| discriminate].
  destruct (mem_Z code retry_after_status_codes); [| discriminate].
  split; reflexivity.
Qed.

(** With no retry left, only the force list makes a response one to retry. *)
Lemma is_retry_last (r : Retry) (meth : string) (code : Z) (ra : bool) :
  total r = 0 ->
  is_retry r meth code ra = true ->
  mem_Z code (status_forcelist r) = true.
Proof.
  unfold is_retry. intros Htotal H. rewrite Htotal in H.
  destruct (negb (is_method_retryable meth)); [discriminate |].
  destruct (mem_Z code (status_forcelist r)); [reflexivity | discriminate].
Qed.

(** A retried method is answered only by a response outside the force list. *)
Lemma is_retry_false (r : Retry) (meth : string) (code : Z) (ra : bool) :
  is_retry r meth code ra = false ->
  is_method_retryable meth = true ->
  mem_Z code (status_forcelist r) = false.
Proof.
  unfold is_retry. intros H Hm. rewrite Hm in H. cbn [negb] in H.
  destruct (mem_Z code (status_forcelist r)); [discriminate | reflexivity].
Qed.

(** The failures that are counted. *)
Lemma reraised_false (r : Retry) (meth : string) (f : failure) :
  reraised r meth f = false ->
  f = ConnectFailure \/ f = OtherFailure \/
  (f = ReadFailure /\ read_retried r = true /\ is_method_retryable meth = true).
Proof.
  destruct f; cbn; intros H; auto; [| discriminate].
  right. right. apply orb_false_elim in H. destruct H as [H1 H2].
  apply negb_false_iff in H1, H2. auto.
Qed.

(** A status of the codes that honour [Retry-After], or of a force list that
    holds no redirect status, is not one of a redirect. *)
Lemma retried_is_no_redirect (r : Retry) (resp : Response) :
  Forall (fun code => mem_Z code redirect_statuses = false) (status_forcelist r) ->
  mem_Z (status_code resp) (status_forcelist r) = true \/
  mem_Z (status_code resp) retry_after_status_codes = true ->
  get_redirect_location resp = None.
Proof.
  intros Hforce H. unfold get_redirect_location.
  assert (Hno : mem_Z (status_code resp) redirect_statuses = false).
  { destruct H as [H | H].
    - unfold mem_Z in H. apply existsb_exists in H. destruct H as [c [Hin Hc]].
      apply Z.eqb_eq in Hc. subst c.
      rewrite Forall_forall in Hforce. apply Hforce. exact Hin.
    - unfold mem_Z in H. apply existsb_exists in H. destruct H as [c [Hin Hc]].
      apply Z.eqb_eq in Hc. subst c.
      cbn in Hin. destruct Hin as [H | [H | [H | []]]]; rewrite <- H; reflexivity. }
  rewrite Hno. reflexivity.
Qed.

Lemma total_pause_app (a b : list Q) :
  (total_pause (a ++ b) == total_pause a + total_pause b)%Q.
Proof.
  induction a as [| q a IH]; cbn.
  - symmetry. apply Qplus_0_l.
  - unfold total_pause in IH. rewrite IH. apply Qplus_assoc.
Qed.

Lemma backoff_at_nonneg (factor : Q) (j : nat) :
  (0 <= factor)%Q -> (0 <= backoff_at factor j)%Q.
Proof.
  intros Hfactor. unfold backoff_at.
  destruct (Nat.leb j 1); [apply Qle_refl |].
  destruct (Qle_bool BACKOFF_MAX _); [discriminate |].
  rewrite Qred_correct. apply Qmult_le_0_compat; [exact Hfactor |].
  unfold Qle. cbn. rewrite Z.mul_1_r. apply Z.pow_nonneg. lia.
Qed.

Lemma backoff_pauses_nonneg (factor : Q) (first count : nat) :
  (0 <= factor)%Q -> (0 <= total_pause (backoff_pauses factor first count))%Q.
Proof.
  intros Hfactor. revert first.
  induction count as [| c IH]; intros first; [apply Qle_refl |].
  rewrite backoff_pauses_split, total_pause_app.
  rewrite <- (Qplus_0_l 0). apply Qplus_le_compat; [| apply IH].
  unfold backoff_pauses. cbn [seq flat_map]. rewrite app_nil_r.
  destruct (Qle_bool (backoff_at factor first) 0); [apply Qle_refl |].
  cbn. rewrite Qplus_0_r. apply backoff_at_nonneg. exact Hfactor.
Qed.



Lemma upper_ascii_upper (c : ascii) : upper_ascii (upper_ascii c) = upper_ascii c.
Proof. destruct c as [[] [] [] [] [] [] [] []]; reflexivity. Qed.

Lemma upper_upper (s : string) : upper (upper s) = upper s.
Proof.
  induction s as [| c s IH]; [reflexivity |].
  cbn [upper]. rewrite upper_ascii_upper, IH. reflexivity.
Qed.

(** The policies that [setup_session] leaves mounted. *)
Lemma setup_session_adapters (api_key : option string) (environ : string -> option string)
  (s : Session) :
  setup_session api_key environ = Return s ->
  auth s =
    Some (match api_key with
          | Some k => Some k
          | None => environ "PL_API_KEY"
          end, "") /\
  adapters s = [("https://", https_retries); ("http://", default_retries)].
Proof.
  unfold setup_session. intros H. inversion H; subst. clear H.
  split; [destruct api_key |]; reflexivity.
Qed.

Lemma http_is_not_https (s : string) :
  starts_with "http://" s = true -> starts_with "https://" s = false.
Proof.
  intros H.
  destruct s as [| c1 [| c2 [| c3 [| c4 [| c5 s]]]]]; cbn [starts_with] in *;
    rewrite ?andb_false_r in H; try discriminate H.
  apply andb_true_iff in H. destruct H as [_ H].
  apply andb_true_iff in H. destruct H as [_ H].
  apply andb_true_iff in H. destruct H as [_ H].
  apply andb_true_iff in H. destruct H as [_ H].
  apply andb_true_iff in H. destruct H as [H _].
  apply Ascii.eqb_eq in H. subst c5.
  replace (Ascii.eqb "s" ":") with false by reflexivity.
  cbn [andb]. rewrite !andb_false_r. reflexivity.
Qed.

Lemma session_adapter (u : string) (r : Retry) :
  get_adapter [("https://", https_retries); ("http://", default_retries)] u = Some r ->
  (r = https_retries /\ starts_with "https://" (lower u) = true) \/
  (r = default_retries /\ starts_with "http://" (lower u) = true).
Proof.
  cbn [get_adapter].
  change (lower "https://") with "https://". change (lower "http://") with "http://".
  destruct (starts_with "https://" (lower u)) eqn:Hs.
  - intros H. inversion H. auto.
  - destruct (starts_with "http://" (lower u)) eqn:Hp; [| discriminate].
    intros H. inversion H. auto.
Qed.

Lemma http_adapter (u : string) :
  starts_with "http://" (lower u) = true ->
  get_adapter [("https://", https_retries); ("http://", default_retries)] u
    = Some default_retries.
Proof.
  intros H. cbn [get_adapter].
  change (lower "https://") with "https://". change (lower "http://") with "http://".
  rewrite (http_is_not_https _ H), H. reflexivity.
Qed.

Lemma mem_Z_429 (code : Z) : mem_Z code [429] = true -> code = 429.
Proof.
  unfold mem_Z. cbn. rewrite orb_false_r. apply Z.eqb_eq.
Qed.

Lemma retry_after_codes (code : Z) :
  mem_Z code retry_after_status_codes = true -> code = 413 \/ code = 429 \/ code = 503.
Proof.
  unfold mem_Z. cbn. rewrite orb_false_r. intros H.
  apply orb_true_iff in H. destruct H as [H | H]; [apply Z.eqb_eq in H; auto |].
  apply orb_true_iff in H. destruct H as [H | H]; apply Z.eqb_eq in H; auto.
Qed.

(** The default policy retries no response. *)
Lemma is_retry_default (meth : string) (code : Z) (ra : bool) :
  is_retry default_retries meth code ra = false.
Proof. unfold is_retry. destruct (negb (is_method_retryable meth)); reflexivity. Qed.

(** What the policy of [setup_session] retries. *)
Lemma retried_https (ev : wire_event) : retried https_retries ev -> retried_by_session ev.
Proof.
  destruct ev as [req resp | req f | q | q]; cbn; auto.
  - intros [Hm [H | [Hra H]]]; (split; [exact Hm |]).
    + left. apply mem_Z_429. exact H.
    + apply retry_after_codes in H. destruct H as [H | [H | H]]; auto.
  - intros [H | [H | [H [_ Hm]]]]; auto.
Qed.

(** The schedule of its backoff, and what it adds up to. *)
Lemma https_schedule (count : nat) :
  (1 <= count <= 6)%nat ->
  backoff_pauses double_0_2 1 (count - 1) = map pause_before_retry (seq 2 (count - 2)) /\
  (total_pause (backoff_pauses double_0_2 1 (count - 1)) <= backoff_budget)%Q.
Proof.
  intros Hcount.
  destruct count as [| [| [| [| [| [| [| m]]]]]]]; try lia;
    (split; [vm_compute; reflexivity | unfold Qle; vm_compute; discriminate]).
Qed.

Section RetryLoop.

Context {N : Type} {T : Transport N} {L : Locator}.

(** The pause after a retried response. *)
Lemma sleep_cases (r : Retry) (resp : Response) (n : N) (pause : list wire_event) :
  sleep r resp n = Some pause ->
  (pause = sleep_backoff r) \/
  (exists v seconds,
     header_lookup "Retry-After" (headers resp) = Some v /\ pause = [RetryAfter seconds]).
Proof.
  unfold sleep. destruct (header_lookup "Retry-After" (headers resp)) as [v |].
  - destruct (parse_retry_after v n) as [seconds |]; [| discriminate].
    destruct (Qle_bool seconds 0); intros H; inversion H; subst; eauto.
  - intros H. inversion H. auto.
Qed.

Lemma sleep_without_header (r : Retry) (resp : Response) (n : N) :
  header_lookup "Retry-After" (headers resp) = None ->
  sleep r resp n = Some (sleep_backoff r).
Proof. unfold sleep. intros H. rewrite H. reflexivity. Qed.

Lemma exchanges_sleep (r : Retry) (resp : Response) (n : N) (pause : list wire_event) :
  sleep r resp n = Some pause -> exchanges pause = [] /\ sent pause = [].
Proof.
  intros H. destruct (sleep_cases _ _ _ _ H) as [Hp | (v & q & _ & Hp)]; subst.
  - split; [apply exchanges_sleep_backoff | apply sent_sleep_backoff].
  - split; reflexivity.
Qed.

(** One turn of [urlopen]: the seven ways it can go. *)
Ltac urlopen_turn Hrun :=
  cbn [urlopen] in Hrun;
  let resp := fresh "resp" in
  let f := fresh "f" in
  let n1 := fresh "n1" in
  destruct (exchange _ _) as [[resp | f] n1] eqn:Hexchange;
  [ destruct (is_retry _ _ _ _) eqn:Hretry;
    [ destruct (is_exhausted _) eqn:Hex;
      [ | destruct (sleep _ _ _) as [pause |] eqn:Hsleep;
          [ destruct (urlopen _ _ _ _) as [[e2 n2] t2] eqn:Hrec | ] ]
    | ]
  | destruct (reraised _ _ _) eqn:Hraised;
    [ | destruct (is_exhausted _) eqn:Hex;
        [ | destruct (urlopen _ _ _ _) as [[e2 n2] t2] eqn:Hrec ] ] ];
  inversion Hrun; subst; clear Hrun.

(** The loop ends when it is given one turn more than the retries allowed. *)
Lemma urlopen_finishes :
  forall (fuel : nat) (r : Retry) (req : Request) (n n' : N)
         (e : ending) (t : list wire_event),
    (1 <= fuel)%nat ->
    total r < Z.of_nat fuel ->
    urlopen fuel r req n = (e, n', t) ->
    e <> Unfinished.
Proof.
  induction fuel as [| k IH]; intros r req n n' e t Hfuel Htotal Hrun; [lia |].
  urlopen_turn Hrun; try discriminate;
    unfold is_exhausted in Hex; cbn in Hex; apply Z.ltb_ge in Hex;
    (eapply IH; [| | exact Hrec]; cbn; lia).
Qed.

(** Every exchange of the loop sends the same request. *)
Lemma urlopen_sent :
  forall (fuel : nat) (r : Retry) (req : Request) (n n' : N)
         (e : ending) (t : list wire_event),
    urlopen fuel r req n = (e, n', t) ->
    Forall (eq req) (sent t).
Proof.
  induction fuel as [| k IH]; intros r req n n' e t Hrun.
  - cbn in Hrun. inversion Hrun. constructor.
  - urlopen_turn Hrun; cbn [sent]; try (repeat constructor; fail).
    + rewrite sent_app. destruct (exchanges_sleep _ _ _ _ Hsleep) as [_ Hs].
      rewrite Hs. constructor; [reflexivity | eapply IH; exact Hrec].
    + rewrite sent_app, sent_sleep_backoff.
      constructor; [reflexivity | eapply IH; exact Hrec].
Qed.

(** A response that the loop hands back is the last one received, and
    [is_retry] did not accept it: for a retried method its status is not
    in the force list. *)
Lemma urlopen_answered :
  forall (fuel : nat) (r : Retry) (req : Request) (n n' : N)
         (resp : Response) (t : list wire_event),
    urlopen fuel r req n = (Answered resp, n', t) ->
    last (exchanges t) (Backoff 0) = Attempt req resp /\
    (is_method_retryable (method req) = true ->
     mem_Z (status_code resp) (status_forcelist r) = false).
Proof.
  induction fuel as [| k IH]; intros r req n n' resp t Hrun.
  - cbn in Hrun. inversion Hrun.
  - remember (Answered resp) as e eqn:He.
    urlopen_turn Hrun; try discriminate.
    + destruct (IH _ _ _ _ _ _ Hrec) as [Hlast Hforce].
      split; [| exact Hforce].
      cbn [exchanges]. rewrite exchanges_app.
      destruct (exchanges_sleep _ _ _ _ Hsleep) as [Hs _]. rewrite Hs. cbn [app].
      destruct (exchanges t2) as [| ev rest]; [discriminate Hlast | exact Hlast].
    + inversion H0; subst. split; [reflexivity |].
      intros Hm. eapply is_retry_false; eauto.
    + destruct (IH _ _ _ _ _ _ Hrec) as [Hlast Hforce].
      split; [| exact Hforce].
      cbn [exchanges]. rewrite exchanges_app, exchanges_sleep_backoff. cbn [app].
      destruct (exchanges t2) as [| ev rest]; [discriminate Hlast | exact Hlast].
Qed.



(** The loop makes at most one exchange more than the retries allowed;
    every exchange but the last was one to retry; and the loop gives up on
    a status only when the retries are used up, on a response whose status
    is in the force list. *)
Lemma urlopen_counts :
  forall (fuel : nat) (r : Retry) (req : Request) (n n' : N)
         (e : ending) (t : list wire_event),
    0 <= total r ->
    fuel = S (Z.to_nat (total r)) ->
    urlopen fuel r req n = (e, n', t) ->
    (1 <= List.length (exchanges t) <= fuel)%nat /\
    Forall (retried r) (removelast (exchanges t)) /\
    (forall code : Z,
       e = Exhausted code ->
       List.length (exchanges t) = fuel /\
       mem_Z code (status_forcelist r) = true /\
       exists resp,
         last (exchanges t) (Backoff 0) = Attempt req resp /\ status_code resp = code).
Proof.
  induction fuel as [| k IH]; intros r req n n' e t Htotal Hfuel Hrun; [discriminate |].
  urlopen_turn Hrun.
  - unfold is_exhausted in Hex. cbn in Hex. apply Z.ltb_lt in Hex.
    assert (Hzero : total r = 0) by lia.
    cbn. split; [lia |]. split; [constructor |].
    intros code Hcode. inversion Hcode; subst.
    split; [rewrite Hzero in Hfuel; cbn in Hfuel; lia |].
    split; [eapply is_retry_last; eauto | eauto].
  - unfold is_exhausted in Hex. cbn in Hex. apply Z.ltb_ge in Hex.
    apply IH in Hrec; [| cbn; lia | cbn; lia].
    destruct Hrec as (Hlen & Hcause & Hgave).
    cbn [exchanges]. rewrite exchanges_app.
    destruct (exchanges_sleep _ _ _ _ Hsleep) as [Hs _]. rewrite Hs. cbn [app].
    destruct (exchanges t2) as [| ev2 rest2] eqn:Hex2; [cbn in Hlen; lia |].
    cbn [List.length] in *.
    split; [lia |]. split.
    + change (removelast (Attempt req resp :: ev2 :: rest2))
        with (Attempt req resp :: removelast (ev2 :: rest2)).
      constructor; [| exact Hcause].
      cbn. apply is_retry_true in Hretry. exact Hretry.
    + intros code Hcode. destruct (Hgave code Hcode) as (Hl & Hforce & Hlast).
      split; [lia |]. split; [exact Hforce | exact Hlast].
  - cbn. split; [lia |]. split; [constructor | discriminate].
  - cbn. split; [lia |]. split; [constructor | discriminate].
  - cbn. split; [lia |]. split; [constructor | discriminate].
  - cbn. split; [lia |]. split; [constructor | discriminate].
  - unfold is_exhausted in Hex. cbn in Hex. apply Z.ltb_ge in Hex.
    apply IH in Hrec; [| cbn; lia | cbn; lia].
    destruct Hrec as (Hlen & Hcause & Hgave).
    cbn [exchanges]. rewrite exchanges_app, exchanges_sleep_backoff. cbn [app].
    destruct (exchanges t2) as [| ev2 rest2] eqn:Hex2; [cbn in Hlen; lia |].
    cbn [List.length] in *.
    split; [lia |]. split.
    + change (removelast (Fault req f :: ev2 :: rest2))
        with (Fault req f :: removelast (ev2 :: rest2)).
      constructor; [| exact Hcause].
      cbn. eapply reraised_false. exact Hraised.
    + intros code Hcode. destruct (Hgave code Hcode) as (Hl & Hforce & Hlast).
      split; [lia |]. split; [exact Hforce | exact Hlast].
Qed.

(** Between exchanges whose responses carry no [Retry-After] header the
    pauses are those of the backoff, one before every retry that has a
    backoff time. *)
Lemma urlopen_pauses :
  forall (fuel : nat) (r : Retry) (req : Request) (n n' : N)
         (e : ending) (t : list wire_event),
    0 <= total r ->
    fuel = S (Z.to_nat (total r)) ->
    Forall (fun code => mem_Z code redirect_statuses = false) (status_forcelist r) ->
    urlopen fuel r req n = (e, n', t) ->
    Forall without_retry_after (removelast (exchanges t)) ->
    pauses t =
      backoff_pauses (backoff_factor r) (S (consecutive_errors (history r)))
                     (List.length (exchanges t) - 1) /\
    waits t = [].
Proof.
  induction fuel as [| k IH]; intros r req n n' e t Htotal Hfuel Hforce Hrun Hplain;
    [discriminate |].
  urlopen_turn Hrun; try (split; reflexivity).
  - unfold is_exhausted in Hex. cbn in Hex. apply Z.ltb_ge in Hex.
    destruct (urlopen_counts k (increment r (Some resp)) req n1 n' e t2)
      as ([Hlen _] & _); [cbn; lia | cbn; lia | exact Hrec |].
    cbn [exchanges pauses waits] in *.
    rewrite exchanges_app in *. rewrite pauses_app, waits_app.
    destruct (exchanges_sleep _ _ _ _ Hsleep) as [Hs _]. rewrite Hs in *. cbn [app] in *.
    destruct (exchanges t2) as [| ev2 rest2] eqn:Hex2; [cbn in Hlen; lia |].
    change (removelast (Attempt req resp :: ev2 :: rest2))
      with (Attempt req resp :: removelast (ev2 :: rest2)) in Hplain.
    inversion Hplain as [| ? ? Hnone Hrest]; subst. cbn in Hnone.
    rewrite (sleep_without_header _ _ _ Hnone) in Hsleep. inversion Hsleep; subst.
    apply IH in Hrec; [| cbn; lia | cbn; lia | exact Hforce |].
    + destruct Hrec as [Hpause Hwait]. rewrite Hex2 in Hpause.
      rewrite Hpause, Hwait, pauses_sleep_backoff, waits_sleep_backoff.
      cbn [backoff_factor increment history consecutive_errors redirect_location].
      apply is_retry_true in Hretry. destruct Hretry as [_ Hwhy].
      rewrite (retried_is_no_redirect r resp Hforce);
        [| destruct Hwhy as [H | [_ H]]; auto].
      split; [| reflexivity].
      cbn [List.length].
      replace (S (S (List.length rest2)) - 1)%nat
        with (S (S (List.length rest2) - 1))%nat by lia.
      symmetry. apply backoff_pauses_split.
    + rewrite Hex2. exact Hrest.
  - unfold is_exhausted in Hex. cbn in Hex. apply Z.ltb_ge in Hex.
    destruct (urlopen_counts k (increment r None) req n1 n' e t2)
      as ([Hlen _] & _); [cbn; lia | cbn; lia | exact Hrec |].
    cbn [exchanges pauses waits] in *.
    rewrite exchanges_app in *. rewrite pauses_app, waits_app.
    rewrite exchanges_sleep_backoff in *. cbn [app] in *.
    destruct (exchanges t2) as [| ev2 rest2] eqn:Hex2; [cbn in Hlen; lia |].
    change (removelast (Fault req f :: ev2 :: rest2))
      with (Fault req f :: removelast (ev2 :: rest2)) in Hplain.
    inversion Hplain as [| ? ? _ Hrest]; subst.
    apply IH in Hrec; [| cbn; lia | cbn; lia | exact Hforce |].
    + destruct Hrec as [Hpause Hwait]. rewrite Hex2 in Hpause.
      rewrite Hpause, Hwait, pauses_sleep_backoff, waits_sleep_backoff.
      cbn [backoff_factor increment history consecutive_errors redirect_location].
      split; [| reflexivity].
      cbn [List.length].
      replace (S (S (List.length rest2)) - 1)%nat
        with (S (S (List.length rest2) - 1))%nat by lia.
      symmetry. apply backoff_pauses_split.
    + rewrite Hex2. exact Hrest.
Qed.

(** Whatever the responses carry, the pauses of the backoff add up to no more
    than those of its full schedule. *)
Lemma urlopen_budget :
  forall (fuel : nat) (r : Retry) (req : Request) (n n' : N)
         (e : ending) (t : list wire_event),
    0 <= total r ->
    fuel = S (Z.to_nat (total r)) ->
    Forall (fun code => mem_Z code redirect_statuses = false) (status_forcelist r) ->
    (0 <= backoff_factor r)%Q ->
    urlopen fuel r req n = (e, n', t) ->
    (total_pause (pauses t) <=
     total_pause (backoff_pauses (backoff_factor r) (S (consecutive_errors (history r)))
                                 (List.length (exchanges t) - 1)))%Q.
Proof.
  induction fuel as [| k IH]; intros r req n n' e t Htotal Hfuel Hforce Hfactor Hrun;
    [discriminate |].
  urlopen_turn Hrun; try apply Qle_refl.
  - unfold is_exhausted in Hex. cbn in Hex. apply Z.ltb_ge in Hex.
    destruct (urlopen_counts k (increment r (Some resp)) req n1 n' e t2)
      as ([Hlen _] & _); [cbn; lia | cbn; lia | exact Hrec |].
    apply IH in Hrec; [| cbn; lia | cbn; lia | exact Hforce | exact Hfactor].
    cbn [exchanges pauses].
    rewrite exchanges_app, pauses_app.
    destruct (exchanges_sleep _ _ _ _ Hsleep) as [Hs _]. rewrite Hs. cbn [app].
    cbn [backoff_factor increment history consecutive_errors redirect_location] in Hrec.
    apply is_retry_true in Hretry. destruct Hretry as [_ Hwhy].
    rewrite (retried_is_no_redirect r resp Hforce) in Hrec;
      [| destruct Hwhy as [H | [_ H]]; auto].
    destruct (exchanges t2) as [| ev2 rest2] eqn:Hex2; [cbn in Hlen; lia |].
    cbn [List.length] in *.
    replace (S (S (List.length rest2)) - 1)%nat
      with (S (S (List.length rest2) - 1))%nat by lia.
    rewrite (backoff_pauses_split _ _ (S (List.length rest2) - 1)).
    rewrite !total_pause_app.
    apply Qplus_le_compat; [| exact Hrec].
    destruct (sleep_cases _ _ _ _ Hsleep) as [Hp | (v & q & _ & Hp)]; subst pause.
    + rewrite pauses_sleep_backoff.
      cbn [backoff_factor increment history consecutive_errors redirect_location].
      rewrite (retried_is_no_redirect r resp Hforce);
        [| destruct Hwhy as [H | [_ H]]; auto].
      apply Qle_refl.
    + cbn [pauses]. apply backoff_pauses_nonneg. exact Hfactor.
  - unfold is_exhausted in Hex. cbn in Hex. apply Z.ltb_ge in Hex.
    destruct (urlopen_counts k (increment r None) req n1 n' e t2)
      as ([Hlen _] & _); [cbn; lia | cbn; lia | exact Hrec |].
    apply IH in Hrec; [| cbn; lia | cbn; lia | exact Hforce | exact Hfactor].
    cbn [exchanges pauses].
    rewrite exchanges_app, pauses_app, exchanges_sleep_backoff, pauses_sleep_backoff.
    cbn [app].
    cbn [backoff_factor increment history consecutive_errors redirect_location] in *.
    destruct (exchanges t2) as [| ev2 rest2] eqn:Hex2; [cbn in Hlen; lia |].
    cbn [List.length] in *.
    replace (S (S (List.length rest2)) - 1)%nat
      with (S (S (List.length rest2) - 1))%nat by lia.
    rewrite (backoff_pauses_split _ _ (S (List.length rest2) - 1)).
    rewrite !total_pause_app.
    apply Qplus_le_compat; [apply Qle_refl | exact Hrec].
Qed.

(** The default adapter makes one exchange and hands back what it gets. *)
Lemma default_hop (req : Request) (n n' : N) (e : ending) (t : list wire_event) :
  urlopen 1 default_retries req n = (e, n', t) ->
  (exists resp, t = [Attempt req resp] /\ e = Answered resp /\
                exchange req n = (Responded resp, n')) \/
  (exists f, t = [Fault req f] /\ e = Broken f /\ exchange req n = (Failed f, n')).
Proof.
  intros Hrun. cbn [urlopen] in Hrun.
  destruct (exchange req n) as [[resp | f] n1].
  - rewrite is_retry_default in Hrun. inversion Hrun; subst. left. eauto.
  - right. exists f.
    destruct (reraised default_retries (method req) f);
      [inversion Hrun; subst; auto |].
    cbn in Hrun. inversion Hrun; subst. auto.
Qed.

Ltac split_run Hrun :=
  repeat match type of Hrun with
         | context [match ?x with _ => _ end] => destruct x eqn:?
         end.

(** One turn of [send]: no adapter; or a hop that ends the call; or a hop
    answered by a redirect, and the rest of the call from its target. *)
Lemma send_step (redirects : nat) (mounted : list (string * Retry)) (inner stream : bool)
  (req : Request) (n n' : N) (e : ending) (hops : list hop) :
  send redirects mounted inner stream req n = (e, n', hops) ->
  (get_adapter mounted (url req) = None /\ e = NoAdapter /\ hops = []) \/
  exists (r : Retry) (e1 : ending) (n1 : N) (t1 : list wire_event),
    get_adapter mounted (url req) = Some r /\
    urlopen (S (Z.to_nat (total r))) r req n = (e1, n1, t1) /\
    ((hops = [mkHop req e1 t1] /\
      (e = e1 \/
       ((exists resp, e1 = Answered resp) /\
        (e = BadLocation \/ e = TooManyRedirects \/ exists f, e = ContentFailed f)))) \/
     (exists (resp : Response) (fewer : nat) (u : string) (hops2 : list hop),
        e1 = Answered resp /\ get_redirect_target resp <> None /\
        redirects = S fewer /\
        send fewer mounted true stream
             {| method := rebuild_method (method req) (status_code resp);
                url := u;
                authorization := rebuild_auth req u |} n1 = (e, n', hops2) /\
        hops = mkHop req e1 t1 :: hops2)).
Proof.
  intros Hrun.
  destruct redirects as [| fewer]; cbn [send] in Hrun;
    (destruct (get_adapter mounted (url req)) as [r |] eqn:Hadapter;
     [| inversion Hrun; subst; left; auto]);
    (destruct (urlopen (S (Z.to_nat (total r))) r req n) as [[e1 n1] t1] eqn:Hhop);
    right; exists r, e1, n1, t1; (split; [reflexivity |]); (split; [exact Hhop |]);
    split_run Hrun; inversion Hrun; subst;
    try (left; split; [reflexivity |]; eauto 10; fail);
    (right; do 4 eexists; split; [reflexivity |]; split; [congruence |];
     split; [reflexivity |]; split; [eassumption | reflexivity]).
Qed.

(** What the hops of a call are, how many there can be, which request the
    first one sends and how the call ends. *)
Lemma send_spec :
  forall (redirects : nat) (mounted : list (string * Retry)) (inner stream : bool)
         (req : Request) (n n' : N) (e : ending) (hops : list hop),
    send redirects mounted inner stream req n = (e, n', hops) ->
    e <> Unfinished /\
    (List.length hops <= S redirects)%nat /\
    Forall (fun h =>
              exists (r : Retry) (n0 n1 : N),
                get_adapter mounted (url (hop_request h)) = Some r /\
                urlopen (S (Z.to_nat (total r))) r (hop_request h) n0
                  = (hop_ending h, n1, hop_wire h)) hops /\
    match hops with
    | [] => e = NoAdapter
    | h :: _ => hop_request h = req
    end /\
    ((exists hs h, hops = hs ++ [h] /\ hop_ending h = e) \/
     e = NoAdapter \/ e = BadLocation \/ e = TooManyRedirects \/
     exists f, e = ContentFailed f).
Proof.
  assert (Hone :
            forall (redirects : nat) (mounted : list (string * Retry)) (req : Request)
                   (r : Retry) (n n1 : N) (e e1 : ending) (t1 : list wire_event),
              get_adapter mounted (url req) = Some r ->
              urlopen (S (Z.to_nat (total r))) r req n = (e1, n1, t1) ->
              e = e1 \/
              ((exists resp, e1 = Answered resp) /\
               (e = BadLocation \/ e = TooManyRedirects \/ exists f, e = ContentFailed f)) ->
              e <> Unfinished /\
              (List.length [mkHop req e1 t1] <= S redirects)%nat /\
              Forall (fun h =>
                        exists (r : Retry) (n0 n1 : N),
                          get_adapter mounted (url (hop_request h)) = Some r /\
                          urlopen (S (Z.to_nat (total r))) r (hop_request h) n0
                            = (hop_ending h, n1, hop_wire h)) [mkHop req e1 t1] /\
              hop_request (mkHop req e1 t1) = req /\
              ((exists hs h, [mkHop req e1 t1] = hs ++ [h] /\ hop_ending h = e) \/
               e = NoAdapter \/ e = BadLocation \/ e = TooManyRedirects \/
               exists f, e = ContentFailed f)).
  { intros redirects mounted req r n n1 e e1 t1 Hadapter Hhop He.
    split; [| split; [cbn; lia | split; [| split; [reflexivity |]]]].
    - destruct He as [He | [_ [He | [He | [f He]]]]]; subst; try discriminate.
      eapply urlopen_finishes; [| | exact Hhop]; lia.
    - constructor; [| constructor]. exists r, n, n1. cbn. auto.
    - destruct He as [He | [_ [He | [He | [f He]]]]]; subst; eauto 10.
      left. exists [], (mkHop req e1 t1). auto. }
  induction redirects as [| k IH]; intros mounted inner stream req n n' e hops Hrun;
    apply send_step in Hrun;
    destruct Hrun as [(_ & He & Hhops) | (r & e1 & n1 & t1 & Hadapter & Hhop & Hrest)];
    try (subst; repeat split; try discriminate; cbn; auto; lia).
  - destruct Hrest as [[Hhops He] | (resp & fewer & u & hops2 & _ & _ & Hk & _)];
      [| discriminate].
    subst hops. eapply Hone; eauto.
  - destruct Hrest as [[Hhops He] | (resp & fewer & u & hops2 & He1 & _ & Hk & Hrec & Hhops)].
    + subst hops. eapply Hone; eauto.
    + inversion Hk; subst fewer. subst hops. apply IH in Hrec.
      destruct Hrec as (Hend & Hlen & Hall & Hfirst & Hlast).
      split; [exact Hend |]. split; [cbn; lia |]. split; [| split; [reflexivity |]].
      * constructor; [| exact Hall]. exists r, n, n1. cbn. auto.
      * destruct Hlast as [(hs & h & Hhs & Hh) | Hother]; [| right; exact Hother].
        left. exists (mkHop req e1 t1 :: hs), h. rewrite Hhs. auto.
Qed.

(** What holds of the request of the first hop and is kept by a redirect
    holds of the request of every hop. *)
Lemma send_requests (P : Request -> Prop) :
  (forall (req : Request) (resp : Response) (u : string),
     P req ->
     P {| method := rebuild_method (method req) (status_code resp);
          url := u;
          authorization := rebuild_auth req u |}) ->
  forall (redirects : nat) (mounted : list (string * Retry)) (inner stream : bool)
         (req : Request) (n n' : N) (e : ending) (hops : list hop),
    P req ->
    send redirects mounted inner stream req n = (e, n', hops) ->
    Forall (fun h => P (hop_request h)) hops.
Proof.
  intros Hkept.
  induction redirects as [| k IH]; intros mounted inner stream req n n' e hops Hreq Hrun;
    apply send_step in Hrun;
    destruct Hrun as [(_ & He & Hhops) | (r & e1 & n1 & t1 & Hadapter & Hhop & Hrest)];
    try (subst; constructor).
  - destruct Hrest as [[Hhops He] | (resp & fewer & u & hops2 & _ & _ & Hk & _)];
      [| discriminate].
    subst hops. constructor; [exact Hreq | constructor].
  - destruct Hrest as [[Hhops He] | (resp & fewer & u & hops2 & He1 & _ & Hk & Hrec & Hhops)].
    + subst hops. constructor; [exact Hreq | constructor].
    + inversion Hk; subst fewer. subst hops.
      constructor; [exact Hreq |].
      eapply IH; [| exact Hrec]. apply Hkept. exact Hreq.
Qed.

(** The loop starts by sending the request. *)
Lemma urlopen_sends (k : nat) (r : Retry) (req : Request) (n n' : N)
  (e : ending) (t : list wire_event) :
  urlopen (S k) r req n = (e, n', t) -> exists rest, sent t = req :: rest.
Proof.
  intros Hrun. urlopen_turn Hrun; cbn [sent]; eauto.
Qed.

(** A call of one hop: the hop does not end with a response, or with a
    response that is not a redirect to follow and whose body can be read
    when the call reads it. *)
Lemma send_one_hop (redirects : nat) (mounted : list (string * Retry))
  (inner stream : bool) (r : Retry) (req : Request) (n n1 : N) (e1 : ending)
  (t : list wire_event) :
  get_adapter mounted (url req) = Some r ->
  urlopen (S (Z.to_nat (total r))) r req n = (e1, n1, t) ->
  (forall resp,
     e1 = Answered resp ->
     get_redirect_target resp = None /\
     (stream = true \/ read_content resp n1 = None)) ->
  send redirects mounted inner stream req n =
    (e1, n1, [{| hop_request := req; hop_ending := e1; hop_wire := t |}]).
Proof.
  intros Hadapter Hhop Hanswered.
  destruct redirects; cbn [send]; rewrite Hadapter, Hhop;
    (destruct e1 as [resp | | | | | | | | |]; try reflexivity);
    (destruct (Hanswered resp eq_refl) as [Htarget Hbody]);
    rewrite Htarget;
    (destruct Hbody as [Hs | Hread];
     [subst stream; reflexivity
     | destruct stream; [reflexivity | rewrite Hread; reflexivity]]).
Qed.

(** A first response that is not one to retry, nor a redirect to follow,
    is handed back after that one exchange, if its body can be read when
    the call reads it. *)
Lemma first_response_answered (redirects : nat) (mounted : list (string * Retry))
  (inner stream : bool) (r : Retry) (req : Request) (resp : Response) (n n1 : N) :
  get_adapter mounted (url req) = Some r ->
  exchange req n = (Responded resp, n1) ->
  is_retry r (method req) (status_code resp) (has_retry_after resp) = false ->
  get_redirect_target resp = None ->
  stream = true \/ read_content resp n1 = None ->
  send redirects mounted inner stream req n =
    (Answered resp, n1,
     [{| hop_request := req; hop_ending := Answered resp;
         hop_wire := [Attempt req resp] |}]).
Proof.
  intros Hadapter Hexchange Hretry Htarget Hbody.
  eapply send_one_hop; [exact Hadapter | |].
  - cbn [urlopen]. rewrite Hexchange, Hretry. reflexivity.
  - intros resp' H. inversion H; subst. auto.
Qed.

(** A call through the session of [setup_session]: nothing is sent for a
    URL that cannot be prepared; else the request goes out with the
    credentials of the session. *)
Lemma session_request_spec (api_key : option string) (environ : string -> option string)
  (s : Session) (meth u : string) (stream : bool) (n n' : N) (e : ending)
  (hops : list hop) :
  setup_session api_key environ = Return s ->
  request s meth u stream n = (e, n', hops) ->
  (prepare_url u = None /\ e = InvalidURL /\ hops = []) \/
  exists prepared,
    prepare_url u = Some prepared /\
    send DEFAULT_REDIRECT_LIMIT [("https://", https_retries); ("http://", default_retries)]
         false stream
         {| method := upper meth;
            url := prepared;
            authorization :=
              Some (match (match api_key with
                           | Some k => Some k
                           | None => environ "PL_API_KEY"
                           end) with
                    | Some key => key
                    | None => "None"
                    end, "") |} n = (e, n', hops).
Proof.
  intros Hsetup Hrun.
  destruct (setup_session_adapters _ _ _ Hsetup) as [Hauth Hadapters].
  unfold request in Hrun. rewrite Hauth, Hadapters in Hrun.
  destruct (prepare_url u) as [prepared |].
  - right. exists prepared. split; [reflexivity |]. exact Hrun.
  - left. inversion Hrun. auto.
Qed.

(** A hop through either policy of the session of [setup_session]. *)
Lemma session_hop (r : Retry) (req : Request) (n n' : N) (e : ending) (t : list wire_event) :
  r = https_retries \/ r = default_retries ->
  urlopen (S (Z.to_nat (total r))) r req n = (e, n', t) ->
  (1 <= List.length (exchanges t) <= 6)%nat /\
  Forall retried_by_session (removelast (exchanges t)) /\
  (Forall without_retry_after (removelast (exchanges t)) ->
   pauses t = map pause_before_retry (seq 2 (List.length (exchanges t) - 2)) /\
   waits t = []) /\
  (forall code : Z,
     e = Exhausted code ->
     code = 429 /\
     List.length (exchanges t) = 6%nat /\
     exists resp,
       last (exchanges t) (Backoff 0) = Attempt req resp /\ status_code resp = 429) /\
  (total_pause (pauses t) <= backoff_budget)%Q.
Proof.
  intros [Hr | Hr] Hrun; subst r.
  - assert (Hforce : Forall (fun code => mem_Z code redirect_statuses = false)
                            (status_forcelist https_retries))
      by (repeat constructor).
    destruct (urlopen_counts _ https_retries _ _ _ _ _ ltac:(cbn; lia) eq_refl Hrun)
      as (Hlen & Hcause & Hgave).
    cbn [total https_retries Z.to_nat Pos.to_nat Pos.iter_op Nat.add] in Hlen, Hgave.
    destruct (https_schedule _ Hlen) as [Hschedule Hbudget].
    split; [exact Hlen |]. split; [| split; [| split]].
    + eapply Forall_impl; [| exact Hcause]. exact retried_https.
    + intros Hplain.
      destruct (urlopen_pauses _ https_retries _ _ _ _ _ ltac:(cbn; lia) eq_refl Hforce Hrun Hplain)
        as [Hpause Hwait].
      split; [| exact Hwait]. rewrite Hpause. exact Hschedule.
    + intros code Hcode. destruct (Hgave code Hcode) as (Hl & Hin & resp & Hlast & Hst).
      apply mem_Z_429 in Hin. subst code. split; [reflexivity |]. split; [exact Hl |].
      exists resp. auto.
    + eapply Qle_trans; [| exact Hbudget].
      apply (urlopen_budget _ https_retries _ _ _ _ _ ltac:(cbn; lia) eq_refl Hforce
                            ltac:(discriminate) Hrun).
  - cbn [total default_retries Z.to_nat] in Hrun.
    destruct (default_hop _ _ _ _ _ Hrun)
      as [(resp & Ht & He & _) | (f & Ht & He & _)]; subst; cbn;
      (split; [lia |]); (split; [constructor |]);
      (split; [intros _; split; reflexivity |]);
      (split; [discriminate | discriminate]).
Qed.


End RetryLoop.


(** C4, as the code has it.  [setup_session] never fails: it returns a
    session whose user name is the key passed to it or, when none is passed,
    whatever [PL_API_KEY] holds in the environment -- nothing, if the
    variable is not set -- with the empty password. *)
Theorem setup_session_reads_key_and_never_fails :
  forall (api_key : option string) (environ : string -> option string),
  exists s : Session,
    setup_session api_key environ = Return s /\
    auth s =
      Some (match api_key with
            | Some k => Some k
            | None => environ "PL_API_KEY"
            end, "").
Proof.
  intros api_key environ. eexists. split; [reflexivity |].
  destruct api_key; reflexivity.
Qed.

(** C4 as the specification states it does not hold: with no key passed and
    none in the environment the call does not fail with
    [ConfigurationError]; it returns a session without a user name. *)
Lemma setup_session_without_key_returns :
  exists s : Session,
    setup_session None (fun _ => None) = Return s /\
    auth s = Some (None, "") /\
    ~ (exists e : exn, setup_session None (fun _ => None) = Raise e).
Proof.
  eexists. split; [reflexivity |]. split; [reflexivity |].
  intros [e He]. discriminate He.
Qed.



End SessionFacts.


(** * Further properties of the notebook's functions *)

(** ** Search: errors, odd links, links that cycle *)

Section SearchEdges.

Context {W : Type} {E : Env W}.

Lemma prepend_nil {A : Type} (x : outcome A * W * trace) : prepend [] x = x.
Proof. destruct x as [[o w] t]. reflexivity. Qed.

Lemma bind_post_ok {B : Type} (url body : json) (resp : Response)
  (f : Response -> M W B) (w w' : W) :
  session_post url body w = (Ok resp, w') ->
  bind (post url body) f w = prepend [EvPost url body (Ok resp)] (f resp w').
Proof.
  intros Hpost. apply bind_return_prepend. unfold post. rewrite Hpost. reflexivity.
Qed.

Lemma raise_for_status_error (r : Response) (w : W) :
  400 <= status_code r < 600 ->
  raise_for_status r w = (Raise (HTTPError (status_code r)), w, []).
Proof.
  intros H. unfold raise_for_status.
  replace ((400 <=? status_code r) && (status_code r <? 600))%bool with true;
    [reflexivity |].
  symmetry. apply andb_true_iff. split; [apply Z.leb_le | apply Z.ltb_lt]; lia.
Qed.

(** [search] up to the end of its first page. *)
Lemma search_first_page (fuel : nat) (geom start_date end_date item_type : json)
  (asset : string) (w w1 : W) (resp : Response) (body : json)
  (features : list json) (next : option string) :
  session_post (JStr (PLANET_API_URL ++ "/quick-search")%string)
               (search_request geom start_date end_date item_type asset) w = (Ok resp, w1) ->
  ok_status resp ->
  json_body resp = Some body ->
  is_page body features next ->
  search fuel geom start_date end_date item_type asset w =
  prepend (EvPost (JStr (PLANET_API_URL ++ "/quick-search")%string)
                  (search_request geom start_date end_date item_type asset) (Ok resp)
             :: map EvYield features)
          (search_pages fuel (next_value next) w1).
Proof.
  intros Hpost Hok Hbody Hpage.
  destruct (is_page_next _ _ _ Hpage) as (links & Hl & Hn).
  destruct Hpage as [Hf _].
  unfold search.
  rewrite (bind_post_ok _ _ _ _ _ _ Hpost).
  rewrite (bind_return_prepend _ _ _ _ _ _ (raise_for_status_ok _ _ Hok)).
  unfold resp_json. rewrite Hbody. rewrite bind_ret.
  rewrite (bind_lift_ok _ _ _ _ Hf).
  rewrite (bind_lift_ok _ features); [| reflexivity].
  rewrite (bind_return_prepend _ _ _ _ _ _ (for_each_yield features w1)).
  rewrite (bind_lift_ok _ _ _ _ Hl).
  rewrite (bind_lift_ok _ _ _ _ Hn).
  rewrite !prepend_prepend. reflexivity.
Qed.

Lemma search_pages_served (next last : option string) (w w' : W)
  (pages : list (list json * option string)) (gets : trace) :
  served next w pages w' gets last ->
  forall fuel : nat,
  exists tr,
    search_pages (List.length pages + fuel) (next_value next) w =
      prepend tr (search_pages fuel (next_value last) w') /\
    yields tr = concat (map fst pages) /\
    requests tr = gets.
Proof.
  induction 1
    as [next w
       | u w w1 w' resp body features next last pages gets Hu Hget Hok Hbody Hpage Hrest IH];
    intros fuel.
  - exists []. rewrite prepend_nil. cbn. auto.
  - destruct (IH fuel) as (tr & Hrun & Hy & Hr).
    cbn [List.length Nat.add next_value].
    rewrite (search_pages_step _ u w w1 resp body features next Hu Hget Hok Hbody Hpage).
    rewrite Hrun.
    exists (EvGet (JStr u) false (Ok resp) :: map EvYield features ++ tr).
    split; [| split].
    + destruct (search_pages fuel (next_value last) w') as [[o w2] t2]. cbn.
      rewrite <- app_assoc. reflexivity.
    + cbn. rewrite yields_app, yields_map_yield, Hy. reflexivity.
    + cbn. rewrite requests_app, requests_map_yield, Hr. reflexivity.
Qed.

Lemma search_pages_error (n : nat) (u : string) (w w1 : W) (resp : Response) :
  u <> "" ->
  session_get (JStr u) false w = (Ok resp, w1) ->
  400 <= status_code resp < 600 ->
  search_pages (S n) (JStr u) w =
  (Raise (HTTPError (status_code resp)), w1, [EvGet (JStr u) false (Ok resp)]).
Proof.
  intros Hu Hget Hcode.
  cbn [search_pages truthy]. apply String.eqb_neq in Hu. rewrite Hu. cbn [negb].
  rewrite (bind_get_ok _ _ _ _ _ _ Hget).
  rewrite (bind_raise _ _ _ _ _ _ (raise_for_status_error _ _ Hcode)).
  reflexivity.
Qed.

(** X1.  When the search request itself is answered with a 4xx or 5xx
    status, [search] raises the [HTTPError] for that status at once: the POST
    is its only action, nothing is yielded and no page is asked for. *)
Theorem search_fails_on_refused_request
  (fuel : nat) (geom start_date end_date item_type : json) (asset : string)
  (w w1 : W) (resp : Response) :
  session_post (JStr (PLANET_API_URL ++ "/quick-search")%string)
               (search_request geom start_date end_date item_type asset) w = (Ok resp, w1) ->
  400 <= status_code resp < 600 ->
  py_list (search fuel geom start_date end_date item_type asset) w =
  (Raise (HTTPError (status_code resp)), w1,
   [EvPost (JStr (PLANET_API_URL ++ "/quick-search")%string)
           (search_request geom start_date end_date item_type asset) (Ok resp)]).
Proof.
  intros Hpost Hcode. unfold py_list, search.
  rewrite (bind_post_ok _ _ _ _ _ _ Hpost).
  rewrite (bind_raise _ _ _ _ _ _ (raise_for_status_error _ _ Hcode)).
  reflexivity.
Qed.

(** X2.  When, after the first page and any number of further pages, the
    GET of the next page is answered with a 4xx or 5xx status, [search]
    raises the [HTTPError] for that status and asks for nothing more.  The
    features of all the pages before were yielded by then, in order, but
    [list(search(...))] is left with the exception alone. *)
Theorem search_aborts_on_failing_page
  (fuel : nat) (geom start_date end_date item_type : json) (asset : string)
  (w w1 w2 w3 : W) (resp failed : Response) (body : json) (features : list json)
  (next : option string) (pages : list (list json * option string)) (gets : trace)
  (u : string) :
  session_post (JStr (PLANET_API_URL ++ "/quick-search")%string)
               (search_request geom start_date end_date item_type asset) w = (Ok resp, w1) ->
  ok_status resp ->
  json_body resp = Some body ->
  is_page body features next ->
  served next w1 pages w2 gets (Some u) ->
  u <> "" ->
  session_get (JStr u) false w2 = (Ok failed, w3) ->
  400 <= status_code failed < 600 ->
  (List.length pages < fuel)%nat ->
  exists t,
    search fuel geom start_date end_date item_type asset w =
      (Raise (HTTPError (status_code failed)), w3, t) /\
    py_list (search fuel geom start_date end_date item_type asset) w =
      (Raise (HTTPError (status_code failed)), w3, t) /\
    yields t = features ++ concat (map fst pages) /\
    requests t =
      EvPost (JStr (PLANET_API_URL ++ "/quick-search")%string)
             (search_request geom start_date end_date item_type asset) (Ok resp)
      :: gets ++ [EvGet (JStr u) false (Ok failed)].
Proof.
  intros Hpost Hok Hbody Hpage Hserved Hu Hget Hcode Hfuel.
  destruct (search_pages_served _ _ _ _ _ _ Hserved (fuel - List.length pages))
    as (tr & Hrun & Hy & Hr).
  replace (List.length pages + (fuel - List.length pages))%nat with fuel in Hrun by lia.
  destruct (fuel - List.length pages)%nat as [| n] eqn:Hn; [lia |].
  cbn [next_value] in Hrun.
  rewrite (search_pages_error n u w2 w3 failed Hu Hget Hcode) in Hrun.
  pose proof (search_first_page fuel geom start_date end_date item_type asset
                w w1 resp body features next Hpost Hok Hbody Hpage) as Hsearch.
  rewrite Hrun in Hsearch. cbn [prepend] in Hsearch.
  eexists. split; [exact Hsearch |]. split; [| split].
  - unfold py_list. rewrite Hsearch. reflexivity.
  - cbn [app yields]. rewrite !yields_app, yields_map_yield, Hy. cbn.
    rewrite app_nil_r. reflexivity.
  - cbn [app requests]. rewrite !requests_app, requests_map_yield, Hr. reflexivity.
Qed.

(** X3.  A first page whose [_links._next] holds a value that Python takes
    for false -- an empty string, [null], [0], [false], an empty list or
    dict -- ends the search like a page without the link: whatever the bound
    on the paging loop, [search] returns having yielded the items of that
    page and made the POST only. *)
Theorem search_stops_on_falsy_link
  (fuel : nat) (geom start_date end_date item_type : json) (asset : string)
  (w w1 : W) (resp : Response) (body features links v : json) (items : list json) :
  session_post (JStr (PLANET_API_URL ++ "/quick-search")%string)
               (search_request geom start_date end_date item_type asset) w = (Ok resp, w1) ->
  ok_status resp ->
  json_body resp = Some body ->
  getitem body "features" = Ok features ->
  py_iter features = Ok items ->
  getitem body "_links" = Ok links ->
  dict_get links "_next" = Ok v ->
  truthy v = false ->
  py_list (search fuel geom start_date end_date item_type asset) w =
  (Return items, w1,
   EvPost (JStr (PLANET_API_URL ++ "/quick-search")%string)
          (search_request geom start_date end_date item_type asset) (Ok resp)
     :: map EvYield items).
Proof.
  intros Hpost Hok Hbody Hf Hiter Hl Hn Hfalse. unfold py_list, search.
  rewrite (bind_post_ok _ _ _ _ _ _ Hpost).
  rewrite (bind_return_prepend _ _ _ _ _ _ (raise_for_status_ok _ _ Hok)).
  unfold resp_json. rewrite Hbody. rewrite bind_ret.
  rewrite (bind_lift_ok _ _ _ _ Hf).
  rewrite (bind_lift_ok _ _ _ _ Hiter).
  rewrite (bind_return_prepend _ _ _ _ _ _ (for_each_yield items w1)).
  rewrite (bind_lift_ok _ _ _ _ Hl).
  rewrite (bind_lift_ok _ _ _ _ Hn).
  assert (Hstop : search_pages fuel v w1 = (Return tt, w1, [])).
  { destruct fuel; cbn [search_pages]; rewrite Hfalse; reflexivity. }
  rewrite Hstop. cbn [prepend app].
  rewrite app_nil_r. cbn [yields]. rewrite yields_map_yield. reflexivity.
Qed.

(** X4.  The paging loop of [search] keeps no record of the links it has
    followed.  When the service keeps answering the GET of a link with a
    page that carries that same link, the loop never ends: whatever the
    bound on its turns, it has used them all, one request each, and is
    still paging. *)
Theorem search_pages_never_end_on_a_cycle (P : W -> Prop) (u : string) :
  u <> "" ->
  (forall w : W,
     P w ->
     exists resp w1 body features,
       session_get (JStr u) false w = (Ok resp, w1) /\
       ok_status resp /\
       json_body resp = Some body /\
       is_page body features (Some u) /\
       P w1) ->
  forall (fuel : nat) (w : W),
    P w ->
    fst (fst (search_pages fuel (JStr u) w)) = OutOfFuel /\
    List.length (requests (snd (search_pages fuel (JStr u) w))) = fuel.
Proof.
  intros Hu Hcycle.
  induction fuel as [| n IH]; intros w Hw.
  - cbn [search_pages truthy]. apply String.eqb_neq in Hu. rewrite Hu. cbn. auto.
  - destruct (Hcycle w Hw) as (resp & w1 & body & features & Hget & Hok & Hbody & Hpage & Hw1).
    rewrite (search_pages_step n u w w1 resp body features (Some u) Hu Hget Hok Hbody Hpage).
    cbn [next_value fst snd].
    destruct (IH w1 Hw1) as [Hout Hlen].
    split; [exact Hout |].
    cbn [requests List.length]. rewrite requests_app, requests_map_yield.
    cbn [app]. rewrite Hlen. reflexivity.
Qed.

End SearchEdges.

(** The search is refused with 503. *)
Lemma search_refused_witness :
  py_list (search 3 JNull (JStr "2018-01-01T00:00:00Z") (JStr "2018-01-10T00:00:00Z")
                  (JStr "PSScene3Band") "visual")
          [Ok (Mock.empty_response 503)] =
  (Raise (HTTPError 503), [],
   [EvPost (JStr (PLANET_API_URL ++ "/quick-search")%string)
           (search_request JNull (JStr "2018-01-01T00:00:00Z") (JStr "2018-01-10T00:00:00Z")
                           (JStr "PSScene3Band") "visual")
           (Ok (Mock.empty_response 503))]).
Proof.
  apply (search_fails_on_refused_request
           3 JNull (JStr "2018-01-01T00:00:00Z") (JStr "2018-01-10T00:00:00Z")
           (JStr "PSScene3Band") "visual"
           [Ok (Mock.empty_response 503)] [] (Mock.empty_response 503)).
  - reflexivity.
  - cbn. lia.
Defined.

(** Two pages arrive, the request for the third is answered with 500. *)
Lemma search_failing_third_page_witness :
  exists t,
    py_list (search 5 JNull (JStr "2018-01-01T00:00:00Z") (JStr "2018-01-10T00:00:00Z")
                    (JStr "PSScene3Band") "visual")
            [Ok (Mock.page [JStr "a1"; JStr "a2"] (Some "https://mock/page/2"));
             Ok (Mock.page [JStr "b1"; JStr "b2"] (Some "https://mock/page/3"));
             Ok (Mock.empty_response 500)] =
      (Raise (HTTPError 500), [], t) /\
    yields t = [JStr "a1"; JStr "a2"; JStr "b1"; JStr "b2"] /\
    List.length (requests t) = 3%nat.
Proof.
  destruct (search_aborts_on_failing_page
              5 JNull (JStr "2018-01-01T00:00:00Z") (JStr "2018-01-10T00:00:00Z")
              (JStr "PSScene3Band") "visual"
              [Ok (Mock.page [JStr "a1"; JStr "a2"] (Some "https://mock/page/2"));
               Ok (Mock.page [JStr "b1"; JStr "b2"] (Some "https://mock/page/3"));
               Ok (Mock.empty_response 500)]
              [Ok (Mock.page [JStr "b1"; JStr "b2"] (Some "https://mock/page/3"));
               Ok (Mock.empty_response 500)]
              [Ok (Mock.empty_response 500)]
              []
              (Mock.page [JStr "a1"; JStr "a2"] (Some "https://mock/page/2"))
              (Mock.empty_response 500)
              (Mock.page_json [JStr "a1"; JStr "a2"] (Some "https://mock/page/2"))
              [JStr "a1"; JStr "a2"] (Some "https://mock/page/2")
              [([JStr "b1"; JStr "b2"], Some "https://mock/page/3")]
              [EvGet (JStr "https://mock/page/2") false
                     (Ok (Mock.page [JStr "b1"; JStr "b2"] (Some "https://mock/page/3")))]
              "https://mock/page/3")
    as (t & _ & Hlist & Hyields & Hrequests).
  - reflexivity.
  - left. cbn. lia.
  - reflexivity.
  - split; [reflexivity |]. eexists. split; [reflexivity |].
    split; [reflexivity | discriminate].
  - eapply served_step with (w1 := [Ok (Mock.empty_response 500)]).
    + discriminate.
    + reflexivity.
    + left. cbn. lia.
    + reflexivity.
    + split; [reflexivity |]. eexists. split; [reflexivity |].
      split; [reflexivity | discriminate].
    + apply served_none.
  - discriminate.
  - reflexivity.
  - cbn. lia.
  - cbn. lia.
  - exists t. split; [exact Hlist |]. split; [exact Hyields |].
    rewrite Hrequests. reflexivity.
Defined.

(** The first page carries an empty string as its next-page link. *)
Lemma search_empty_link_witness :
  py_list (search 0 JNull (JStr "2018-01-01T00:00:00Z") (JStr "2018-01-10T00:00:00Z")
                  (JStr "PSScene3Band") "visual")
          [Ok (Mock.json_response 200
                 (JObj [("features", JArr [JStr "a1"]);
                        ("_links", JObj [("_next", JStr "")])]))] =
  (Return [JStr "a1"], [],
   [EvPost (JStr (PLANET_API_URL ++ "/quick-search")%string)
           (search_request JNull (JStr "2018-01-01T00:00:00Z") (JStr "2018-01-10T00:00:00Z")
                           (JStr "PSScene3Band") "visual")
           (Ok (Mock.json_response 200
                  (JObj [("features", JArr [JStr "a1"]);
                         ("_links", JObj [("_next", JStr "")])])));
    EvYield (JStr "a1")]).
Proof.
  apply (search_stops_on_falsy_link
           0 JNull (JStr "2018-01-01T00:00:00Z") (JStr "2018-01-10T00:00:00Z")
           (JStr "PSScene3Band") "visual"
           [Ok (Mock.json_response 200
                  (JObj [("features", JArr [JStr "a1"]);
                         ("_links", JObj [("_next", JStr "")])]))]
           []
           (Mock.json_response 200
              (JObj [("features", JArr [JStr "a1"]);
                     ("_links", JObj [("_next", JStr "")])]))
           (JObj [("features", JArr [JStr "a1"]); ("_links", JObj [("_next", JStr "")])])
           (JArr [JStr "a1"])
           (JObj [("_next", JStr "")])
           (JStr "")
           [JStr "a1"]).
  - reflexivity.
  - left. cbn. lia.
  - reflexivity.
  - reflexivity.
  - reflexivity.
  - reflexivity.
  - reflexivity.
  - reflexivity.
Defined.

(** The service whose pages all link to the same page. *)
Lemma search_cycle_witness :
  fst (fst (search_pages 7 (JStr Mock.cycle_link) 0%nat)) = OutOfFuel /\
  List.length (requests (snd (search_pages 7 (JStr Mock.cycle_link) 0%nat))) = 7%nat.
Proof.
  apply (search_pages_never_end_on_a_cycle (fun _ : nat => True) Mock.cycle_link).
  - discriminate.
  - intros w _.
    exists (Mock.page [JStr "scene"] (Some Mock.cycle_link)), (S w),
           (Mock.page_json [JStr "scene"] (Some Mock.cycle_link)), [JStr "scene"].
    split; [reflexivity |]. split; [left; cbn; lia |]. split; [reflexivity |].
    split; [| exact I].
    split; [reflexivity |]. eexists. split; [reflexivity |].
    split; [reflexivity | discriminate].
  - exact I.
Defined.

(** ** Batches: activation and download over lists *)

Section Batches.

Context {W : Type} {E : Env W}.

Lemma bind_assoc {A B C : Type} (m : M W A) (f : A -> M W B) (g : B -> M W C) (w : W) :
  bind (bind m f) g w = bind m (fun x => bind (f x) g) w.
Proof.
  unfold bind. destruct (m w) as [[[a | e | ] w1] t1]; try reflexivity.
  destruct (f a w1) as [[[b | e | ] w2] t2]; try reflexivity.
  destruct (g b w2) as [[o w3] t3]. rewrite app_assoc. reflexivity.
Qed.

Lemma bind_ext {A B : Type} (m : M W A) (f g : A -> M W B) (w : W) :
  (forall a w', f a w' = g a w') -> bind m f w = bind m g w.
Proof.
  intros H. unfold bind. destruct (m w) as [[[a | e | ] w1] t1]; try reflexivity.
  rewrite H. reflexivity.
Qed.

Lemma for_each_app {A : Type} (body : A -> M W unit) (l1 l2 : list A) :
  forall w : W,
    for_each (l1 ++ l2) body w = bind (for_each l1 body) (fun _ => for_each l2 body) w.
Proof.
  induction l1 as [| x l1 IH]; intros w.
  - cbn [app for_each]. rewrite bind_ret. reflexivity.
  - cbn [app for_each]. rewrite bind_assoc. apply bind_ext. intros _ w'. apply IH.
Qed.

(** Additive measures of a trace grow by a bounded amount per element. *)
Lemma for_each_measure {A : Type} (measure : trace -> nat) (k : nat)
  (body : A -> M W unit) :
  measure [] = 0%nat ->
  (forall t1 t2, measure (t1 ++ t2) = (measure t1 + measure t2)%nat) ->
  (forall x w, (measure (snd (body x w)) <= k)%nat) ->
  forall (l : list A) (w : W),
    (measure (snd (for_each l body w)) <= k * List.length l)%nat.
Proof.
  intros Hnil Happ Hbody. induction l as [| x l IH]; intros w.
  - cbn. rewrite Hnil. lia.
  - cbn [for_each List.length]. unfold bind.
    pose proof (Hbody x w) as Hx.
    destruct (body x w) as [[[u | e | ] w1] t1]; cbn [snd] in *; try lia.
    pose proof (IH w1) as Hl.
    destruct (for_each l body w1) as [[o w2] t2]. cbn [snd] in *.
    rewrite Happ. lia.
Qed.

Lemma written_app (t1 t2 : trace) : written (t1 ++ t2) = written t1 ++ written t2.
Proof.
  induction t1 as [| ev t1 IH]; [reflexivity |].
  destruct ev as [| | | | path data [u | e] |]; cbn; rewrite ?IH; reflexivity.
Qed.

Lemma opened_app (t1 t2 : trace) : opened (t1 ++ t2) = opened t1 ++ opened t2.
Proof.
  induction t1 as [| ev t1 IH]; [reflexivity |].
  destruct ev; cbn; rewrite ?IH; reflexivity.
Qed.

Lemma printed_app (t1 t2 : trace) : printed (t1 ++ t2) = printed t1 ++ printed t2.
Proof.
  induction t1 as [| ev t1 IH]; [reflexivity |].
  destruct ev; cbn; rewrite ?IH; reflexivity.
Qed.

(** X5.  Batches can be split: activating, or downloading, the features of
    two lists put end to end is activating, or downloading, the first list
    and then, if that went through, the second one from where the first
    left the world. *)
Theorem batches_compose (asset_name : string) (first second : list json) (w : W) :
  activate (first ++ second) asset_name w =
    bind (activate first asset_name) (fun _ => activate second asset_name) w /\
  download (first ++ second) asset_name w =
    bind (download first asset_name) (fun _ => download second asset_name) w.
Proof.
  split; [unfold activate | unfold download]; apply for_each_app.
Qed.

(** X6.  [activate] stops at the first feature that fails: when the
    features before it went through and its own turn raises, the call
    raises that exception there, and the features after it are not looked
    at -- no request is made for them, whatever they are. *)
Theorem activate_fails_fast
  (asset_name : string) (done rest : list json) (feature : json)
  (w w1 w2 : W) (t1 t2 : trace) (e : exn) :
  activate done asset_name w = (Return tt, w1, t1) ->
  activate [feature] asset_name w1 = (Raise e, w2, t2) ->
  activate (done ++ feature :: rest) asset_name w = (Raise e, w2, t1 ++ t2).
Proof.
  intros Hdone Hfail. unfold activate in *.
  rewrite for_each_app. rewrite (bind_return_prepend _ _ _ _ _ _ Hdone).
  cbn [for_each] in *. unfold bind in *.
  destruct (activate_one asset_name feature w1) as [[[u | e' | ] w3] t3].
  - cbn in Hfail. inversion Hfail.
  - inversion Hfail; subst. reflexivity.
  - inversion Hfail.
Qed.

Ltac split_matches :=
  repeat match goal with
         | |- context [match ?x with _ => _ end] =>
             lazymatch x with
             | context [match _ with _ => _ end] => fail
             | _ => destruct x; cbn
             end
         end.

(** One turn of [activate] makes at most two requests, however it ends. *)
Lemma activate_one_trace_bound (asset_name : string) (feature : json) (w : W) :
  (List.length (snd (activate_one asset_name feature w)) <= 2)%nat.
Proof.
  unfold activate_one, _fetch_assets, asset_status, activate_link, bind, lift, get,
    raise_for_status, resp_json, ret, raise.
  split_matches; cbn; lia.
Qed.

(** One turn of [download], however it ends: it yields the name of the file
    exactly when it returns, and then that file was written to the end;
    what it prints is the announcement of the file it opens; and it makes at
    most two requests. *)
Lemma download_turn_trace (asset_name : string) (feature : json) (w : W) :
  let run := bind (download_one asset_name feature) (fun filename => yield (JStr filename)) w in
  match fst (fst run) with
  | Return _ => exists filename, yields (snd run) = [JStr filename] /\
                                 written (snd run) = [filename]
  | _ => yields (snd run) = [] /\ written (snd run) = []
  end /\
  printed (snd run) = map (fun path => ("Downloading " ++ path)%string) (opened (snd run)) /\
  (List.length (requests (snd run)) <= 2)%nat.
Proof.
  unfold download_one, _fetch_assets, asset_location, bind, lift, get, write_file, print,
    yield, emit, raise_for_status, resp_json, ret, raise.
  split_matches; cbn; repeat split; eauto; lia.
Qed.

(** X7.  [download] stops at the first feature that fails, in the same way:
    when the features before it went through and its own turn raises, the
    call raises that exception there; the files yielded and written are
    those of the features before, and nothing is asked for, printed or
    written for the features after it. *)
Theorem download_fails_fast
  (asset_name : string) (done rest : list json) (feature : json)
  (w w1 w2 : W) (t1 t2 : trace) (e : exn) :
  download done asset_name w = (Return tt, w1, t1) ->
  download [feature] asset_name w1 = (Raise e, w2, t2) ->
  download (done ++ feature :: rest) asset_name w = (Raise e, w2, t1 ++ t2) /\
  yields (t1 ++ t2) = yields t1 /\
  written (t1 ++ t2) = written t1.
Proof.
  intros Hdone Hfail.
  pose proof (download_turn_trace asset_name feature w1) as Hturn.
  unfold download in *.
  rewrite for_each_app. rewrite (bind_return_prepend _ _ _ _ _ _ Hdone).
  cbn [for_each] in *. cbv zeta in Hturn.
  match goal with
  | H : bind ?step _ w1 = _ |- _ => unfold bind at 1 in H; unfold bind at 1;
                                    destruct (step w1) as [[[u | e' | ] w3] t3]
  end.
  - cbn in Hfail. inversion Hfail.
  - inversion Hfail; subst. cbn [fst snd] in Hturn.
    destruct Hturn as [[Hy Hw] _].
    rewrite yields_app, written_app, Hy, Hw, !app_nil_r. auto.
  - inversion Hfail.
Qed.

(** X8.  However it ends, [activate] makes at most two requests for each
    feature it is given: the status check and, at most, one activation
    request. *)
Theorem activate_makes_at_most_two_requests_per_feature :
  forall (results : list json) (asset_name : string) (w : W),
    (List.length (snd (activate results asset_name w)) <= 2 * List.length results)%nat.
Proof.
  intros results asset_name w. unfold activate.
  apply for_each_measure.
  - reflexivity.
  - apply length_app.
  - apply activate_one_trace_bound.
Qed.

Lemma download_trace_invariant (asset_name : string) :
  forall (results : list json) (w : W),
    yields (snd (download results asset_name w)) =
      map JStr (written (snd (download results asset_name w))) /\
    printed (snd (download results asset_name w)) =
      map (fun path => ("Downloading " ++ path)%string)
          (opened (snd (download results asset_name w))).
Proof.
  unfold download.
  induction results as [| feature results IH]; intros w; [split; reflexivity |].
  cbn [for_each].
  pose proof (download_turn_trace asset_name feature w) as Hturn. cbv zeta in Hturn.
  unfold bind at 1. unfold bind at 3. unfold bind at 5. unfold bind at 7.
  match goal with
  | |- context [match ?step w with _ => _ end] =>
      destruct (step w) as [[[u | e | ] w1] t1]
  end; cbn [fst snd] in *.
  - destruct Hturn as [(filename & Hy & Hw) [Hp _]].
    destruct (IH w1) as [IHy IHp].
    destruct (for_each results _ w1) as [[o w2] t2]. cbn [snd] in *.
    rewrite yields_app, written_app, printed_app, opened_app, map_app, map_app.
    rewrite Hy, Hw, Hp, IHy, IHp. split; reflexivity.
  - destruct Hturn as [[Hy Hw] [Hp _]]. rewrite Hy, Hw, Hp. split; reflexivity.
  - destruct Hturn as [[Hy Hw] [Hp _]]. rewrite Hy, Hw, Hp. split; reflexivity.
Qed.

(** X9.  However [download] ends, the names it has yielded are exactly the
    paths of the files it has written to the end, in the same order; every
    file it opened was announced by a line [Downloading <path>] and nothing
    else was printed; and it has made at most two requests per feature. *)
Theorem download_yields_what_it_wrote :
  forall (results : list json) (asset_name : string) (w : W),
    yields (snd (download results asset_name w)) =
      map JStr (written (snd (download results asset_name w))) /\
    printed (snd (download results asset_name w)) =
      map (fun path => ("Downloading " ++ path)%string)
          (opened (snd (download results asset_name w))) /\
    (List.length (requests (snd (download results asset_name w)))
     <= 2 * List.length results)%nat.
Proof.
  intros results asset_name w.
  destruct (download_trace_invariant asset_name results w) as [Hy Hp].
  split; [exact Hy |]. split; [exact Hp |].
  unfold download.
  apply (for_each_measure (fun t => List.length (requests t))).
  - reflexivity.
  - intros t1 t2. rewrite requests_app. apply length_app.
  - intros feature w'.
    exact (proj2 (proj2 (download_turn_trace asset_name feature w'))).
Qed.

End Batches.

(** The inactive scene A is activated, the activation of scene B is refused,
    scene C is never looked at. *)
Lemma activate_fails_fast_witness :
  exists t,
    activate ([Mock.feature "A"] ++ Mock.feature "B" :: [Mock.feature "C"]) "visual"
             [("A", Mock.Inactive); ("B", Mock.Denied); ("C", Mock.Inactive)] =
      (Raise (HTTPError 401),
       [("A", Mock.Activating 1); ("B", Mock.Denied); ("C", Mock.Inactive)], t) /\
    List.length t = 4%nat.
Proof.
  eexists. split.
  - eapply activate_fails_fast.
    + vm_compute. reflexivity.
    + vm_compute. reflexivity.
  - reflexivity.
Defined.

(** The file of scene A is written, the download response for scene B has
    no [Content-Disposition] header, scene C is never looked at. *)
Lemma download_fails_fast_witness :
  exists t,
    download ([Mock.feature "A"] ++ Mock.feature "B" :: [Mock.feature "C"]) "visual"
             [Ok (Mock.located "https://mock/download/A");
              Ok (Mock.file_response (Some (Mock.attachment "a.tif")) [Byte.x49]);
              Ok (Mock.located "https://mock/download/B");
              Ok (Mock.file_response None [Byte.x49]);
              Ok (Mock.located "https://mock/download/C")] =
      (Raise (KeyError "content-disposition"),
       [Ok (Mock.located "https://mock/download/C")], t) /\
    yields t = [JStr "a.tif"] /\
    written t = ["a.tif"].
Proof.
  edestruct (download_fails_fast
               "visual" [Mock.feature "A"] [Mock.feature "C"] (Mock.feature "B")
               [Ok (Mock.located "https://mock/download/A");
                Ok (Mock.file_response (Some (Mock.attachment "a.tif")) [Byte.x49]);
                Ok (Mock.located "https://mock/download/B");
                Ok (Mock.file_response None [Byte.x49]);
                Ok (Mock.located "https://mock/download/C")])
    as (Hrun & Hyields & Hwritten).
  - vm_compute. reflexivity.
  - vm_compute. reflexivity.
  - eexists. split; [exact Hrun |]. split.
    + rewrite Hyields. reflexivity.
    + rewrite Hwritten. reflexivity.
Defined.

(** ** Waiting: counts, exceptions, and the cell that polls one scene *)

Section PollingEdges.

Context {W : Type} {E : Env W}.

Lemma round_of_length (asset_name : string) (features statuses : list json) (t : trace) :
  round_of asset_name features statuses t -> List.length t = List.length features.
Proof. induction 1; cbn; congruence. Qed.

Lemma checked_length (asset_name : string) (results : list json) :
  forall (rounds : list (list json)) (t : trace),
    checked asset_name results rounds t ->
    List.length t = (List.length rounds * List.length results)%nat.
Proof.
  induction 1 as [| statuses t1 t rounds Hround Hrest IH]; [reflexivity |].
  rewrite length_app, IH, (round_of_length _ _ _ _ Hround). cbn. lia.
Qed.

(** X10.  A call of [wait_for_active] that returns has made a whole number
    of rounds, at least one, and as many status checks as rounds times
    features: its requests are these status checks and nothing else. *)
Theorem wait_for_active_request_count
  (fuel : nat) (results : list json) (asset_name : string) (w w' : W) (t : trace) :
  wait_for_active fuel results asset_name w = (Return tt, w', t) ->
  exists rounds : nat,
    (1 <= rounds <= fuel)%nat /\
    List.length t = (rounds * List.length results)%nat /\
    Forall (fun ev => exists url resp, ev = EvGet url false (Ok resp)) t.
Proof.
  unfold wait_for_active. intros H.
  apply wait_loop_return_inv in H.
  destruct H as [(Hall & _) | (_ & rounds & last & Hlen & Hp & _ & _)]; [discriminate |].
  apply polled_checked in Hp.
  exists (List.length (rounds ++ [last])). split; [| split].
  - rewrite length_app. cbn. lia.
  - eapply checked_length. exact Hp.
  - eapply checked_only_status_checks. exact Hp.
Qed.

Lemma wait_loop_raises (results : list json) (asset_name : string) (e : exn) :
  forall (w w1 : W) (rounds : list (list json)) (t1 : trace),
    polled results asset_name w rounds w1 t1 ->
    forall (w2 : W) (t2 : trace) (fuel : nat) (active : list bool),
      all active = false ->
      Forall (fun r => all_active r = false) rounds ->
      poll_statuses results asset_name w1 = (Raise e, w2, t2) ->
      (List.length rounds < fuel)%nat ->
      wait_loop fuel results asset_name active w = (Raise e, w2, t1 ++ t2).
Proof.
  induction 1 as [w | w wa w1 statuses ta t rounds Hpoll Hrest IH];
    intros w2 t2 fuel active Ha Hf Hraise Hfuel;
    (destruct fuel as [| n]; [cbn in Hfuel; lia |]);
    cbn [wait_loop]; rewrite Ha.
  - apply bind_raise. exact Hraise.
  - inversion Hf as [| r0 rs0 Hr Hrs]; subst.
    rewrite (bind_return_prepend _ _ _ _ _ _ Hpoll).
    rewrite (IH w2 t2 n _ Hr Hrs Hraise); [| cbn in Hfuel; lia].
    cbn. rewrite app_assoc. reflexivity.
Qed.

(** X11.  [wait_for_active] does not swallow a failing status check: when,
    after any number of rounds that found some asset not active, a round
    raises -- a 4xx or 5xx answer, an asset name the scene does not have --
    the call raises that exception, in the middle of the round. *)
Theorem wait_for_active_raises_what_a_check_raises
  (fuel : nat) (results : list json) (asset_name : string) (e : exn)
  (w w1 w2 : W) (rounds : list (list json)) (t1 t2 : trace) :
  polled results asset_name w rounds w1 t1 ->
  Forall (fun r => all_active r = false) rounds ->
  poll_statuses results asset_name w1 = (Raise e, w2, t2) ->
  (List.length rounds < fuel)%nat ->
  wait_for_active fuel results asset_name w = (Raise e, w2, t1 ++ t2).
Proof.
  intros Hp Hf Hraise Hfuel. unfold wait_for_active.
  eapply wait_loop_raises; eauto.
Qed.

Lemma sleeps_app (t1 t2 : trace) : sleeps (t1 ++ t2) = sleeps t1 ++ sleeps t2.
Proof.
  induction t1 as [| ev t1 IH]; [reflexivity |].
  destruct ev; cbn; rewrite ?IH; reflexivity.
Qed.

(** Checks that did not read [active]: as many requests as pauses of half a
    second, and nothing printed. *)
Lemma waited_counts (assets_url : json) (asset_name : string) (w w' : W) (k : nat)
  (t : trace) :
  waited assets_url asset_name w k w' t ->
  List.length (requests t) = k /\
  sleeps t = repeat (1 # 2)%Q k /\
  printed t = [].
Proof.
  induction 1 as [w | w w1 w' assets st ev k t Hcheck _ _ IH].
  - repeat split.
  - destruct Hcheck as (resp & _ & _ & _ & _ & ->).
    destruct IH as (Hr & Hs & Hp). cbn. rewrite Hr, Hs, Hp. repeat split.
Qed.

(** One turn of the polling cell whose status check is answered. *)
Lemma poll_scene_turn (n : nat) (assets_url : json) (asset_name : string)
  (w w1 : W) (assets st : json) (ev : event) :
  scene_check assets_url asset_name w assets st w1 ev ->
  poll_scene (S n) assets_url asset_name w =
    prepend [ev]
            (if eq_str st "active"
             then (Return assets, w1, [EvPrint "Asset is active and ready to download"])
             else prepend [EvSleep (1 # 2)]
                          (poll_scene n assets_url asset_name (time_sleep (1 # 2) w1))).
Proof.
  intros (resp & Hget & Hok & Hjson & Hst & ->).
  cbn [poll_scene].
  assert (Hrun : get assets_url false w = (Return resp, w1, [EvGet assets_url false (Ok resp)])).
  { unfold get. rewrite Hget. reflexivity. }
  rewrite (bind_return_prepend _ _ _ _ _ _ Hrun). f_equal.
  rewrite (bind_raise_for_status_ok _ _ _ Hok).
  unfold resp_json. rewrite Hjson, bind_ret.
  unfold asset_status in Hst.
  destruct (getitem assets asset_name) as [a | e]; [| discriminate].
  rewrite (bind_lift_ok (Ok a) a _ _ eq_refl), (bind_lift_ok _ _ _ _ Hst).
  destruct (eq_str st "active"); reflexivity.
Qed.

(** X12.  The cell that waits for one scene returns exactly when, after
    some number of status checks that read something other than [active],
    each followed by a pause of half a second, a check reads [active]: it
    then stops at once, prints its one line and has the assets of that
    check.  So it makes one more check than pauses, it does not return
    before a check reads [active], and it does not go on after one. *)
Theorem poll_scene_sleeps_between_checks :
  forall (fuel : nat) (assets_url : json) (asset_name : string) (w w' : W)
         (assets : json) (t : trace),
    poll_scene fuel assets_url asset_name w = (Return assets, w', t) <->
    exists (k : nat) (w1 : W) (t1 : trace) (st : json) (ev : event),
      (k < fuel)%nat /\
      waited assets_url asset_name w k w1 t1 /\
      scene_check assets_url asset_name w1 assets st w' ev /\
      eq_str st "active" = true /\
      t = t1 ++ [ev; EvPrint "Asset is active and ready to download"].
Proof.
  intros fuel assets_url asset_name w w' assets t. split.
  - revert w w' assets t.
    induction fuel as [| n IH]; intros w w' assets t H; [discriminate |].
    cbn [poll_scene] in H.
    bind_inv H as res w1 t1 t2 Hget H.
    bind_inv H as u w2 t3 t4 Hok H.
    apply raise_for_status_return_inv in Hok. destruct Hok as (Hok & -> & ->).
    bind_inv H as assets0 w3 t5 t6 Hjson H.
    unfold resp_json in Hjson.
    destruct (json_body res) as [j |] eqn:Hbody; inversion Hjson; subst. clear Hjson.
    bind_inv H as a w4 t7 t8 Ha H. lift_inv Ha.
    bind_inv H as st w5 t9 t10 Hst H. lift_inv Hst.
    unfold get in Hget.
    destruct (session_get assets_url false w) as [[r | e] wx] eqn:Hsession;
      inversion Hget; subst.
    clear Hget.
    assert (Hcheck : scene_check assets_url asset_name w assets0 st w3
                                 (EvGet assets_url false (Ok res))).
    { exists res. unfold asset_status. rewrite Ha. auto. }
    destruct (eq_str st "active") eqn:Hactive.
    + bind_inv H as u1 w6 t11 t12 Hprint H.
      inversion Hprint; subst. inversion H; subst.
      exists 0%nat, w, [], st, (EvGet assets_url false (Ok res)).
      split; [lia |]. split; [constructor |]. auto.
    + bind_inv H as u1 w6 t11 t12 Hsleep H.
      inversion Hsleep; subst.
      apply IH in H.
      destruct H as (k & w1 & t1 & st' & ev & Hlt & Hwaited & Hlast & Hst' & ->).
      exists (S k), w1, (EvGet assets_url false (Ok res) :: EvSleep (1 # 2) :: t1), st', ev.
      split; [lia |]. split; [| auto].
      econstructor; eauto.
  - intros (k & w1 & t1 & st & ev & Hlt & Hwaited & Hlast & Hactive & ->).
    revert fuel Hlt.
    induction Hwaited as [w | w wa w1 assets0 st0 ev0 k t0 Hcheck Hother Hrest IH];
      intros fuel Hlt; (destruct fuel as [| n]; [lia |]).
    + rewrite (poll_scene_turn _ _ _ _ _ _ _ _ Hlast), Hactive. reflexivity.
    + rewrite (poll_scene_turn _ _ _ _ _ _ _ _ Hcheck), Hother.
      rewrite (IH Hlast n); [reflexivity | lia].
Qed.

End PollingEdges.

(** Two scenes, the second active from its fifth status check on. *)
Lemma wait_for_active_count_witness :
  exists rounds : nat,
    (1 <= rounds <= 5)%nat /\
    List.length
      (snd (wait_for_active 5 [Mock.feature "A"; Mock.feature "B"] "visual"
                            [("A", Mock.Activating 0); ("B", Mock.Activating 3)])) =
    (rounds * 2)%nat.
Proof.
  destruct (wait_for_active_request_count
              5 [Mock.feature "A"; Mock.feature "B"] "visual"
              [("A", Mock.Activating 0); ("B", Mock.Activating 3)]
              (snd (fst (wait_for_active 5 [Mock.feature "A"; Mock.feature "B"] "visual"
                                         [("A", Mock.Activating 0);
                                          ("B", Mock.Activating 3)])))
              (snd (wait_for_active 5 [Mock.feature "A"; Mock.feature "B"] "visual"
                                    [("A", Mock.Activating 0); ("B", Mock.Activating 3)])))
    as (rounds & Hrounds & Hlen & _).
  - vm_compute. reflexivity.
  - exists rounds. split; [exact Hrounds | exact Hlen].
Defined.

(** A first round finds both scenes activating; in the second round the
    status check of the second scene is answered with 500. *)
Lemma wait_for_active_raises_witness :
  exists t,
    wait_for_active 3 [Mock.feature "A"; Mock.feature "B"] "visual"
      [Ok (Mock.json_response 200 (Mock.assets_json "A" Mock.Stuck));
       Ok (Mock.json_response 200 (Mock.assets_json "B" Mock.Stuck));
       Ok (Mock.json_response 200 (Mock.assets_json "A" Mock.Active));
       Ok (Mock.empty_response 500)] =
      (Raise (HTTPError 500), [], t) /\
    List.length t = 4%nat.
Proof.
  eexists. split.
  - eapply wait_for_active_raises_what_a_check_raises
      with (rounds := [[JStr "activating"; JStr "activating"]]).
    + eapply polled_cons; [vm_compute; reflexivity | apply polled_nil].
    + constructor; [reflexivity | constructor].
    + vm_compute. reflexivity.
    + cbn. lia.
  - reflexivity.
Defined.

(** A scene that reads [active] at its third status check: two checks, each
    followed by a pause, and the check that ends the wait. *)
Lemma poll_scene_witness :
  exists (k : nat) (w1 : Mock.server) (t1 : trace) (st : json) (ev : event),
    (k < 5)%nat /\
    waited (JStr (Mock.assets_url "A")) "visual" [("A", Mock.Activating 1)] k w1 t1 /\
    scene_check (JStr (Mock.assets_url "A")) "visual" w1
                (Mock.assets_json "A" Mock.Active) st [("A", Mock.Active)] ev /\
    eq_str st "active" = true /\
    snd (poll_scene 5 (JStr (Mock.assets_url "A")) "visual" [("A", Mock.Activating 1)])
      = t1 ++ [ev; EvPrint "Asset is active and ready to download"] /\
    sleeps (snd (poll_scene 5 (JStr (Mock.assets_url "A")) "visual"
                            [("A", Mock.Activating 1)])) = [1 # 2; 1 # 2]%Q.
Proof.
  destruct (proj1 (poll_scene_sleeps_between_checks
                     5 (JStr (Mock.assets_url "A")) "visual" [("A", Mock.Activating 1)]
                     [("A", Mock.Active)]
                     (Mock.assets_json "A" Mock.Active)
                     (snd (poll_scene 5 (JStr (Mock.assets_url "A")) "visual"
                                      [("A", Mock.Activating 1)]))))
    as (k & w1 & t1 & st & ev & Hlt & Hwaited & Hlast & Hactive & Ht).
  - vm_compute. reflexivity.
  - exists k, w1, t1, st, ev. repeat split; auto.
Defined.

(** ** The file-name pattern: what it finds and what it misses *)

Lemma free_of_app (c : ascii) (s1 s2 : string) :
  free_of c (s1 ++ s2)%string = (free_of c s1 && free_of c s2)%bool.
Proof.
  induction s1 as [| a s1 IH]; cbn; [reflexivity |].
  rewrite IH, andb_assoc. reflexivity.
Qed.

Lemma strip_prefix_app (p s : string) : strip_prefix p (p ++ s)%string = Some s.
Proof.
  induction p as [| a p IH]; cbn; [reflexivity |].
  rewrite Ascii.eqb_refl. exact IH.
Qed.

Lemma filename_prefix_has_quote : free_of dquote filename_prefix = false.
Proof. reflexivity. Qed.

Lemma match_here_needs_quote (s : string) :
  free_of dquote s = true -> match_here s = None.
Proof.
  intros Hfree. unfold match_here.
  destruct (strip_prefix filename_prefix s) as [rest |] eqn:Hp; [| reflexivity].
  apply strip_prefix_sound in Hp. subst s.
  rewrite free_of_app, filename_prefix_has_quote in Hfree. discriminate.
Qed.

Lemma free_of_tail (c a : ascii) (s : string) :
  free_of c (String a s) = true -> free_of c s = true.
Proof. cbn. intros H. apply andb_true_iff in H. tauto. Qed.

Lemma findall_no_quote (s : string) :
  free_of dquote s = true -> findall_from s 0 = [].
Proof.
  induction s as [| c s IH]; intros Hfree; [reflexivity |].
  cbn [findall_from]. rewrite (match_here_needs_quote _ Hfree).
  apply IH. eapply free_of_tail. exact Hfree.
Qed.

Lemma findall_skip (s1 s2 : string) :
  findall_from (s1 ++ s2)%string (String.length s1) = findall_from s2 0.
Proof.
  induction s1 as [| c s1 IH]; [reflexivity |].
  cbn [append String.length findall_from]. exact IH.
Qed.

Lemma findall_pass (pre s : string) :
  free_of "f"%char pre = true ->
  findall_from (pre ++ s)%string 0 = findall_from s 0.
Proof.
  induction pre as [| c pre IH]; intros Hfree; [reflexivity |].
  cbn [append findall_from].
  cbn [free_of] in Hfree. apply andb_true_iff in Hfree. destruct Hfree as [Hc Hrest].
  assert (Hm : match_here (String c (pre ++ s)) = None).
  { unfold match_here, filename_prefix. cbn [append strip_prefix].
    rewrite Ascii.eqb_sym. apply negb_true_iff in Hc. rewrite Hc. reflexivity. }
  rewrite Hm. apply IH. exact Hrest.
Qed.

Lemma line_prefix_app (a b : string) :
  free_of newline a = true -> line_prefix (a ++ b)%string = (a ++ line_prefix b)%string.
Proof.
  induction a as [| c a IH]; intros Hfree; [reflexivity |].
  cbn [free_of] in Hfree. apply andb_true_iff in Hfree. destruct Hfree as [Hc Hrest].
  cbn [append line_prefix]. apply negb_true_iff in Hc. rewrite Hc.
  rewrite (IH Hrest). reflexivity.
Qed.

Lemma free_of_line_prefix (c : ascii) (s : string) :
  free_of c s = true -> free_of c (line_prefix s) = true.
Proof.
  induction s as [| a s IH]; [reflexivity |].
  cbn [free_of line_prefix]. intros H. apply andb_true_iff in H. destruct H as [Ha Hs].
  destruct (Ascii.eqb a newline); [reflexivity |].
  cbn [free_of]. rewrite Ha, (IH Hs). reflexivity.
Qed.

Lemma before_last_quote_none (s : string) :
  free_of dquote s = true -> before_last_quote s = None.
Proof.
  induction s as [| c s IH]; [reflexivity |].
  cbn [free_of before_last_quote]. intros H.
  apply andb_true_iff in H. destruct H as [Hc Hs].
  rewrite (IH Hs). apply negb_true_iff in Hc. rewrite Hc. reflexivity.
Qed.

Lemma before_last_quote_last (a b : string) :
  free_of dquote b = true ->
  before_last_quote (a ++ String dquote b)%string = Some a.
Proof.
  intros Hb. induction a as [| c a IH].
  - cbn [append before_last_quote]. rewrite (before_last_quote_none _ Hb).
    rewrite Ascii.eqb_refl. reflexivity.
  - cbn [append before_last_quote]. rewrite IH. reflexivity.
Qed.

Lemma greedy_group_quoted (name post : string) :
  name <> "" ->
  free_of newline name = true ->
  free_of dquote post = true ->
  greedy_group (name ++ String dquote post)%string = Some name.
Proof.
  intros Hne Hline Hpost. unfold greedy_group.
  rewrite (line_prefix_app _ _ Hline).
  destruct name as [| c name]; [congruence |].
  cbn [append line_prefix].
  change (Ascii.eqb dquote newline) with false. cbv iota.
  rewrite (before_last_quote_last name (line_prefix post));
    [reflexivity | apply free_of_line_prefix; exact Hpost].
Qed.

Lemma length_string_app (a b : string) :
  String.length (a ++ b)%string = (String.length a + String.length b)%nat.
Proof. induction a as [| c a IH]; cbn; [reflexivity | rewrite IH; reflexivity]. Qed.

(** X14.  A header that reads [filename=], a name in double quotes and no
    double quote after it is read back exactly: the pattern finds one match,
    the name, whatever it is made of -- double quotes of its own included
    -- as long as it is not empty and holds no newline, and whatever
    precedes [filename=], as long as no letter [f] does. *)
Theorem quoted_filename_is_read_back (pre name post : string) :
  free_of "f"%char pre = true ->
  name <> "" ->
  free_of newline name = true ->
  free_of dquote post = true ->
  re_findall_filename (pre ++ filename_prefix ++ name ++ String dquote post)%string = [name].
Proof.
  intros Hpre Hne Hline Hpost. unfold re_findall_filename.
  rewrite (findall_pass _ _ Hpre).
  assert (Hm : match_here (filename_prefix ++ name ++ String dquote post)%string = Some name).
  { unfold match_here. rewrite strip_prefix_app.
    apply greedy_group_quoted; assumption. }
  change (filename_prefix ++ name ++ String dquote post)%string
    with (String "f"%char
            ("ilename=" ++ String dquote EmptyString ++ name ++ String dquote post))%string
    in *.
  cbn [findall_from]. rewrite Hm. f_equal.
  change ("ilename=" ++ String dquote EmptyString ++ name ++ String dquote post)%string
    with (("ilename=" ++ String dquote EmptyString)
            ++ (name ++ String dquote post))%string.
  rewrite <- string_app_assoc.
  change (String.length filename_prefix + String.length name)%nat
    with (S (String.length ("ilename=" ++ String dquote EmptyString)%string
             + String.length name))%nat.
  replace (S (String.length ("ilename=" ++ String dquote EmptyString)%string
              + String.length name))%nat
    with (String.length
            ((("ilename=" ++ String dquote EmptyString) ++ name)
               ++ String dquote EmptyString)%string).
  - change (String dquote post) with (String dquote EmptyString ++ post)%string.
    rewrite <- (string_app_assoc _ (String dquote EmptyString) post).
    rewrite findall_skip. apply findall_no_quote. exact Hpost.
  - rewrite !length_string_app. cbn. lia.
Qed.

(** X15.  A header without any double quote in it -- a file name given as a
    bare token, as in [attachment; filename=scene.tif] -- has no match of
    the pattern: taking the first match fails with [IndexError]. *)
Theorem unquoted_filename_is_not_found (disposition : string) :
  free_of dquote disposition = true ->
  re_findall_filename disposition = [] /\
  index0 (re_findall_filename disposition) = Err IndexError.
Proof.
  intros Hfree. unfold re_findall_filename.
  rewrite (findall_no_quote _ Hfree). split; reflexivity.
Qed.

(** The header of the notebook's kind, with a name that holds a quote. *)
Lemma quoted_filename_witness :
  re_findall_filename
    ("attachment; " ++ filename_prefix
       ++ ("scene " ++ String dquote "A" ++ String dquote " 2018.tif")
       ++ String dquote "; size=104857600")%string
  = [("scene " ++ String dquote "A" ++ String dquote " 2018.tif")%string].
Proof.
  apply (quoted_filename_is_read_back
           "attachment; "
           ("scene " ++ String dquote "A" ++ String dquote " 2018.tif")%string
           "; size=104857600").
  - reflexivity.
  - discriminate.
  - reflexivity.
  - reflexivity.
Defined.

Lemma unquoted_filename_witness :
  re_findall_filename "attachment; filename=scene.tif" = [] /\
  index0 (re_findall_filename "attachment; filename=scene.tif") = Err IndexError.
Proof.
  apply (unquoted_filename_is_not_found "attachment; filename=scene.tif").
  reflexivity.
Defined.

Lemma first_match_shape_witness :
  "scene.tif" <> "" /\ free_of newline "scene.tif" = true /\
  exists pre post,
    Mock.attachment "scene.tif" = (pre ++ filename_prefix ++ "scene.tif" ++ String dquote post)%string.
Proof.
  apply (first_match_shape (Mock.attachment "scene.tif") "scene.tif" []).
  reflexivity.
Defined.

(** ** The session: credentials, adapters, statuses and pauses *)

Module SessionEdges.

Import Session.
Import SessionFacts.

Section Hops.

Context {N : Type} {T : Transport N} {L : Locator}.

(** X16.  A call through the session of [setup_session] sends, in its first
    hop, first exchange and retries alike, the method in upper case, the
    prepared URL and the credentials of the session: as user name the key
    passed in, or the value of [PL_API_KEY], or the text [None] when there is
    neither, and the empty password.  Every later hop sends one request
    throughout, with the credentials of the session, with those the netrc
    file has for some URL, or with none. *)
Theorem session_sends_credentials_every_time
  (api_key : option string) (environ : string -> option string) (s : Session)
  (meth u prepared : string) (stream : bool) (n n' : N) (e : ending) (hops : list hop) :
  setup_session api_key environ = Return s ->
  prepare_url u = Some prepared ->
  request s meth u stream n = (e, n', hops) ->
  match hops with
  | [] => e = NoAdapter
  | h :: later =>
      hop_request h =
        {| method := upper meth;
           url := prepared;
           authorization :=
             Some (match (match api_key with
                          | Some k => Some k
                          | None => environ "PL_API_KEY"
                          end) with
                   | Some key => key
                   | None => "None"
                   end, "") |} /\
      Forall (fun h' =>
                authorization (hop_request h') =
                  Some (match (match api_key with
                               | Some k => Some k
                               | None => environ "PL_API_KEY"
                               end) with
                        | Some key => key
                        | None => "None"
                        end, "") \/
                authorization (hop_request h') = None \/
                exists v, authorization (hop_request h') = get_netrc_auth v) later
  end /\
  Forall (fun h =>
            sent (hop_wire h) <> [] /\
            Forall (eq (hop_request h)) (sent (hop_wire h))) hops.
Proof.
  intros Hsetup Hprepared Hrun.
  destruct (session_request_spec _ _ _ _ _ _ _ _ _ _ Hsetup Hrun)
    as [(Hnone & _) | (prepared' & Hsome & Hsend)]; [congruence |].
  rewrite Hprepared in Hsome. inversion Hsome; subst prepared'. clear Hsome.
  pose proof (send_spec _ _ _ _ _ _ _ _ _ Hsend) as (_ & _ & Hall & Hfirst & _).
  split.
  - destruct hops as [| h later]; [exact Hfirst |].
    split; [exact Hfirst |].
    eapply (send_requests
              (fun req =>
                 authorization req =
                   Some (match (match api_key with
                                | Some k => Some k
                                | None => environ "PL_API_KEY"
                                end) with
                         | Some key => key
                         | None => "None"
                         end, "") \/
                 authorization req = None \/
                 exists v, authorization req = get_netrc_auth v)) in Hsend.
    + inversion Hsend; subst. assumption.
    + intros req resp v Hreq. cbn [authorization]. unfold rebuild_auth.
      destruct (get_netrc_auth v) as [a |] eqn:Hnetrc.
      * right. right. exists v. symmetry. exact Hnetrc.
      * destruct (authorization req) as [a |]; [| auto].
        destruct (should_strip_auth (url req) v); [auto |].
        destruct Hreq as [H | [H | H]]; auto.
    + left. reflexivity.
  - eapply Forall_impl; [| exact Hall].
    intros h (r & n0 & n1 & _ & Hhop).
    destruct (urlopen_sends _ _ _ _ _ _ _ Hhop) as [rest Hrest].
    split; [rewrite Hrest; discriminate |].
    eapply urlopen_sent. exact Hhop.
Qed.

(** X17.  The retry policy is mounted for [https://] only: a hop to an
    [http://] URL is exactly one exchange, and it ends with the response of
    that exchange, a 429 included, or with its failure.  When it is the
    first hop, and its response is not a redirect to follow, the call
    returns that response as it came, if its body can be read when the call
    reads it. *)
Theorem http_requests_are_sent_once
  (api_key : option string) (environ : string -> option string) (s : Session)
  (meth u : string) (stream : bool) (n n' : N) (e : ending) (hops : list hop) :
  setup_session api_key environ = Return s ->
  request s meth u stream n = (e, n', hops) ->
  Forall (fun h =>
            starts_with "http://" (lower (url (hop_request h))) = true ->
            (exists resp,
               hop_wire h = [Attempt (hop_request h) resp] /\
               hop_ending h = Answered resp) \/
            (exists f,
               hop_wire h = [Fault (hop_request h) f] /\ hop_ending h = Broken f)) hops /\
  (forall (h : hop) (later : list hop) (resp : Response) (n1 : N),
     hops = h :: later ->
     starts_with "http://" (lower (url (hop_request h))) = true ->
     exchange (hop_request h) n = (Responded resp, n1) ->
     get_redirect_target resp = None ->
     stream = true \/ read_content resp n1 = None ->
     e = Answered resp /\ n' = n1 /\ later = [] /\
     hop_wire h = [Attempt (hop_request h) resp]).
Proof.
  intros Hsetup Hrun.
  destruct (session_request_spec _ _ _ _ _ _ _ _ _ _ Hsetup Hrun)
    as [(_ & _ & Hhops) | (prepared & Hprepared & Hsend)].
  { subst hops. split; [constructor | discriminate]. }
  pose proof (send_spec _ _ _ _ _ _ _ _ _ Hsend) as (_ & _ & Hall & Hfirst & _).
  split.
  - eapply Forall_impl; [| exact Hall].
    intros h (r & n0 & n1 & Hadapter & Hhop) Hhttp.
    rewrite (http_adapter _ Hhttp) in Hadapter. inversion Hadapter; subst r.
    cbn [total default_retries Z.to_nat] in Hhop.
    destruct (default_hop _ _ _ _ _ Hhop)
      as [(resp & Ht & He & _) | (f & Ht & He & _)]; eauto.
  - intros h later resp n1 Hhops Hhttp Hexchange Htarget Hbody. subst hops.
    cbn in Hfirst. rewrite Hfirst in Hhttp, Hexchange.
    rewrite (first_response_answered _ _ _ _ default_retries _ resp _ n1) in Hsend; auto.
    + inversion Hsend; subst. cbn. auto.
    + apply http_adapter. exact Hhttp.
    + apply is_retry_default.
Qed.

(** X18.  A response that a call through the session returns is the last
    one received in the last hop of the call.  When that hop went to an
    [https://] URL with a retried method (GET, HEAD, PUT, DELETE, OPTIONS,
    TRACE), the status of the response is not 429; so it is for a call to
    such a URL with such a method that followed no redirect. *)
Theorem https_get_never_returns_429
  (api_key : option string) (environ : string -> option string) (s : Session)
  (meth u : string) (stream : bool) (n n' : N) (resp : Response) (hops : list hop) :
  setup_session api_key environ = Return s ->
  request s meth u stream n = (Answered resp, n', hops) ->
  (exists (earlier : list hop) (h : hop),
     hops = earlier ++ [h] /\
     hop_ending h = Answered resp /\
     last (exchanges (hop_wire h)) (Backoff 0) = Attempt (hop_request h) resp /\
     (starts_with "https://" (lower (url (hop_request h))) = true ->
      is_method_retryable (method (hop_request h)) = true ->
      status_code resp <> 429)) /\
  (forall prepared : string,
     prepare_url u = Some prepared ->
     starts_with "https://" (lower prepared) = true ->
     is_method_retryable meth = true ->
     List.length hops = 1%nat ->
     status_code resp <> 429).
Proof.
  intros Hsetup Hrun.
  destruct (session_request_spec _ _ _ _ _ _ _ _ _ _ Hsetup Hrun)
    as [(_ & He & _) | (prepared & Hprepared & Hsend)]; [discriminate |].
  pose proof (send_spec _ _ _ _ _ _ _ _ _ Hsend) as (_ & _ & Hall & Hfirst & Hlast).
  destruct Hlast as [(earlier & h & Hhops & Hending) | [H | [H | [H | [f H]]]]];
    try discriminate.
  assert (Hh : last (exchanges (hop_wire h)) (Backoff 0) = Attempt (hop_request h) resp /\
               (starts_with "https://" (lower (url (hop_request h))) = true ->
                is_method_retryable (method (hop_request h)) = true ->
                status_code resp <> 429)).
  { subst hops. apply Forall_app in Hall. destruct Hall as [_ Hall].
    inversion Hall as [| ? ? (r & n0 & n1 & Hadapter & Hhop) _]; subst.
    rewrite Hending in Hhop.
    destruct (urlopen_answered _ _ _ _ _ _ _ Hhop) as [Hl Hforce].
    split; [exact Hl |].
    intros Hhttps Hm Hcode.
    apply session_adapter in Hadapter.
    destruct Hadapter as [[Hr _] | [_ Hhttp]].
    - subst r. specialize (Hforce Hm). rewrite Hcode in Hforce. discriminate Hforce.
    - rewrite (http_is_not_https _ Hhttp) in Hhttps. discriminate Hhttps. }
  split.
  - exists earlier, h. destruct Hh. auto.
  - intros prepared' Hp Hhttps Hm Hone.
    rewrite Hprepared in Hp. inversion Hp; subst prepared'.
    destruct earlier as [| h0 earlier]; subst hops;
      [| rewrite length_app in Hone; cbn in Hone; lia].
    cbn in Hfirst. destruct Hh as [_ Hh]. apply Hh; rewrite Hfirst; cbn [url method].
    + exact Hhttps.
    + unfold is_method_retryable in *. rewrite upper_upper. exact Hm.
Qed.

(** X19.  Only status 429 is in the force list: a first response with
    another status, which is not a 413 or 503 carrying [Retry-After] nor a
    redirect to follow, is returned after that single exchange, if its body
    can be read when the call reads it.  So are 500, 401 and 200. *)
Theorem other_statuses_are_not_retried
  (api_key : option string) (environ : string -> option string) (s : Session)
  (meth u prepared : string) (stream : bool) (n n1 : N) (resp : Response) :
  setup_session api_key environ = Return s ->
  prepare_url u = Some prepared ->
  starts_with "https://" (lower prepared) = true \/
  starts_with "http://" (lower prepared) = true ->
  exchange {| method := upper meth;
              url := prepared;
              authorization :=
                Some (match (match api_key with
                             | Some k => Some k
                             | None => environ "PL_API_KEY"
                             end) with
                      | Some key => key
                      | None => "None"
                      end, "") |} n = (Responded resp, n1) ->
  status_code resp <> 429 ->
  (has_retry_after resp = true -> status_code resp <> 413 /\ status_code resp <> 503) ->
  get_redirect_target resp = None ->
  stream = true \/ read_content resp n1 = None ->
  exists h : hop,
    request s meth u stream n = (Answered resp, n1, [h]) /\
    hop_ending h = Answered resp /\
    exchanges (hop_wire h) = [Attempt (hop_request h) resp] /\
    hop_wire h = [Attempt (hop_request h) resp].
Proof.
  intros Hsetup Hprepared Hurl Hexchange Hcode Hafter Htarget Hbody.
  destruct (setup_session_adapters _ _ _ Hsetup) as [Hauth Hadapters].
  unfold request. rewrite Hprepared, Hauth, Hadapters.
  unfold basic_credentials. cbn [fst snd].
  assert (Hadapter :
            exists r, get_adapter [("https://", https_retries); ("http://", default_retries)]
                                  prepared = Some r /\
                      (r = https_retries \/ r = default_retries)).
  { destruct Hurl as [H | H].
    - exists https_retries. split; [| auto]. cbn [get_adapter].
      change (lower "https://") with "https://". rewrite H. reflexivity.
    - exists default_retries. split; [apply http_adapter; exact H | auto]. }
  destruct Hadapter as (r & Hadapter & Hr).
  assert (Hretry : is_retry r (upper meth) (status_code resp) (has_retry_after resp)
                   = false).
  { unfold is_retry.
    destruct (negb (is_method_retryable (upper meth))); [reflexivity |].
    assert (Hforce : mem_Z (status_code resp) (status_forcelist r) = false).
    { destruct Hr; subst r; [| reflexivity].
      unfold mem_Z. cbn. rewrite orb_false_r. apply Z.eqb_neq. exact Hcode. }
    rewrite Hforce.
    destruct (has_retry_after resp) eqn:Hra; [| rewrite andb_false_r; reflexivity].
    destruct (Hafter eq_refl) as [H413 H503].
    replace (mem_Z (status_code resp) retry_after_status_codes) with false;
      [apply andb_false_r |].
    symmetry. unfold mem_Z. cbn.
    apply Z.eqb_neq in Hcode, H413, H503. rewrite Hcode, H413, H503. reflexivity. }
  eexists. split.
  - eapply (first_response_answered _ _ _ _ r);
      [exact Hadapter | exact Hexchange | exact Hretry | exact Htarget | exact Hbody].
  - cbn. repeat split.
Qed.

Lemma total_pause_hops (budget : Q) (hops : list hop) :
  Forall (fun h => (total_pause (pauses (hop_wire h)) <= budget)%Q) hops ->
  (total_pause (flat_map (fun h => pauses (hop_wire h)) hops)
   <= inject_Z (Z.of_nat (List.length hops)) * budget)%Q.
Proof.
  induction hops as [| h hops IH]; intros Hall.
  - cbn. unfold Qle. cbn. lia.
  - inversion Hall as [| ? ? Hh Hrest]; subst.
    cbn [flat_map List.length]. rewrite total_pause_app.
    rewrite Nat2Z.inj_succ. unfold Z.succ. rewrite inject_Z_plus.
    rewrite Qmult_plus_distr_l, Qmult_1_l, Qplus_comm.
    apply Qplus_le_compat; [apply IH; exact Hrest | exact Hh].
Qed.

(** X20.  In every hop of a call through the session the pauses of the
    backoff add up to at most thirty times the double [0.2], which is six
    seconds and three parts in 2^53, whatever the service answers; over the
    whole call, with its 31 hops at most, to at most 31 times as much.  (The
    pauses a [Retry-After] header asks for are not bounded.) *)
Theorem session_backoff_is_bounded
  (api_key : option string) (environ : string -> option string) (s : Session)
  (meth u : string) (stream : bool) (n n' : N) (e : ending) (hops : list hop) :
  setup_session api_key environ = Return s ->
  request s meth u stream n = (e, n', hops) ->
  Forall (fun h => (total_pause (pauses (hop_wire h)) <= backoff_budget)%Q) hops /\
  (total_pause (flat_map (fun h => pauses (hop_wire h)) hops) <= 31 * backoff_budget)%Q /\
  (backoff_budget == 30 * double_0_2)%Q /\
  (backoff_budget == 6 + (3 # 9007199254740992))%Q.
Proof.
  intros Hsetup Hrun.
  assert (Hhops : Forall (fun h => (total_pause (pauses (hop_wire h)) <= backoff_budget)%Q)
                         hops /\ (List.length hops <= 31)%nat).
  { destruct (session_request_spec _ _ _ _ _ _ _ _ _ _ Hsetup Hrun)
      as [(_ & _ & Hhops) | (prepared & Hprepared & Hsend)].
    - subst hops. split; [constructor | cbn; lia].
    - pose proof (send_spec _ _ _ _ _ _ _ _ _ Hsend) as (_ & Hlen & Hall & _).
      split; [| exact Hlen].
      eapply Forall_impl; [| exact Hall].
      intros h (r & n0 & n1 & Hadapter & Hhop).
      apply session_adapter in Hadapter.
      assert (Hr : r = https_retries \/ r = default_retries)
        by (destruct Hadapter as [[H _] | [H _]]; auto).
      destruct (session_hop _ _ _ _ _ _ Hr Hhop) as (_ & _ & _ & _ & Hbudget).
      exact Hbudget. }
  destruct Hhops as [Hall Hlen].
  split; [exact Hall |]. split; [| split; reflexivity].
  eapply Qle_trans; [apply total_pause_hops; exact Hall |].
  apply Qmult_le_compat_r; [| unfold Qle; vm_compute; discriminate].
  unfold Qle. cbn [Qnum Qden inject_Z]. lia.
Qed.

End Hops.

(** A key is passed in; the GET is answered by 429, then by a redirect to
    another host, which answers 200.  Both exchanges of the first hop carry
    the key; the second hop carries no credentials. *)
Lemma session_credentials_witness :
  exists (s : Session) (h1 h2 : hop),
    setup_session (Some "PLAK-key") (fun _ => None) = Return s /\
    snd (request s "get" "https://api.planet.com/data/v1/item-types" true
                 [reply_of 429; redirect_reply 302 "https://tiles.planet.com/x";
                  reply_of 200]) = [h1; h2] /\
    hop_request h1 =
      {| method := "GET";
         url := "https://api.planet.com/data/v1/item-types";
         authorization := Some ("PLAK-key", "") |} /\
    sent (hop_wire h1) = [hop_request h1; hop_request h1] /\
    authorization (hop_request h2) = None.
Proof.
  do 3 eexists. split; [reflexivity |].
  match goal with
  | |- context [request ?s _ _ _ _] =>
      edestruct (session_sends_credentials_every_time
                   (N := list reply) (T := scripted_transport) (L := scripted_locator)
                   (Some "PLAK-key") (fun _ => None) s "get"
                   "https://api.planet.com/data/v1/item-types"
                   "https://api.planet.com/data/v1/item-types" true
                   [reply_of 429; redirect_reply 302 "https://tiles.planet.com/x";
                    reply_of 200])
        as [Hfirst _]; [reflexivity | reflexivity | vm_compute; reflexivity |]
  end.
  cbv beta iota in Hfirst. destruct Hfirst as [Hrequest _].
  split; [vm_compute; reflexivity |].
  split; [exact Hrequest |]. split; reflexivity.
Defined.

(** A GET redirected from [https://] to an [http://] URL that answers 429:
    the second hop is one exchange and the call returns the 429. *)
Lemma http_request_witness :
  exists (s : Session) (h1 h2 : hop),
    setup_session None (fun _ => None) = Return s /\
    request s "GET" "https://api.planet.com/data/v1/item-types" false
            [redirect_reply 302 "http://tiles.planet.com/x"; reply_of 429]
      = (Answered (plain_response 429), [], [h1; h2]) /\
    (exists resp,
       hop_wire h2 = [Attempt (hop_request h2) resp] /\ hop_ending h2 = Answered resp).
Proof.
  do 3 eexists. split; [reflexivity |].
  match goal with
  | |- context [request ?s _ _ _ _] =>
      edestruct (http_requests_are_sent_once
                   (N := list reply) (T := scripted_transport) (L := scripted_locator)
                   None (fun _ => None) s "GET"
                   "https://api.planet.com/data/v1/item-types" false
                   [redirect_reply 302 "http://tiles.planet.com/x"; reply_of 429])
        as [Hall _]; [reflexivity | vm_compute; reflexivity |]
  end.
  split; [vm_compute; reflexivity |].
  inversion Hall as [| ? ? _ Hrest]; subst.
  inversion Hrest as [| ? ? Hsecond _]; subst.
  destruct (Hsecond eq_refl) as [Hanswered | [f [_ Hbroken]]];
    [exact Hanswered | discriminate Hbroken].
Defined.

(** A GET answered by 429 twice and then by 200 returns the 200. *)
Lemma https_get_witness :
  exists (s : Session) (h : hop),
    setup_session None (fun _ => None) = Return s /\
    request s "GET" "https://api.planet.com/data/v1/item-types" false
            [reply_of 429; reply_of 429; reply_of 200]
      = (Answered (plain_response 200), [], [h]) /\
    List.length (exchanges (hop_wire h)) = 3%nat /\
    status_code (plain_response 200) <> 429.
Proof.
  do 2 eexists. split; [reflexivity |].
  match goal with
  | |- context [request ?s _ _ _ _] =>
      edestruct (https_get_never_returns_429
                   (N := list reply) (T := scripted_transport) (L := scripted_locator)
                   None (fun _ => None) s "GET"
                   "https://api.planet.com/data/v1/item-types" false
                   [reply_of 429; reply_of 429; reply_of 200])
        as [_ Hstatus]; [reflexivity | vm_compute; reflexivity |]
  end.
  split; [vm_compute; reflexivity |]. split; [reflexivity |].
  apply (Hstatus "https://api.planet.com/data/v1/item-types"); reflexivity.
Defined.

(** A GET answered by 500 returns it after one exchange. *)
Lemma status_500_witness :
  exists (s : Session) (h : hop),
    setup_session None (fun _ => None) = Return s /\
    request s "GET" "https://api.planet.com/data/v1/item-types" false [reply_of 500]
      = (Answered (plain_response 500), [], [h]) /\
    hop_wire h = [Attempt (hop_request h) (plain_response 500)].
Proof.
  eexists.
  match goal with
  | |- context [request ?s _ _ _ _] =>
      edestruct (other_statuses_are_not_retried
                   (N := list reply) (T := scripted_transport) (L := scripted_locator)
                   None (fun _ => None) s "GET"
                   "https://api.planet.com/data/v1/item-types"
                   "https://api.planet.com/data/v1/item-types" false [reply_of 500] []
                   (plain_response 500))
        as (h & Hrun & _ & _ & Hwire);
        [reflexivity | reflexivity | left; reflexivity | reflexivity | discriminate
         | discriminate | reflexivity | right; reflexivity |]
  end.
  exists h. split; [reflexivity |]. split; [exact Hrun | exact Hwire].
Defined.

(** A GET answered by 429 five times and then by 200 pauses four times: the
    whole of the budget of a hop. *)
Lemma backoff_total_witness :
  exists (s : Session) (h : hop),
    setup_session None (fun _ => None) = Return s /\
    request s "GET" "https://api.planet.com/data/v1/item-types" false
            [reply_of 429; reply_of 429; reply_of 429; reply_of 429; reply_of 429]
      = (Answered (plain_response 200), [], [h]) /\
    (total_pause (pauses (hop_wire h)) <= backoff_budget)%Q /\
    (total_pause (pauses (hop_wire h)) == backoff_budget)%Q /\
    (6 < backoff_budget)%Q.
Proof.
  do 2 eexists. split; [reflexivity |].
  match goal with
  | |- context [request ?s _ _ _ _] =>
      edestruct (session_backoff_is_bounded
                   (N := list reply) (T := scripted_transport) (L := scripted_locator)
                   None (fun _ => None) s "GET"
                   "https://api.planet.com/data/v1/item-types" false
                   [reply_of 429; reply_of 429; reply_of 429; reply_of 429; reply_of 429])
        as [Hall _]; [reflexivity | vm_compute; reflexivity |]
  end.
  split; [vm_compute; reflexivity |].
  inversion Hall as [| ? ? Hhop _]; subst.
  split; [exact Hhop |]. split; reflexivity.
Defined.

End SessionEdges.

